(** * Tasker: the task lifecycle engine

    A shallow embedding of the Tasker service (FastAPI ingress, SQLAlchemy
    task table, Redis output cache, Celery workers) and the properties its
    specification states about it.

    Layout:
    - Python values, exceptions and a state-and-exception monad;
    - [app/config.py], [app/models/task.py], [app/api/schemas.py];
    - [app/core/cache.py] over a model of the Redis client;
    - [app/tasks/*.py]: the task bodies, [BaseTask.run], the Celery entry
      points, over a model of Celery's retry and delivery;
    - [app/api/routes.py]: the validator, [run_task], [get_task_output];
    - the vocabulary of the statements, the scenarios, and the theorems.

    Left out of the model: logging; the counters and histograms other
    than the status gauge and the observations of the execution duration;
    the passing of time (a time to live that runs out, the wait before a
    retry is delivered, the time limits of a task); errors of the
    database. Workers are taken one delivery at a time. *)

From Stdlib Require Import Ascii String ZArith List Bool Lia Floats DecimalString.
From stdpp Require Import gmap strings.

Local Open Scope string_scope.
Local Open Scope Z_scope.

(** ** Python values *)

(** The values JSON decoding produces, and the ones the task bodies build.
    A [str] is a sequence of code points below 256, one per character of
    the Rocq string; a [float] is an IEEE 754 binary64 number, as in
    CPython; a [dict] has string keys. *)
#[warnings="-register-all"]
Inductive pyval :=
| VNone
| VBool (b : bool)
| VInt (z : Z)
| VFloat (f : float)
| VStr (s : string)
| VList (l : list pyval)
| VDict (d : gmap string pyval).

(** [isinstance(v, (int, float))]: [bool] is a subclass of [int]. *)
Definition is_number (v : pyval) : bool :=
  match v with
  | VBool _ | VInt _ | VFloat _ => true
  | _ => false
  end.

(** [isinstance(v, int)]. *)
Definition is_int (v : pyval) : bool :=
  match v with
  | VBool _ | VInt _ => true
  | _ => false
  end.

(** [isinstance(v, str)]. *)
Definition is_str (v : pyval) : bool :=
  match v with
  | VStr _ => true
  | _ => false
  end.

(** The integer a [bool] or [int] stands for in arithmetic. *)
Definition int_value (v : pyval) : option Z :=
  match v with
  | VBool b => Some (Z.b2z b)
  | VInt z => Some z
  | _ => None
  end.

(** Truth value testing ([if v:], [not v]). *)
Definition truthy (v : pyval) : bool :=
  match v with
  | VNone => false
  | VBool b => b
  | VInt z => negb (z =? 0)
  | VFloat f => negb (PrimFloat.eqb f 0%float)
  | VStr s => negb (String.eqb s "")
  | VList l => match l with [] => false | _ => true end
  | VDict d => negb (bool_decide (d = ∅))
  end.

Definition str_of_Z (z : Z) : string := NilZero.string_of_int (Z.to_int z).

(** *** Numbers *)

(** [float(z)]: the binary64 number nearest to [z] (ties to even).
    CPython raises [OverflowError] when it is not finite: [None] here. *)
Definition float_of_int (z : Z) : option float :=
  match binary_normalize prec emax z 0 false with
  | S754_infinity _ | S754_nan => None
  | sf => Some (SF2Prim sf)
  end.

(** How an [int] compares with a [float]: CPython compares the exact
    values; [None] when the [float] is a NaN (every comparison is false). *)
Definition int_cmp_float (z : Z) (f : float) : option comparison :=
  match Prim2SF f with
  | S754_nan => None
  | S754_infinity s => Some (if s then Gt else Lt)
  | S754_zero _ => Some (z ?= 0)
  | S754_finite s m e =>
      let v := if s then Z.neg m else Z.pos m in
      Some (if 0 <=? e then z ?= v * 2 ^ e else z * 2 ^ (- e) ?= v)
  end.

(** [z > f]. *)
Definition int_gt_float (z : Z) (f : float) : bool :=
  match int_cmp_float z f with
  | Some Gt => true
  | _ => false
  end.

(** [z <= f]. *)
Definition int_le_float (z : Z) (f : float) : bool :=
  match int_cmp_float z f with
  | Some Lt | Some Eq => true
  | _ => false
  end.

(** [f <= z]. *)
Definition float_le_int (f : float) (z : Z) : bool :=
  match int_cmp_float z f with
  | Some Gt | Some Eq => true
  | _ => false
  end.

(** [abs(v) > bound] for a number [v] and a [float] bound. *)
Definition abs_gt (v : pyval) (bound : float) : bool :=
  match v with
  | VBool b => int_gt_float (Z.b2z b) bound
  | VInt z => int_gt_float (Z.abs z) bound
  | VFloat f => PrimFloat.ltb bound (PrimFloat.abs f)
  | _ => false
  end.

(** [math.isnan(v) or math.isinf(v)]; an [int] that converts to a [float]
    is neither. *)
Definition isnan_or_isinf (v : pyval) : bool :=
  match v with
  | VFloat f => PrimFloat.is_nan f || PrimFloat.is_infinity f
  | _ => false
  end.

(** [lo <= v <= hi] for a number [v] and integer bounds. *)
Definition between (lo : Z) (v : pyval) (hi : Z) : bool :=
  match v with
  | VBool b => (lo <=? Z.b2z b) && (Z.b2z b <=? hi)
  | VInt z => (lo <=? z) && (z <=? hi)
  | VFloat f => int_le_float lo f && float_le_int f hi
  | _ => false
  end.

(** [a + b] for two numbers: integer addition unless a [float] is
    involved; [None] stands for the [OverflowError] of [float(int)]. *)
Definition py_add (a b : pyval) : option pyval :=
  match a, b with
  | VFloat x, VFloat y => Some (VFloat (x + y)%float)
  | VFloat x, _ =>
      z ← int_value b; y ← float_of_int z; Some (VFloat (x + y)%float)
  | _, VFloat y =>
      z ← int_value a; x ← float_of_int z; Some (VFloat (x + y)%float)
  | _, _ => x ← int_value a; y ← int_value b; Some (VInt (x + y))
  end.

(** *** Strings *)

(** [str.isspace] on one character (code points below 256). *)
Definition isspace (c : ascii) : bool :=
  let n := Z.of_N (Ascii.N_of_ascii c) in
  ((9 <=? n) && (n <=? 13)) || ((28 <=? n) && (n <=? 32)) ||
  (n =? 133) || (n =? 160).

Fixpoint lstrip (s : string) : string :=
  match s with
  | String c r => if isspace c then lstrip r else s
  | EmptyString => EmptyString
  end.

Fixpoint rstrip (s : string) : string :=
  match s with
  | String c r =>
      match rstrip r with
      | EmptyString => if isspace c then EmptyString else String c EmptyString
      | r' => String c r'
      end
  | EmptyString => EmptyString
  end.

(** [s.strip()]. *)
Definition strip (s : string) : string := rstrip (lstrip s).

(** [len(s)]. *)
Definition len (s : string) : Z := Z.of_nat (String.length s).

(** [needle in haystack]. *)
Fixpoint contains (needle haystack : string) : bool :=
  String.prefix needle haystack ||
  match haystack with
  | String _ r => contains needle r
  | EmptyString => false
  end.

(** A character of the class [[\w\s\-\.,\']] under [re.UNICODE]: [\w] is a
    character [str.isalnum] accepts, or the underscore. *)
Definition city_char (c : ascii) : bool :=
  let n := Z.of_N (Ascii.N_of_ascii c) in
  let alnum :=
    ((48 <=? n) && (n <=? 57)) || ((65 <=? n) && (n <=? 90)) ||
    ((97 <=? n) && (n <=? 122)) ||
    (n =? 170) || (n =? 178) || (n =? 179) || (n =? 181) ||
    ((185 <=? n) && (n <=? 186)) || ((188 <=? n) && (n <=? 190)) ||
    ((192 <=? n) && (n <=? 214)) || ((216 <=? n) && (n <=? 246)) ||
    (248 <=? n) in
  alnum || (n =? 95) || isspace c ||
  (n =? 45) || (n =? 46) || (n =? 44) || (n =? 39).

(** [re.match(r"^[\w\s\-\.,\']+$", s, re.UNICODE)] finds a match. *)
Definition city_re_match (s : string) : bool :=
  negb (String.eqb s "") && forallb city_char (list_ascii_of_string s).

(** ** Exceptions and the monad *)

Inductive exn_class :=
| ValueError
| TypeError
| KeyError
| IndexError
| AttributeError
| OverflowError
| RuntimeError
| ValidationError            (* pydantic *)
| HTTPException (status_code : Z)   (* fastapi *)
| RedisError                 (* redis.exceptions *)
| HTTPXRequestError          (* httpx.RequestError, but for timeouts *)
| OpenAIError                (* openai *)
| Retry.                     (* celery.exceptions *)

(** An exception: its class and [str(e)]. *)
Record exn := Exn { exn_type : exn_class; str : string }.

(** [isinstance(e, ValueError)]. *)
Definition is_ValueError (e : exn) : bool :=
  match exn_type e with
  | ValueError => true
  | _ => false
  end.

Definition HTTP_400_BAD_REQUEST : Z := 400.
Definition HTTP_404_NOT_FOUND : Z := 404.

(** What a call produces: it returns a value or raises. *)
Inductive outcome (A : Type) :=
| Return (a : A)
| Raise (e : exn).
Arguments Return {A} a.
Arguments Raise {A} e.

(** A computation over a state [S]: effects made before a [raise] stay. *)
Definition M (S A : Type) : Type := S -> outcome A * S.

Definition ret {S A} (a : A) : M S A := fun s => (Return a, s).
Definition raise {S A} (e : exn) : M S A := fun s => (Raise e, s).
Definition bind {S A B} (m : M S A) (k : A -> M S B) : M S B :=
  fun s =>
    match m s with
    | (Return a, s') => k a s'
    | (Raise e, s') => (Raise e, s')
    end.
(** [try: m  except Exception as e: h e]. *)
Definition try_except {S A} (m : M S A) (h : exn -> M S A) : M S A :=
  fun s =>
    match m s with
    | (Return a, s') => (Return a, s')
    | (Raise e, s') => h e s'
    end.
Definition gets {S A} (f : S -> A) : M S A := fun s => (Return (f s), s).
Definition modify {S} (f : S -> S) : M S unit := fun s => (Return tt, f s).
(** A pure call that may raise. *)
Definition lift {S A} (o : outcome A) : M S A := fun s => (o, s).

Declare Scope py_scope.
Delimit Scope py_scope with py.
Notation "x <- m ;; k" := (bind m (fun x => k))
  (at level 100, m at next level, right associativity) : py_scope.
Notation "m ;; k" := (bind m (fun _ => k))
  (at level 100, right associativity) : py_scope.
Notation "'when' c 'then_raise' e ;; k" :=
  (if c then raise e else k)
  (at level 100, c at next level, e at next level, right associativity)
  : py_scope.

(** ** app/config.py *)

(** The settings the engine reads. *)
Record Settings := {
  cache_ttl_seconds : Z;
  openai_api_key : string;
  max_prompt_length : Z;
  max_city_length : Z;
  max_number_value : float;
}.

(** [get_settings()] with no override from the environment. *)
Definition settings : Settings := {|
  cache_ttl_seconds := 3600;
  openai_api_key := "";
  max_prompt_length := 10000;
  max_city_length := 100;
  max_number_value := 1e15;
|}.

(** [f"{settings.max_number_value}"]: the [str] of the float [1e15]. *)
Definition str_max_number_value : string := "1000000000000000.0".

(** [s.split(sep)] for a separator of one character. *)
Fixpoint split_on (sep : ascii) (s : string) : list string :=
  match s with
  | EmptyString => [EmptyString]
  | String c r =>
      if Ascii.eqb c sep then EmptyString :: split_on sep r
      else
        match split_on sep r with
        | x :: xs => String c x :: xs
        | [] => [String c EmptyString]
        end
  end.

(** [Settings.parse_cors_origins]: a string is cut at the commas, the
    pieces stripped and the empty ones dropped; a list is kept as it is. *)
Definition parse_cors_origins (v : string + list string) : list string :=
  match v with
  | inl s =>
      List.map strip
        (List.filter (fun origin => negb (String.eqb (strip origin) ""))
           (split_on "," s))
  | inr l => l
  end.

(** ** app/models/task.py and app/api/schemas.py *)

Inductive TaskStatus := PENDING | RUNNING | COMPLETED | FAILED.

Definition TaskStatus_value (s : TaskStatus) : string :=
  match s with
  | PENDING => "pending"
  | RUNNING => "running"
  | COMPLETED => "completed"
  | FAILED => "failed"
  end.

Inductive TaskName := SUM | CHATGPT | WEATHER.

Definition TaskName_value (n : TaskName) : string :=
  match n with
  | SUM => "sum"
  | CHATGPT => "chatgpt"
  | WEATHER => "weather"
  end.

(** A UUID, in its canonical text form: [str(u)] and [UUID(s)] are the
    identity. *)
Definition UUID : Type := string.

(** The canonical text of a UUID, as [str] gives it: 32 lowercase
    hexadecimal digits in groups of 8, 4, 4, 4 and 12, with a hyphen
    between the groups. *)
Definition hex_digit (c : ascii) : bool :=
  let n := Z.of_N (Ascii.N_of_ascii c) in
  ((48 <=? n) && (n <=? 57)) || ((97 <=? n) && (n <=? 102)).

Fixpoint uuid_chars (i : nat) (l : list ascii) : bool :=
  match l with
  | [] => Nat.eqb i 36
  | c :: l' =>
      (if Nat.eqb i 8 || Nat.eqb i 13 || Nat.eqb i 18 || Nat.eqb i 23
       then Ascii.eqb c "-" else hex_digit c) &&
      uuid_chars (S i) l'
  end.

Definition canonical_uuid (s : string) : bool :=
  uuid_chars 0 (list_ascii_of_string s).

(** A [datetime], as a number of seconds. *)
Definition datetime : Type := Z.

(** A row of the [tasks] table. The [status] column only ever receives
    the value of a [TaskStatus] member. *)
Module Task.
Record t := mk {
  id : UUID;
  task_name : string;
  task_parameters : gmap string pyval;
  status : TaskStatus;
  result : option pyval;
  error_message : option string;
  created_at : datetime;
  updated_at : option datetime;
  completed_at : option datetime;
}.
End Task.

(** The schemas. Their fields are prefixed here, Rocq having one name
    space for the projections of all records. *)
Record RunTaskRequest := {
  req_task_name : TaskName;
  req_task_parameters : gmap string pyval;
}.

Record RunTaskResponse := {
  resp_task_uuid : UUID;
  resp_message : string;
}.

Record TaskOutputResponse := {
  out_task_uuid : UUID;
  out_task_name : string;
  out_status : TaskStatus;
  out_task_output : option pyval;
  out_error_message : option string;
  out_created_at : datetime;
  out_completed_at : option datetime;
}.

(** ** The world the service runs in *)

(** *** Redis *)

(** What a Redis string holds, by how [CacheService.get] reads it back:
    - [ViewJson r]: the text [json.dumps(r.model_dump(mode="json"))]; it
      loads as a dict that validates as the response [r];
    - [Json v]: any other JSON text, which [json.loads] reads as [v] (it
      does not validate as a response);
    - [Text s]: a text [json.loads] rejects. *)
Inductive redis_value :=
| ViewJson (r : TaskOutputResponse)
| Json (v : pyval)
| Text (s : string).

(** The Python object [CacheService.get] hands back. *)
Inductive cached :=
| CachedView (r : TaskOutputResponse)   (* the dict of a response *)
| CachedValue (v : pyval).

Definition cached_truthy (c : option cached) : bool :=
  match c with
  | None => false
  | Some (CachedView _) => true          (* a dict with seven keys *)
  | Some (CachedValue v) => truthy v
  end.

(** The server behind the client: it answers, refuses writes (a read-only
    replica, or out of memory under [noeviction]), or is unreachable. *)
Inductive redis_health := Healthy | WritesRefused | Unreachable.

(** The server's keys, each with the time to live it was set with. *)
Record Redis := {
  data : gmap string (Z * redis_value);
  health : redis_health;
}.

(** *** Celery's broker *)

(** A message of the broker: the task, its arguments ([task_uuid] and the
    keyword arguments), how many times it has been retried, and the delay
    before it is delivered. *)
Record Message := {
  msg_task : TaskName;
  msg_task_uuid : string;
  msg_kwargs : gmap string pyval;
  msg_retries : nat;
  msg_countdown : Z;
}.

(** *** External services *)

(** What an HTTP GET through [httpx] comes back with. [json] is what
    [response.json()] gives: the decoded body, or the message of the
    [json.JSONDecodeError] (a [ValueError]) it raises. *)
Inductive http_reply :=
| HttpResponse (status_code : Z) (json : string + pyval)
| HttpTimeout                          (* httpx.TimeoutException *)
| HttpRequestFailed (msg : string).    (* any other httpx.RequestError *)

(** What [client.chat.completions.create] comes back with: the contents
    of the choices and the token usage, or an [OpenAIError]. *)
Inductive openai_reply :=
| Completion (choices : list pyval) (usage : option (Z * Z * Z))
| OpenAIFailed (msg : string).

(** The services the task bodies call, as the sequence of their answers. *)
Record ext_env := {
  http : nat -> http_reply;
  http_calls : nat;
  openai : nat -> openai_reply;
  openai_calls : nat;
}.

(** *** Observable effects *)

Inductive event :=
| SessionGet (task_uuid : UUID)                    (* session.get(Task, id) *)
| SessionCommit (task_uuid : UUID) (s : TaskStatus) (* a row is written *)
| RedisGet (key : string)
| RedisSetex (key : string) (ttl : Z)
| Publish (m : Message)                            (* a message is queued *)
| ObserveDuration (task_name : string).  (* task_execution_duration.observe *)

(** *** The state *)

Record world := {
  db : gmap UUID Task.t;              (* the tasks table *)
  redis : option Redis;               (* cache_service._redis *)
  broker : list Message;              (* Celery's queue, oldest first *)
  tasks_by_status : gmap string Z;    (* the gauge, by label *)
  log : list event;                   (* the effects so far, oldest first *)
  ext : ext_env;
  utcnow : datetime;                  (* the clock *)
  uuid4 : nat -> UUID;                (* the identifiers uuid4() draws *)
  uuid4_calls : nat;
}.

Definition set_db (f : gmap UUID Task.t -> gmap UUID Task.t) (w : world) : world :=
  {| db := f (db w); redis := redis w; broker := broker w;
     tasks_by_status := tasks_by_status w; log := log w; ext := ext w;
     utcnow := utcnow w; uuid4 := uuid4 w; uuid4_calls := uuid4_calls w |}.

Definition set_redis (f : option Redis -> option Redis) (w : world) : world :=
  {| db := db w; redis := f (redis w); broker := broker w;
     tasks_by_status := tasks_by_status w; log := log w; ext := ext w;
     utcnow := utcnow w; uuid4 := uuid4 w; uuid4_calls := uuid4_calls w |}.

Definition set_broker (f : list Message -> list Message) (w : world) : world :=
  {| db := db w; redis := redis w; broker := f (broker w);
     tasks_by_status := tasks_by_status w; log := log w; ext := ext w;
     utcnow := utcnow w; uuid4 := uuid4 w; uuid4_calls := uuid4_calls w |}.

Definition set_gauge (f : gmap string Z -> gmap string Z) (w : world) : world :=
  {| db := db w; redis := redis w; broker := broker w;
     tasks_by_status := f (tasks_by_status w); log := log w; ext := ext w;
     utcnow := utcnow w; uuid4 := uuid4 w; uuid4_calls := uuid4_calls w |}.

Definition set_log (f : list event -> list event) (w : world) : world :=
  {| db := db w; redis := redis w; broker := broker w;
     tasks_by_status := tasks_by_status w; log := f (log w); ext := ext w;
     utcnow := utcnow w; uuid4 := uuid4 w; uuid4_calls := uuid4_calls w |}.

Definition set_ext (e : ext_env) (w : world) : world :=
  {| db := db w; redis := redis w; broker := broker w;
     tasks_by_status := tasks_by_status w; log := log w; ext := e;
     utcnow := utcnow w; uuid4 := uuid4 w; uuid4_calls := uuid4_calls w |}.

Definition set_uuid4_calls (n : nat) (w : world) : world :=
  {| db := db w; redis := redis w; broker := broker w;
     tasks_by_status := tasks_by_status w; log := log w; ext := ext w;
     utcnow := utcnow w; uuid4 := uuid4 w; uuid4_calls := n |}.

Definition emit (e : event) : M world unit := modify (set_log (fun l => (l ++ [e])%list)).

(** [tasks_by_status.labels(status=l).inc()] and [.dec()]. *)
Definition gauge_add (l : string) (k : Z) : M world unit :=
  modify (set_gauge (fun g => <[l := default 0 (g !! l) + k]> g)).
Definition gauge_inc (l : string) : M world unit := gauge_add l 1.
Definition gauge_dec (l : string) : M world unit := gauge_add l (-1).

(** [init_metrics] of [app/core/metrics.py]: the four labels of the gauge
    are set to 0. (The [app_info] metric is not modelled.) *)
Definition init_metrics : M world unit :=
  modify (set_gauge (fun g =>
    foldl (fun g status => <[status := 0]> g) g
      ["pending"; "running"; "completed"; "failed"])).

(** A call of a task body: it only touches the external services. *)
Definition call_ext {A} (m : M ext_env A) : M world A :=
  fun w => let '(o, e) := m (ext w) in (o, set_ext e w).

(** *** The database session *)

(** Modelled from the spec: [app/core/database.py], with the session that
    [get_session] and [get_session_context] give, is not among the
    sources. The Task Store is a key-addressable store of task records,
    with [get(id) -> record | absent].
    [await session.get(Task, task_uuid)]. *)
Definition session_get (task_uuid : UUID) : M world (option Task.t) :=
  (emit (SessionGet task_uuid) ;;
   gets (fun w => db w !! task_uuid))%py.

(** Modelled from the spec: the session of [app/core/database.py] again.
    A write is a single-row update keyed by the task's [id], the last
    writer winning.
    [await session.commit()] after the row [t] was added or changed. *)
Definition session_commit (t : Task.t) : M world unit :=
  (modify (set_db (fun d => <[Task.id t := t]> d)) ;;
   emit (SessionCommit (Task.id t) (Task.status t)))%py.

(** ** app/core/cache.py *)

(** The client's [GET]: the value of a key, or an error when the server
    cannot be reached. *)
Definition redis_GET (srv : Redis) (full_key : string) : M world (option redis_value) :=
  (emit (RedisGet full_key) ;;
   match health srv with
   | Unreachable => raise (Exn RedisError "Error 111 connecting to localhost:6379. Connection refused.")
   | _ => ret (snd <$> data srv !! full_key)
   end)%py.

(** The largest time to live, in seconds, a server takes: it keeps the
    expiry in milliseconds in a signed 64-bit integer. *)
Definition max_expire_seconds : Z := (2 ^ 63 - 1) / 1000.

(** The client's [SETEX]: the server stores the value with its time to
    live, or answers with an error, which the client raises. A server
    that accepts writes refuses a time to live that is not positive, or
    too large to keep. (So large a time is refused as well when adding it
    to the clock of the server overflows; that clock is not modelled.) *)
Definition redis_SETEX (srv : Redis) (full_key : string) (ttl : Z) (value : redis_value)
  : M world unit :=
  (emit (RedisSetex full_key ttl) ;;
   match health srv with
   | Unreachable => raise (Exn RedisError "Error 111 connecting to localhost:6379. Connection refused.")
   | WritesRefused => raise (Exn RedisError "You can't write against a read only replica.")
   | Healthy =>
       when (ttl <? - 2 ^ 63) || (2 ^ 63 - 1 <? ttl) then_raise
         Exn RedisError "value is not an integer or out of range" ;;
       when (ttl <=? 0) || (max_expire_seconds <? ttl) then_raise
         Exn RedisError "invalid expire time in 'setex' command" ;;
       modify (set_redis (fun _ =>
         Some {| data := <[full_key := (ttl, value)]> (data srv);
                 health := health srv |}))
   end)%py.

(** The client's [DEL]: the key is removed; the answer is the number of
    keys that were there. *)
Definition redis_DEL (srv : Redis) (full_key : string) : M world Z :=
  match health srv with
  | Unreachable =>
      raise (Exn RedisError "Error 111 connecting to localhost:6379. Connection refused.")
  | WritesRefused =>
      raise (Exn RedisError "You can't write against a read only replica.")
  | Healthy =>
      (modify (set_redis (fun _ =>
         Some {| data := delete full_key (data srv); health := health srv |})) ;;
       ret (match data srv !! full_key with Some _ => 1 | None => 0 end))%py
  end.

(** The client's [EXISTS]: the number of the keys asked for that are
    there. *)
Definition redis_EXISTS (srv : Redis) (full_key : string) : M world Z :=
  match health srv with
  | Unreachable =>
      raise (Exn RedisError "Error 111 connecting to localhost:6379. Connection refused.")
  | _ => ret (match data srv !! full_key with Some _ => 1 | None => 0 end)
  end.

Module CacheService.

Definition _prefix : string := "tasker:".

Definition _make_key (key : string) : string := _prefix ++ key.

(** [get]: [None] without a client; otherwise the decoded value, the
    text itself when it is not JSON, [None] when the key is absent. A key
    that holds the JSON text [null] decodes to [None] as well: the caller
    cannot tell it from an absent key.
    (The hit and miss counters are not modelled.) *)
Definition get (key : string) : M world (option cached) :=
  (r <- gets redis ;;
   match r with
   | None => ret None
   | Some srv =>
       let full_key := _make_key key in
       value <- redis_GET srv full_key ;;
       match value with
       | Some (ViewJson r) => ret (Some (CachedView r))
       | Some (Json VNone) => ret None     (* the JSON text null loads as None *)
       | Some (Json v) => ret (Some (CachedValue v))
       | Some (Text s) => ret (Some (CachedValue (VStr s)))
       | None => ret None
       end
   end)%py.

(** [set]: the only caller passes the dict a response dumps to, so the
    [isinstance(value, (dict, list))] test holds and the value stored is
    its JSON text. [ttl or settings.cache_ttl_seconds] takes the default
    for [None] and for [0]. *)
Definition set (key : string) (value : TaskOutputResponse) (ttl : option Z)
  : M world bool :=
  (r <- gets redis ;;
   match r with
   | None => ret false
   | Some srv =>
       let full_key := _make_key key in
       let ttl :=
         match ttl with
         | Some t => if t =? 0 then cache_ttl_seconds settings else t
         | None => cache_ttl_seconds settings
         end in
       redis_SETEX srv full_key ttl (ViewJson value) ;;
       ret true
   end)%py.

Definition get_task_output (task_uuid : string) : M world (option cached) :=
  get ("task_output:" ++ task_uuid).

Definition set_task_output (task_uuid : string) (output : TaskOutputResponse)
    (ttl : option Z) : M world bool :=
  set ("task_output:" ++ task_uuid) output ttl.

(** [delete]: [False] without a client; otherwise whether a key was
    removed. *)
Definition delete (key : string) : M world bool :=
  (r <- gets redis ;;
   match r with
   | None => ret false
   | Some srv =>
       let full_key := _make_key key in
       result <- redis_DEL srv full_key ;;
       ret (0 <? result)
   end)%py.

(** [exists] (a keyword here, hence the name). *)
Definition exists_ (key : string) : M world bool :=
  (r <- gets redis ;;
   match r with
   | None => ret false
   | Some srv =>
       let full_key := _make_key key in
       n <- redis_EXISTS srv full_key ;;
       ret (0 <? n)
   end)%py.

Definition invalidate_task_output (task_uuid : string) : M world bool :=
  delete ("task_output:" ++ task_uuid).

(** [disconnect]: the client, if any, is closed and forgotten. *)
Definition disconnect : M world unit :=
  modify (set_redis (fun _ => None)).

End CacheService.

(** ** app/tasks *)

(** A [BaseTask] subclass: its name and its [execute]. The keyword
    arguments [execute] is called with are bound to its signature here. *)
Record BaseTask := {
  task_name : string;
  execute : gmap string pyval -> M ext_env pyval;
}.

(** [type(v).__name__]. *)
Definition type_name (v : pyval) : string :=
  match v with
  | VNone => "NoneType"
  | VBool _ => "bool"
  | VInt _ => "int"
  | VFloat _ => "float"
  | VStr _ => "str"
  | VList _ => "list"
  | VDict _ => "dict"
  end.

(** A required parameter is missing from the call. *)
Definition missing_argument (name : string) : exn :=
  Exn TypeError ("missing 1 required positional argument: '" ++ name ++ "'").

(** *** app/tasks/sum_task.py *)

Definition SumTask_execute (a b : pyval) : M ext_env pyval :=
  (when negb (is_number a) then_raise
     Exn ValueError ("Parameter 'a' must be numeric, got " ++ type_name a) ;;
   when negb (is_number b) then_raise
     Exn ValueError ("Parameter 'b' must be numeric, got " ++ type_name b) ;;
   match py_add a b with
   | Some result =>
       ret (VDict {[ "operation" := VStr "sum"; "a" := a; "b" := b;
                     "result" := result ]})
   | None => raise (Exn OverflowError "int too large to convert to float")
   end)%py.

Definition SumTask : BaseTask := {|
  task_name := "sum";
  execute parameters :=
    match parameters !! "a", parameters !! "b" with
    | Some a, Some b => SumTask_execute a b
    | None, _ => raise (missing_argument "a")
    | _, None => raise (missing_argument "b")
    end;
|}.

(** *** app/tasks/chatgpt_task.py *)

Definition call_openai : M ext_env openai_reply :=
  fun e =>
    (Return (openai e (openai_calls e)),
     {| http := http e; http_calls := http_calls e;
        openai := openai e; openai_calls := S (openai_calls e) |}).

Definition ChatGPTTask_execute (prompt model max_tokens temperature : pyval)
  : M ext_env pyval :=
  (when negb (truthy prompt) || negb (is_str prompt) then_raise
     Exn ValueError "Parameter 'prompt' must be a non-empty string" ;;
   let prompt_len := match prompt with VStr s => len s | _ => 0 end in
   when settings.(max_prompt_length) <? prompt_len then_raise
     Exn ValueError ("Prompt exceeds maximum length of " ++
                     str_of_Z settings.(max_prompt_length) ++ " characters") ;;
   (* _get_client *)
   when String.eqb settings.(openai_api_key) "" then_raise
     Exn ValueError "OpenAI API key is not configured" ;;
   response <- call_openai ;;
   match response with
   | OpenAIFailed msg => raise (Exn OpenAIError msg)
   | Completion choices usage =>
       match choices with
       | [] => raise (Exn IndexError "list index out of range")
       | content :: _ =>
           let '(p, c, t) := default (0, 0, 0) usage in
           ret (VDict {[ "prompt" := prompt; "response" := content;
                         "model" := model;
                         "usage" := VDict {[ "prompt_tokens" := VInt p;
                                             "completion_tokens" := VInt c;
                                             "total_tokens" := VInt t ]} ]})
       end
   end)%py.

#[warnings="-inexact-float"]
Definition ChatGPTTask : BaseTask := {|
  task_name := "chatgpt";
  execute parameters :=
    match parameters !! "prompt" with
    | Some prompt =>
        ChatGPTTask_execute prompt
          (default (VStr "gpt-3.5-turbo") (parameters !! "model"))
          (default (VInt 1000) (parameters !! "max_tokens"))
          (default (VFloat 0.7) (parameters !! "temperature"))
    | None => raise (missing_argument "prompt")
    end;
|}.

(** *** app/tasks/weather_task.py *)

(** One GET of the [httpx] client inside [execute]'s [try]: a timeout
    leaves through the [except httpx.TimeoutException] clause as a
    [RuntimeError], any other request error is re-raised as it is. *)
Definition client_get : M ext_env (Z * (string + pyval)) :=
  fun e =>
    let e' := {| http := http e; http_calls := S (http_calls e);
                 openai := openai e; openai_calls := openai_calls e |} in
    match http e (http_calls e) with
    | HttpResponse status_code json => (Return (status_code, json), e')
    | HttpTimeout => (Raise (Exn RuntimeError "Open-Meteo API request timed out"), e')
    | HttpRequestFailed msg => (Raise (Exn HTTPXRequestError msg), e')
    end.

(** [response.json()]. *)
Definition response_json {S} (json : string + pyval) : M S pyval :=
  match json with
  | inl msg => raise (Exn ValueError msg)
  | inr v => ret v
  end.

(** [v.get(key, dflt)]. *)
Definition py_get {S} (v : pyval) (key : string) (dflt : pyval) : M S pyval :=
  match v with
  | VDict d => ret (default dflt (d !! key))
  | _ => raise (Exn AttributeError
                  ("'" ++ type_name v ++ "' object has no attribute 'get'"))
  end.

(** [v[0]] for a truthy [v]. *)
Definition py_first {S} (v : pyval) : M S pyval :=
  match v with
  | VList (x :: _) => ret x
  | VList [] => raise (Exn IndexError "list index out of range")
  | VStr (String c _) => ret (VStr (String c EmptyString))
  | VStr EmptyString => raise (Exn IndexError "string index out of range")
  | VDict _ => raise (Exn KeyError "0")
  | _ => raise (Exn TypeError ("'" ++ type_name v ++ "' object is not subscriptable"))
  end.

(** [v[key]] for a string key. *)
Definition py_item {S} (v : pyval) (key : string) : M S pyval :=
  match v with
  | VDict d =>
      match d !! key with
      | Some x => ret x
      | None => raise (Exn KeyError ("'" ++ key ++ "'"))
      end
  | VStr _ => raise (Exn TypeError "string indices must be integers, not 'str'")
  | VList _ => raise (Exn TypeError "list indices must be integers or slices, not str")
  | _ => raise (Exn TypeError ("'" ++ type_name v ++ "' object is not subscriptable"))
  end.

(** [n / d] rounded to the nearest integer, ties to even ([0 < d]). *)
Definition div_half_even (n d : Z) : Z :=
  let q := n / d in
  let r := n mod d in
  match 2 * r ?= d with
  | Lt => q
  | Gt => q + 1
  | Eq => if Z.even q then q else q + 1
  end.

(** [round(x, 2)] on a [float]: the exact value is rounded to two
    decimals, ties to even, and the decimal is read back as the nearest
    [float]. *)
Definition round2 (x : float) : float :=
  match Prim2SF x with
  | S754_finite s m e =>
      let n := 100 * Z.pos m in
      let q := if 0 <=? e then n * 2 ^ e else div_half_even n (2 ^ (- e)) in
      match q with
      | Z.pos p =>
          SF2Prim (SFdiv prec emax (S754_finite s p 0) (S754_finite false 100 0))
      | _ => SF2Prim (S754_zero s)
      end
  | _ => x
  end.

(** The integer a number is equal to, if any (as a dict key, [1], [True]
    and [1.0] are the same key). *)
Definition as_integer (v : pyval) : option Z :=
  match v with
  | VBool b => Some (Z.b2z b)
  | VInt z => Some z
  | VFloat f =>
      match Prim2SF f with
      | S754_zero _ => Some 0
      | S754_finite s m e =>
          let v := if s then Z.neg m else Z.pos m in
          if 0 <=? e then Some (v * 2 ^ e)
          else if v mod 2 ^ (- e) =? 0 then Some (v / 2 ^ (- e)) else None
      | _ => None
      end
  | _ => None
  end.

(** The WMO weather codes. The icons are kept as their UTF-8 bytes. *)
Definition weather_codes : list (Z * (string * string * string)) :=
  [ (0, ("Clear", "Clear sky", "☀️"));
    (1, ("Mainly Clear", "Mainly clear", "🌤️"));
    (2, ("Partly Cloudy", "Partly cloudy", "⛅"));
    (3, ("Overcast", "Overcast", "☁️"));
    (45, ("Fog", "Fog", "🌫️"));
    (48, ("Fog", "Depositing rime fog", "🌫️"));
    (51, ("Drizzle", "Light drizzle", "🌧️"));
    (53, ("Drizzle", "Moderate drizzle", "🌧️"));
    (55, ("Drizzle", "Dense drizzle", "🌧️"));
    (56, ("Freezing Drizzle", "Light freezing drizzle", "🌧️"));
    (57, ("Freezing Drizzle", "Dense freezing drizzle", "🌧️"));
    (61, ("Rain", "Slight rain", "🌧️"));
    (63, ("Rain", "Moderate rain", "🌧️"));
    (65, ("Rain", "Heavy rain", "🌧️"));
    (66, ("Freezing Rain", "Light freezing rain", "🌧️"));
    (67, ("Freezing Rain", "Heavy freezing rain", "🌧️"));
    (71, ("Snow", "Slight snowfall", "🌨️"));
    (73, ("Snow", "Moderate snowfall", "🌨️"));
    (75, ("Snow", "Heavy snowfall", "🌨️"));
    (77, ("Snow", "Snow grains", "🌨️"));
    (80, ("Rain Showers", "Slight rain showers", "🌦️"));
    (81, ("Rain Showers", "Moderate rain showers", "🌦️"));
    (82, ("Rain Showers", "Violent rain showers", "🌦️"));
    (85, ("Snow Showers", "Slight snow showers", "🌨️"));
    (86, ("Snow Showers", "Heavy snow showers", "🌨️"));
    (95, ("Thunderstorm", "Thunderstorm", "⛈️"));
    (96, ("Thunderstorm", "Thunderstorm with slight hail", "⛈️"));
    (99, ("Thunderstorm", "Thunderstorm with heavy hail", "⛈️")) ].

Definition _get_weather_description {S} (code : pyval) : M S pyval :=
  match code with
  | VList _ | VDict _ =>
      raise (Exn TypeError ("unhashable type: '" ++ type_name code ++ "'"))
  | _ =>
      let found :=
        z ← as_integer code;
        snd <$> List.find (fun kv => fst kv =? z) weather_codes in
      let '(main, description, icon) := default ("Unknown", "Unknown", "❓") found in
      ret (VDict {[ "main" := VStr main; "description" := VStr description;
                    "icon" := VStr icon ]})
  end.

Definition units_ok (units : pyval) : bool :=
  match units with
  | VStr s => String.eqb s "metric" || String.eqb s "imperial" || String.eqb s "kelvin"
  | _ => false
  end.

(** [if units == "kelvin" and t is not None: t = round(t + 273.15, 2)].
    (For a str or a list CPython words the [TypeError] differently.) *)
#[warnings="-inexact-float"]
Definition to_kelvin {S} (units t : pyval) : M S pyval :=
  match units, t with
  | VStr u, VNone => ret t
  | VStr u, _ =>
      if String.eqb u "kelvin" then
        if is_number t then
          match py_add t (VFloat 273.15) with
          | Some (VFloat x) => ret (VFloat (round2 x))
          | _ => raise (Exn OverflowError "int too large to convert to float")
          end
        else raise (Exn TypeError ("unsupported operand type(s) for +: '" ++
                                   type_name t ++ "' and 'float'"))
      else ret t
  | _, _ => ret t
  end.

Definition WeatherTask_execute (city units : pyval) : M ext_env pyval :=
  (when negb (truthy city) || negb (is_str city) then_raise
     Exn ValueError "Parameter 'city' must be a non-empty string" ;;
   when negb (units_ok units) then_raise
     Exn ValueError "Parameter 'units' must be 'metric', 'imperial', or 'kelvin'" ;;
   let city_str := match city with VStr s => s | _ => "" end in
   (* Step 1: geocode the city name *)
   geo_response <- client_get ;;
   when negb (fst geo_response =? 200) then_raise
     Exn RuntimeError ("Open-Meteo Geocoding API error: " ++ str_of_Z (fst geo_response)) ;;
   geo_data <- response_json (snd geo_response) ;;
   results <- py_get geo_data "results" VNone ;;
   when negb (truthy results) then_raise
     Exn ValueError ("City '" ++ city_str ++ "' not found") ;;
   location <- py_first results ;;
   latitude <- py_item location "latitude" ;;
   longitude <- py_item location "longitude" ;;
   city_name <- py_get location "name" city ;;
   country <- py_get location "country_code" (VStr "") ;;
   (* Step 2: fetch the weather *)
   weather_response <- client_get ;;
   when negb (fst weather_response =? 200) then_raise
     Exn RuntimeError ("Open-Meteo Weather API error: " ++ str_of_Z (fst weather_response)) ;;
   data <- response_json (snd weather_response) ;;
   current <- py_get data "current" (VDict ∅) ;;
   weather_code <- py_get current "weather_code" (VInt 0) ;;
   weather_description <- _get_weather_description weather_code ;;
   temp_current <- py_get current "temperature_2m" VNone ;;
   temp_feels_like <- py_get current "apparent_temperature" VNone ;;
   temp_current <- to_kelvin units temp_current ;;
   temp_feels_like <- to_kelvin units temp_feels_like ;;
   humidity <- py_get current "relative_humidity_2m" VNone ;;
   pressure <- py_get current "pressure_msl" VNone ;;
   wind_speed <- py_get current "wind_speed_10m" VNone ;;
   wind_direction <- py_get current "wind_direction_10m" VNone ;;
   clouds <- py_get current "cloud_cover" VNone ;;
   timezone <- py_get data "timezone" VNone ;;
   ret (VDict {[
     "city" := city_name;
     "country" := country;
     "coordinates" := VDict {[ "latitude" := latitude; "longitude" := longitude ]};
     "weather" := weather_description;
     "temperature" := VDict {[ "current" := temp_current;
                               "feels_like" := temp_feels_like;
                               "min" := VNone; "max" := VNone;
                               "units" := units ]};
     "humidity" := humidity;
     "pressure" := pressure;
     "wind" := VDict {[ "speed" := wind_speed; "direction" := wind_direction ]};
     "visibility" := VNone;
     "clouds" := clouds;
     "timezone" := timezone ]}))%py.

Definition WeatherTask : BaseTask := {|
  task_name := "weather";
  execute parameters :=
    match parameters !! "city" with
    | Some city =>
        WeatherTask_execute city (default (VStr "metric") (parameters !! "units"))
    | None => raise (missing_argument "city")
    end;
|}.

(** *** app/tasks/base.py *)

Definition mark_running (now : datetime) (task : Task.t) : Task.t :=
  Task.mk (Task.id task) (Task.task_name task) (Task.task_parameters task)
    RUNNING (Task.result task) (Task.error_message task)
    (Task.created_at task) (Some now) (Task.completed_at task).

Definition mark_completed (now : datetime) (result : pyval) (task : Task.t) : Task.t :=
  Task.mk (Task.id task) (Task.task_name task) (Task.task_parameters task)
    COMPLETED (Some result) (Task.error_message task)
    (Task.created_at task) (Some now) (Some now).

Definition mark_failed (now : datetime) (error : string) (task : Task.t) : Task.t :=
  Task.mk (Task.id task) (Task.task_name task) (Task.task_parameters task)
    FAILED (Task.result task) (Some error)
    (Task.created_at task) (Some now) (Some now).

(** The first [async with] block of [run]: the row, if there is one,
    becomes [running]. *)
Definition run_claim (task_uuid : UUID) : M world unit :=
  (task <- session_get task_uuid ;;
   match task with
   | Some task =>
       now <- gets utcnow ;;
       session_commit (mark_running now task) ;;
       gauge_dec "pending" ;;
       gauge_inc "running"
   | None => ret tt
   end)%py.

(** The [try] of [run]: the body, then the result is stored. *)
Definition run_try (self : BaseTask) (task_uuid : UUID) (parameters : gmap string pyval)
  : M world pyval :=
  (result <- call_ext (execute self parameters) ;;
   task <- session_get task_uuid ;;
   match task with
   | Some task =>
       now <- gets utcnow ;;
       session_commit (mark_completed now result task) ;;
       gauge_dec "running" ;;
       gauge_inc "completed"
   | None => ret tt
   end ;;
   emit (ObserveDuration (task_name self)) ;;
   ret result)%py.

(** The [except Exception as e] of [run]: the error is stored, and the
    exception raised again. *)
Definition run_except {A} (self : BaseTask) (task_uuid : UUID) (e : exn) : M world A :=
  (task <- session_get task_uuid ;;
   match task with
   | Some task =>
       now <- gets utcnow ;;
       session_commit (mark_failed now (str e) task) ;;
       gauge_dec "running" ;;
       gauge_inc "failed"
   | None => ret tt
   end ;;
   emit (ObserveDuration (task_name self)) ;;
   raise e)%py.

(** [BaseTask.run]. (Logging and the value of the duration are not
    modelled: [ObserveDuration] records that one was observed.) *)
Definition run (self : BaseTask) (task_uuid : UUID) (parameters : gmap string pyval)
  : M world pyval :=
  (run_claim task_uuid ;;
   try_except (run_try self task_uuid parameters) (run_except self task_uuid))%py.

(** *** Celery *)

(** A task registered with [@celery_app.task(bind=True, ...)]: its
    options, the signature of the decorated function after [self] and
    [task_uuid] (required names, then names with a default), and the
    [BaseTask] it instantiates and runs. *)
Record CeleryTask := {
  name : string;
  max_retries : nat;
  default_retry_delay : Z;
  required : list string;
  defaults : list (string * pyval);
  task_class : BaseTask;
}.

(** Python's binding of keyword arguments to the signature: the arguments
    completed with the defaults, or the [TypeError] of the call. *)
Definition bind_arguments (ct : CeleryTask) (kwargs : gmap string pyval)
  : outcome (gmap string pyval) :=
  match List.find (fun k => bool_decide (kwargs !! k = None)) (required ct) with
  | Some k => Raise (missing_argument k)
  | None =>
      let known := (required ct ++ (defaults ct).*1)%list in
      match List.filter (fun k => bool_decide (k ∉ known)) (map_to_list kwargs).*1 with
      | k :: _ =>
          Raise (Exn TypeError ("got an unexpected keyword argument '" ++ k ++ "'"))
      | [] => Return (kwargs ∪ list_to_map (defaults ct))
      end
  end.

Definition publish (m : Message) : M world unit :=
  (modify (set_broker (fun q => (q ++ [m])%list)) ;;
   emit (Publish m))%py.

(** [celery_task.delay(task_uuid, **kwargs)]: the arguments are checked
    against the signature, then the message is queued. *)
Definition delay (which : TaskName) (ct : CeleryTask) (task_uuid : string)
    (kwargs : gmap string pyval) : M world unit :=
  (lift (bind_arguments ct kwargs) ;;
   publish {| msg_task := which; msg_task_uuid := task_uuid; msg_kwargs := kwargs;
              msg_retries := 0; msg_countdown := 0 |})%py.

(** [self.retry(exc=exc)]: once [self.request.retries] has reached
    [max_retries] it raises [exc]; before that it queues the same message
    again, one retry more, to be delivered after [default_retry_delay]
    seconds, and raises [Retry]. *)
Definition retry {A} (ct : CeleryTask) (request : Message) (exc : exn) : M world A :=
  if (max_retries ct <=? msg_retries request)%nat then raise exc
  else
    (publish {| msg_task := msg_task request;
                msg_task_uuid := msg_task_uuid request;
                msg_kwargs := msg_kwargs request;
                msg_retries := S (msg_retries request);
                msg_countdown := default_retry_delay ct |} ;;
     raise (Exn Retry ("Retry in " ++ str_of_Z (default_retry_delay ct) ++ "s")))%py.

(** The body the three entry points share: run the task; a [ValueError]
    is raised again as it is, any other exception goes to [self.retry].
    [UUID(task_uuid)], which the code evaluates inside the [try], is taken
    as the identity: on the canonical text of an id ([canonical_uuid]),
    which is what [run_task] and [retry] put in a message, it gives the
    id back. A [task_uuid] that is another spelling of an id, or no id
    at all (for which [UUID] raises a [ValueError], not retried), is
    outside this definition; the properties of a delivery whose row is
    not assumed to exist are stated for canonical texts. *)
Definition entry_point (ct : CeleryTask) (request : Message) (task_uuid : string)
    (parameters : gmap string pyval) : M world pyval :=
  let task := task_class ct in
  try_except (run task task_uuid parameters)
    (fun exc =>
       (* Don't retry on validation errors *)
       if is_ValueError exc then raise exc
       else retry ct request exc).

(** [sum_numbers(self, task_uuid, a, b)]. *)
Definition sum_numbers : CeleryTask := {|
  name := "app.tasks.sum_task.sum_numbers";
  max_retries := 3;
  default_retry_delay := 60;
  required := ["a"; "b"];
  defaults := [];
  task_class := SumTask;
|}.

(** [query_chatgpt(self, task_uuid, prompt, model, max_tokens, temperature)]. *)
#[warnings="-inexact-float"]
Definition query_chatgpt : CeleryTask := {|
  name := "app.tasks.chatgpt_task.query_chatgpt";
  max_retries := 3;
  default_retry_delay := 30;
  required := ["prompt"];
  defaults := [("model", VStr "gpt-3.5-turbo"); ("max_tokens", VInt 1000);
               ("temperature", VFloat 0.7)];
  task_class := ChatGPTTask;
|}.

(** [fetch_weather(self, task_uuid, city, units)]. *)
Definition fetch_weather : CeleryTask := {|
  name := "app.tasks.weather_task.fetch_weather";
  max_retries := 3;
  default_retry_delay := 30;
  required := ["city"];
  defaults := [("units", VStr "metric")];
  task_class := WeatherTask;
|}.

Definition task_map (task_name : TaskName) : CeleryTask :=
  match task_name with
  | SUM => sum_numbers
  | CHATGPT => query_chatgpt
  | WEATHER => fetch_weather
  end.

(** One delivery: a worker calls the task's function with the message's
    arguments. *)
Definition deliver (m : Message) : M world pyval :=
  let ct := task_map (msg_task m) in
  (parameters <- lift (bind_arguments ct (msg_kwargs m)) ;;
   entry_point ct m (msg_task_uuid m) parameters)%py.

(** A worker takes the oldest message and handles it, whatever the call
    returns or raises. *)
Definition worker_step (w : world) : option world :=
  match broker w with
  | [] => None
  | m :: rest => Some (snd (deliver m (set_broker (fun _ => rest) w)))
  end.

(** The worker handles messages until the queue is empty, [fuel] of them
    at most. *)
Fixpoint worker (fuel : nat) (w : world) : world :=
  match fuel with
  | O => w
  | S fuel' =>
      match worker_step w with
      | Some w' => worker fuel' w'
      | None => w
      end
  end.

(** ** app/api/routes.py *)

Definition get_celery_task (task_name : TaskName) : option CeleryTask :=
  Some (task_map task_name).

(** A step of the validator: raise [ValueError(msg)] when [c] holds. *)
Definition reject_if (c : bool) (msg : string) (k : outcome unit) : outcome unit :=
  if c then Raise (Exn ValueError msg) else k.

Notation "'reject' msg 'when' c ;; k" := (reject_if c msg k)
  (at level 100, msg at next level, c at next level, right associativity) : py_scope.

Definition exceeds_msg (p : string) : string :=
  "Parameter '" ++ p ++ "' exceeds maximum allowed value of " ++ str_max_number_value.

Definition validate_sum (parameters : gmap string pyval) : outcome unit :=
  match parameters !! "a" with
  | None => Raise (Exn ValueError "Parameter 'a' is required for sum task")
  | Some a =>
  match parameters !! "b" with
  | None => Raise (Exn ValueError "Parameter 'b' is required for sum task")
  | Some b =>
      (reject "Parameter 'a' must be a number" when negb (is_number a) ;;
       reject "Parameter 'b' must be a number" when negb (is_number b) ;;
       (* Prevent overflow attacks *)
       reject exceeds_msg "a" when abs_gt a settings.(max_number_value) ;;
       reject exceeds_msg "b" when abs_gt b settings.(max_number_value) ;;
       (* Check for special float values *)
       reject "Parameter 'a' must be a finite number" when isnan_or_isinf a ;;
       reject "Parameter 'b' must be a finite number" when isnan_or_isinf b ;;
       Return tt)%py
  end
  end.

Definition validate_max_tokens (parameters : gmap string pyval) (k : outcome unit)
  : outcome unit :=
  match parameters !! "max_tokens" with
  | None => k
  | Some max_tokens =>
      let n := default 0 (int_value max_tokens) in
      (reject "Parameter 'max_tokens' must be a positive integer"
         when negb (is_int max_tokens) || (n <=? 0) ;;
       reject "Parameter 'max_tokens' cannot exceed 4000" when 4000 <? n ;;
       k)%py
  end.

Definition validate_temperature (parameters : gmap string pyval) (k : outcome unit)
  : outcome unit :=
  match parameters !! "temperature" with
  | None => k
  | Some temperature =>
      (reject "Parameter 'temperature' must be a number"
         when negb (is_number temperature) ;;
       reject "Parameter 'temperature' must be between 0 and 2"
         when negb (between 0 temperature 2) ;;
       k)%py
  end.

Definition validate_chatgpt (parameters : gmap string pyval) : outcome unit :=
  match parameters !! "prompt" with
  | None => Raise (Exn ValueError "Parameter 'prompt' is required for chatgpt task")
  | Some (VStr raw) =>
      let prompt := strip raw in
      (reject "Parameter 'prompt' must be a non-empty string"
         when String.eqb prompt "" ;;
       reject ("Parameter 'prompt' exceeds maximum length of " ++
               str_of_Z settings.(max_prompt_length) ++ " characters")
         when settings.(max_prompt_length) <? len prompt ;;
       (* Validate optional parameters *)
       validate_max_tokens parameters (validate_temperature parameters (Return tt)))%py
  | Some _ => Raise (Exn ValueError "Parameter 'prompt' must be a string")
  end.

Definition validate_weather (parameters : gmap string pyval) : outcome unit :=
  match parameters !! "city" with
  | None => Raise (Exn ValueError "Parameter 'city' is required for weather task")
  | Some (VStr raw) =>
      let city := strip raw in
      (reject "Parameter 'city' must be a non-empty string" when String.eqb city "" ;;
       reject ("Parameter 'city' exceeds maximum length of " ++
               str_of_Z settings.(max_city_length) ++ " characters")
         when settings.(max_city_length) <? len city ;;
       (* Basic sanitization *)
       reject "Parameter 'city' contains invalid characters"
         when negb (city_re_match city) ;;
       (* Validate optional units parameter *)
       match parameters !! "units" with
       | None => Return tt
       | Some units =>
           reject "Parameter 'units' must be 'metric', 'imperial', or 'kelvin'"
             when negb (units_ok units) ;;
           Return tt
       end)%py
  | Some _ => Raise (Exn ValueError "Parameter 'city' must be a string")
  end.

Definition _validate_task_parameters (task_name : TaskName)
    (parameters : gmap string pyval) : outcome unit :=
  match task_name with
  | SUM => validate_sum parameters
  | CHATGPT => validate_chatgpt parameters
  | WEATHER => validate_weather parameters
  end.

(** [Task(task_name=..., task_parameters=..., status="pending")], with the
    column defaults: a fresh [uuid4()] and the creation time. *)
Definition new_task (request : RunTaskRequest) : M world Task.t :=
  (n <- gets uuid4_calls ;;
   gen <- gets uuid4 ;;
   modify (set_uuid4_calls (S n)) ;;
   now <- gets utcnow ;;
   ret (Task.mk (gen n) (TaskName_value (req_task_name request))
          (req_task_parameters request) PENDING None None now None None))%py.

Definition run_task (request : RunTaskRequest) : M world RunTaskResponse :=
  match get_celery_task (req_task_name request) with
  | None =>
      raise (Exn (HTTPException HTTP_400_BAD_REQUEST)
               ("Unknown task: " ++ TaskName_value (req_task_name request)))
  | Some celery_task =>
      (* Validate task-specific parameters *)
      match _validate_task_parameters (req_task_name request)
              (req_task_parameters request) with
      | Raise e =>
          if is_ValueError e
          then raise (Exn (HTTPException HTTP_400_BAD_REQUEST) (str e))
          else raise e
      | Return _ =>
          (* Create task record in database *)
          (task <- new_task request ;;
           session_commit task ;;
           (* Update metrics (the submission counter is left out) *)
           gauge_inc "pending" ;;
           (* Submit to Celery (fire and forget) *)
           delay (req_task_name request) celery_task (Task.id task)
             (req_task_parameters request) ;;
           ret {| resp_task_uuid := Task.id task;
                  resp_message := "Task submitted successfully" |})%py
      end
  end.

Definition is_terminal (s : TaskStatus) : bool :=
  match s with
  | COMPLETED | FAILED => true
  | _ => false
  end.

(** [TaskOutputResponse(task_uuid=task.id, ...)]. *)
Definition view_of (task : Task.t) : TaskOutputResponse := {|
  out_task_uuid := Task.id task;
  out_task_name := Task.task_name task;
  out_status := Task.status task;
  out_task_output := Task.result task;
  out_error_message := Task.error_message task;
  out_created_at := Task.created_at task;
  out_completed_at := Task.completed_at task;
|}.

(** The response built from a cached dict: what is not the dict of a
    response does not validate. *)
Definition validate_cached (c : cached) : M world TaskOutputResponse :=
  match c with
  | CachedView r => ret r
  | CachedValue (VDict _) =>
      raise (Exn ValidationError "validation errors for TaskOutputResponse")
  | CachedValue _ =>
      raise (Exn TypeError "argument after ** must be a mapping")
  end.

(** The rest of [get_task_output] once the cache gave nothing: query the
    database, and cache the response of a completed or failed task. *)
Definition get_task_output_from_db (task_uuid : UUID) : M world TaskOutputResponse :=
  (task <- session_get task_uuid ;;
   match task with
   | None =>
       raise (Exn (HTTPException HTTP_404_NOT_FOUND)
                ("Task with UUID " ++ task_uuid ++ " not found"))
   | Some task =>
       let response := view_of task in
       (* Cache completed tasks *)
       (if is_terminal (Task.status task)
        then (CacheService.set_task_output task_uuid response None ;; ret tt)
        else ret tt) ;;
       ret response
   end)%py.

Definition get_task_output (task_uuid : UUID) : M world TaskOutputResponse :=
  (* Try to get from cache first *)
  (cached_output <- CacheService.get_task_output task_uuid ;;
   match cached_output with
   | Some c =>
       if cached_truthy cached_output then validate_cached c
       else get_task_output_from_db task_uuid
   | None => get_task_output_from_db task_uuid
   end)%py.

Record TaskStatusResponse := {
  st_task_uuid : UUID;
  st_status : TaskStatus;
}.

Definition get_task_status (task_uuid : UUID) : M world TaskStatusResponse :=
  (task <- session_get task_uuid ;;
   match task with
   | None =>
       raise (Exn (HTTPException HTTP_404_NOT_FOUND)
                ("Task with UUID " ++ task_uuid ++ " not found"))
   | Some task =>
       ret {| st_task_uuid := Task.id task; st_status := Task.status task |}
   end)%py.

(** * Properties *)

(** ** Reading the log *)

Definition is_observation (e : event) : bool :=
  match e with
  | ObserveDuration _ => true
  | _ => false
  end.

(** How many durations were observed. *)
Definition observations (l : list event) : nat :=
  length (List.filter is_observation l).

(** The statuses written to the row of a task, in order. *)
Definition status_history (task_uuid : UUID) (l : list event) : list TaskStatus :=
  omap (fun e =>
          match e with
          | SessionCommit u s => if String.eqb u task_uuid then Some s else None
          | _ => None
          end) l.

(** The retries that were scheduled: the number of each one and the delay
    before it. *)
Definition retries_scheduled (l : list event) : list (nat * Z) :=
  omap (fun e =>
          match e with
          | Publish m =>
              match msg_retries m with
              | O => None
              | S _ => Some (msg_retries m, msg_countdown m)
              end
          | _ => None
          end) l.

(** How many times the database was read. *)
Definition store_reads (l : list event) : nat :=
  length (List.filter (fun e => match e with SessionGet _ => true | _ => false end) l).

(** The writes sent to the cache server: key and time to live. *)
Definition cache_writes (l : list event) : list (string * Z) :=
  omap (fun e => match e with RedisSetex k ttl => Some (k, ttl) | _ => None end) l.

(** The value of the status gauge for a label. *)
Definition gauge (w : world) (label : string) : Z :=
  default 0 (tasks_by_status w !! label).

Definition is_null {A} (x : option A) : bool :=
  match x with
  | None => true
  | Some _ => false
  end.

(** The value a call returned, if it returned. *)
Definition returned {A} (o : outcome A) : option A :=
  match o with
  | Return a => Some a
  | Raise _ => None
  end.

(** ** What an execution and a delivery do *)

(** The row once an execution that found it as [task] is over. *)
Definition finished (now : datetime) (o : outcome pyval) (task : Task.t) : Task.t :=
  match o with
  | Return result => mark_completed now result (mark_running now task)
  | Raise e => mark_failed now (str e) (mark_running now task)
  end.

(** What one execution adds to the log when the row exists. *)
Definition attempt_log (self : BaseTask) (u : UUID) (s : TaskStatus) : list event :=
  [SessionGet u; SessionCommit u RUNNING; SessionGet u; SessionCommit u s;
   ObserveDuration (task_name self)].

(** The message [self.retry] queues for the request [m]. *)
Definition retried (ct : CeleryTask) (m : Message) : Message :=
  {| msg_task := msg_task m; msg_task_uuid := msg_task_uuid m;
     msg_kwargs := msg_kwargs m; msg_retries := S (msg_retries m);
     msg_countdown := default_retry_delay ct |}.

(** Whether the entry point answers the body's outcome with a retry. *)
Definition will_retry (ct : CeleryTask) (m : Message) (o : outcome pyval) : bool :=
  match o with
  | Raise e => negb (is_ValueError e) && (msg_retries m <? max_retries ct)%nat
  | Return _ => false
  end.

(** What a delivery adds to the queue. *)
Definition requeued (ct : CeleryTask) (m : Message) (o : outcome pyval) : list Message :=
  if will_retry ct m o then [retried ct m] else [].

(** What a delivery returns or raises, given the body's outcome. *)
Definition delivered (ct : CeleryTask) (m : Message) (o : outcome pyval) : outcome pyval :=
  if will_retry ct m o
  then Raise (Exn Retry ("Retry in " ++ str_of_Z (default_retry_delay ct) ++ "s"))
  else o.

(** The outcomes of [n] successive calls of a body, from the state [env]
    of the external services. *)
Fixpoint attempts (body : M ext_env pyval) (n : nat) (env : ext_env)
  : list (outcome pyval) :=
  match n with
  | O => []
  | S n' => let '(o, env') := body env in o :: attempts body n' env'
  end.

(** A failure of the transient class: an exception that is not a
    [ValueError]. *)
Definition transient (o : outcome pyval) : Prop :=
  exists e, o = Raise e /\ is_ValueError e = false.

(** ** The state of the cache *)

(** The key of a task's output in the cache server. *)
Definition output_key (task_uuid : UUID) : string :=
  CacheService._make_key ("task_output:" ++ task_uuid).

(** What the cache server holds for a task, if a client is connected. *)
Definition cache_entry (task_uuid : UUID) (w : world) : option (Z * redis_value) :=
  srv ← redis w; data srv !! output_key task_uuid.

(** The Python object a stored value is read back as. *)
Definition decode (v : redis_value) : cached :=
  match v with
  | ViewJson r => CachedView r
  | Json v => CachedValue v
  | Text s => CachedValue (VStr s)
  end.

(** What [CacheService.get] hands back for a stored value: the object it
    decodes to, which for the JSON text [null] is [None]. *)
Definition read_back (v : redis_value) : option cached :=
  match v with
  | Json VNone => None
  | _ => Some (decode v)
  end.

(** The cache server, if there is one, answers reads. *)
Definition reads_answered (w : world) : Prop :=
  forall srv, redis w = Some srv -> health srv <> Unreachable.

(** [reads_answered], as a test. *)
Definition reads_answeredb (w : world) : bool :=
  match redis w with
  | Some srv => match health srv with Unreachable => false | _ => true end
  | None => true
  end.

(** The cache has nothing usable for the task. *)
Definition cache_miss (task_uuid : UUID) (w : world) : Prop :=
  reads_answered w /\
  cached_truthy (decode <$> (snd <$> cache_entry task_uuid w)) = false.

(** The world once the reader has looked a task up in the cache. *)
Definition looked_up (task_uuid : UUID) (w : world) : world :=
  set_log (fun l => (l ++ match redis w with
                          | Some _ => [RedisGet (output_key task_uuid)]
                          | None => []
                          end)%list) w.

(** The world once the reader, after a miss, has read the database. *)
Definition read_through (task_uuid : UUID) (w : world) : world :=
  set_log (fun l => (l ++ [SessionGet task_uuid])%list) (looked_up task_uuid w).

(** Hand a view to the cache, with the default time to live, then return
    it. *)
Definition populate_then_return (task_uuid : UUID) (r : TaskOutputResponse)
  : M world TaskOutputResponse :=
  (CacheService.set_task_output task_uuid r None ;; ret r)%py.

(** ** Submissions *)

(** A weather request for a city. *)
Definition weather_request (city : string) : RunTaskRequest :=
  {| req_task_name := WEATHER; req_task_parameters := {[ "city" := VStr city ]} |}.

(** The sum of two numbers, as requested. *)
Definition sum_request (a b : pyval) : RunTaskRequest :=
  {| req_task_name := SUM; req_task_parameters := {[ "a" := a; "b" := b ]} |}.

(** A prompt for the chatgpt task. *)
Definition chatgpt_request (prompt : string) : RunTaskRequest :=
  {| req_task_name := CHATGPT; req_task_parameters := {[ "prompt" := VStr prompt ]} |}.

(** The arguments [query_chatgpt] runs the task with for such a request. *)
#[warnings="-inexact-float"]
Definition chatgpt_arguments (prompt : string) : gmap string pyval :=
  {[ "prompt" := VStr prompt; "model" := VStr "gpt-3.5-turbo";
     "max_tokens" := VInt 1000; "temperature" := VFloat 0.7 ]}.

Definition prompt_too_long : string :=
  "Prompt exceeds maximum length of 10000 characters".

(** The magnitude of a number exceeds the integer [bound]: read off the
    value the number stands for, an integer as it is, a [float] as the
    sign, mantissa and binary exponent it is made of. An infinity exceeds
    every bound; a NaN has no magnitude. *)
Definition magnitude_exceeds (bound : Z) (v : pyval) : Prop :=
  match v with
  | VBool b => bound < Z.b2z b
  | VInt z => bound < Z.abs z
  | VFloat f =>
      match Prim2SF f with
      | S754_infinity _ => True
      | S754_finite _ m e =>
          if 0 <=? e then bound < Z.pos m * 2 ^ e else bound * 2 ^ (- e) < Z.pos m
      | _ => False
      end
  | _ => False
  end.

(** A parameter of a sum submission exceeds the ceiling, [1e15], in
    magnitude. *)
Definition exceeds_ceiling (parameters : gmap string pyval) : Prop :=
  exists k v,
    (k = "a" \/ k = "b") /\
    parameters !! k = Some v /\
    magnitude_exceeds (10 ^ 15) v.

(** Both parameters of a sum submission are present and numbers. *)
Definition both_numbers (parameters : gmap string pyval) : Prop :=
  exists a b,
    parameters !! "a" = Some a /\ parameters !! "b" = Some b /\
    is_number a = true /\ is_number b = true.

(** ** Scenarios *)

(** The identifiers [uuid4()] draws in the scenarios. *)
Definition scenario_uuid (n : nat) : UUID :=
  "550e8400-e29b-41d4-a716-" ++ str_of_Z (446655440000 + Z.of_nat n).

(** A freshly started service: an empty table, a connected and empty
    cache, an empty queue. *)
Definition fresh_world (e : ext_env) : world := {|
  db := ∅;
  redis := Some {| data := ∅; health := Healthy |};
  broker := [];
  tasks_by_status := ∅;
  log := [];
  ext := e;
  utcnow := 1767522600;
  uuid4 := scenario_uuid;
  uuid4_calls := 0;
|}.

(** External services that answer every request with [reply]. *)
Definition always (reply : http_reply) : ext_env := {|
  http := fun _ => reply;
  http_calls := 0;
  openai := fun _ => OpenAIFailed "Connection error.";
  openai_calls := 0;
|}.

(** The geocoding service knows no such city. *)
#[warnings="-inexact-float"]
Definition city_unknown : ext_env :=
  always (HttpResponse 200 (inr (VDict {[ "generationtime_ms" := VFloat 0.4 ]}))).

(** The geocoding service answers with a server error. *)
Definition geocoding_down : ext_env :=
  always (HttpResponse 500 (inl "Expecting value: line 1 column 1 (char 0)")).

(** The first request times out; after that both services answer. *)
#[warnings="-inexact-float"]
Definition timeout_then_fine : ext_env := {|
  http := fun n =>
    match n with
    | 0%nat => HttpTimeout
    | 1%nat =>
        HttpResponse 200
          (inr (VDict {[ "results" :=
                  VList [VDict {[ "name" := VStr "London";
                                  "latitude" := VFloat 51.50853;
                                  "longitude" := VFloat (-0.12574);
                                  "country_code" := VStr "GB" ]}] ]}))
    | _ =>
        HttpResponse 200
          (inr (VDict {[ "timezone" := VStr "Europe/London";
                         "current" :=
                           VDict {[ "temperature_2m" := VFloat 11.3;
                                    "apparent_temperature" := VFloat 9.8;
                                    "relative_humidity_2m" := VInt 81;
                                    "weather_code" := VInt 3;
                                    "cloud_cover" := VInt 100;
                                    "pressure_msl" := VFloat 1012.4;
                                    "wind_speed_10m" := VFloat 14.2;
                                    "wind_direction_10m" := VInt 230 ]} ]}))
    end;
  http_calls := 0;
  openai := fun _ => OpenAIFailed "Connection error.";
  openai_calls := 0;
|}.

(** The first message [run_task] queues for a request. *)
Definition first_message (request : RunTaskRequest) : Message :=
  {| msg_task := req_task_name request; msg_task_uuid := scenario_uuid 0;
     msg_kwargs := req_task_parameters request; msg_retries := 0;
     msg_countdown := 0 |}.

(** The row [run_task] creates for a request. *)
Definition first_row (request : RunTaskRequest) : Task.t :=
  Task.mk (scenario_uuid 0) (TaskName_value (req_task_name request))
    (req_task_parameters request) PENDING None None 1767522600 None None.

(** The service after [run_task] accepted a request. *)
Definition submitted (request : RunTaskRequest) (e : ext_env) : world :=
  snd (run_task request (fresh_world e)).

(** The row of the first task of a scenario. *)
Definition row (w : world) : option Task.t := db w !! scenario_uuid 0.

(** [result["result"]] of a row. *)
Definition result_field (t : option Task.t) : option pyval :=
  match t with
  | Some t =>
      match Task.result t with
      | Some (VDict d) => d !! "result"
      | _ => None
      end
  | None => None
  end.

(** The weather task whose first geocoding request times out: the service
    after the request was accepted, after the first delivery, and after
    the retry. *)
Definition flaky_submitted : world :=
  submitted (weather_request "London") timeout_then_fine.
Definition flaky_failed_once : world := worker 1 flaky_submitted.
Definition flaky_done : world := worker 2 flaky_submitted.

(** The same task, read by a client between the failure and the retry. *)
Definition flaky_read_between : world :=
  worker 1 (snd (get_task_output (scenario_uuid 0) flaky_failed_once)).

(** The sum of 5 and 3: accepted, then executed, then read once. *)
Definition sum_submitted : world := submitted (sum_request (VInt 5) (VInt 3)) city_unknown.
Definition sum_done : world := worker 1 sum_submitted.
Definition sum_read : world := snd (get_task_output (scenario_uuid 0) sum_done).

(** The row of the sum task once it was executed. *)
Definition sum_row : Task.t :=
  default (first_row (sum_request (VInt 5) (VInt 3))) (row sum_done).

(** The same world with another cache: none, or a server in another
    state. *)
Definition without_cache (w : world) : world := set_redis (fun _ => None) w.
Definition with_health (h : redis_health) (w : world) : world :=
  set_redis (fmap (fun srv => {| data := data srv; health := h |})) w.

(** 10000 letters followed by two spaces. *)
Definition padded_prompt : string :=
  string_of_list_ascii (replicate (Z.to_nat 10000) "x"%char) ++ "  ".

(** ** More vocabulary *)

(** The total of the status gauge over its four labels. *)
Definition gauge_sum (g : gmap string Z) : Z :=
  default 0 (g !! "pending") + default 0 (g !! "running") +
  default 0 (g !! "completed") + default 0 (g !! "failed").

Definition gauge_total (w : world) : Z := gauge_sum (tasks_by_status w).

(** Every row is stored under its own [id], the primary key. *)
Definition keyed_by_id (w : world) : Prop :=
  forall u t, db w !! u = Some t -> Task.id t = u.

(** The keys of the table are ids in their canonical text, the form in
    which this model holds a [UUID]. *)
Definition canonical_ids (w : world) : Prop :=
  forall u t, db w !! u = Some t -> canonical_uuid u = true.

(** What a task body sends to the external services in one call: no
    request to OpenAI, at most [n] HTTP requests, and exactly [n] when it
    returns. *)
Definition sends {A} (n : nat) (m : M ext_env A) : Prop :=
  forall e,
    openai_calls (snd (m e)) = openai_calls e /\
    (http_calls e <= http_calls (snd (m e)) <= http_calls e + n)%nat /\
    (is_null (returned (fst (m e))) = false ->
     http_calls (snd (m e)) = (http_calls e + n)%nat).

(** The reply the HTTP service gives to the next request. *)
Definition next_reply (e : ext_env) : http_reply := http e (http_calls e).

(** What the service is asked to do, one thing at a time: the three
    routes, and a worker handling the oldest message of the queue. *)
Inductive request :=
| Submit (r : RunTaskRequest)      (* POST /run-task *)
| Output (task_uuid : UUID)        (* GET /get-task-output *)
| Status (task_uuid : UUID)        (* GET /tasks/{task_uuid}/status *)
| Work.

Definition handle (q : request) (w : world) : world :=
  match q with
  | Submit r => snd (run_task r w)
  | Output u => snd (get_task_output u w)
  | Status u => snd (get_task_status u w)
  | Work => default w (worker_step w)
  end.

(** The service after a history of requests and worker steps. *)
Definition serve (qs : list request) (w : world) : world :=
  foldl (fun w q => handle q w) w qs.

(** Two tasks submitted, a weather task and then a sum, none executed
    yet; the geocoder will time out on the first request. *)
Definition two_submitted : world :=
  handle (Submit (sum_request (VInt 5) (VInt 3)))
    (handle (Submit (weather_request "London")) (fresh_world timeout_then_fine)).

(** The row [run_task] creates for a request, and the message it queues. *)
Definition pending_row (request : RunTaskRequest) (w : world) : Task.t :=
  Task.mk (uuid4 w (uuid4_calls w)) (TaskName_value (req_task_name request))
    (req_task_parameters request) PENDING None None (utcnow w) None None.

Definition first_delivery (request : RunTaskRequest) (w : world) : Message :=
  {| msg_task := req_task_name request; msg_task_uuid := uuid4 w (uuid4_calls w);
     msg_kwargs := req_task_parameters request; msg_retries := 0; msg_countdown := 0 |}.

(** The time to live [CacheService.set] stores an entry with. *)
Definition stored_ttl (ttl : option Z) : Z :=
  match ttl with
  | Some t => if t =? 0 then cache_ttl_seconds settings else t
  | None => cache_ttl_seconds settings
  end.

(** Two states of the service that differ in the cache and the log at
    most. *)
Definition same_but_cache (w w' : world) : Prop :=
  db w' = db w /\ broker w' = broker w /\ tasks_by_status w' = tasks_by_status w /\
  ext w' = ext w /\ utcnow w' = utcnow w /\ uuid4 w' = uuid4 w /\
  uuid4_calls w' = uuid4_calls w.

(** Two rows that hold the same request: the columns set when the row is
    created. *)
Definition same_request (t t' : Task.t) : Prop :=
  Task.id t' = Task.id t /\ Task.task_name t' = Task.task_name t /\
  Task.task_parameters t' = Task.task_parameters t /\
  Task.created_at t' = Task.created_at t.

(** The tasks created so far, and the identifiers [uuid4()] has yet to
    draw. *)
Definition tasks_created (w : world) : Z := Z.of_nat (uuid4_calls w).

Definition never_drawn_again (u : UUID) (w : world) : Prop :=
  forall n, (uuid4_calls w <= n)%nat -> uuid4 w n <> u.

(** A piece of text without a comma, and an origin as
    [parse_cors_origins] gives them: not empty, with no whitespace around
    it and no comma in it. *)
Definition comma_free (x : string) : bool :=
  forallb (fun c => negb (Ascii.eqb c ",")) (list_ascii_of_string x).

Definition clean_origin (origin : string) : Prop :=
  origin <> "" /\ strip origin = origin /\ comma_free origin = true.

(** A computation that changes the cache and the log at most. *)
Definition touches_only_cache {A} (m : M world A) : Prop :=
  forall w, same_but_cache w (snd (m w)).

Arguments observations _ : simpl never.
Arguments gauge_sum _ : simpl never.
Arguments store_reads _ : simpl never.

Lemma observations_app l1 l2 :
  observations (l1 ++ l2) = (observations l1 + observations l2)%nat.
Proof. unfold observations. by rewrite List.filter_app, length_app. Qed.

Lemma store_reads_app l1 l2 :
  store_reads (l1 ++ l2) = (store_reads l1 + store_reads l2)%nat.
Proof. unfold store_reads. by rewrite List.filter_app, length_app. Qed.

Lemma status_history_app u l1 l2 :
  status_history u (l1 ++ l2) = (status_history u l1 ++ status_history u l2)%list.
Proof. apply omap_app. Qed.

Lemma retries_scheduled_app l1 l2 :
  retries_scheduled (l1 ++ l2) = (retries_scheduled l1 ++ retries_scheduled l2)%list.
Proof. apply omap_app. Qed.

Lemma cache_writes_app l1 l2 :
  cache_writes (l1 ++ l2) = (cache_writes l1 ++ cache_writes l2)%list.
Proof. apply omap_app. Qed.

Ltac count_log :=
  rewrite ?observations_app, ?store_reads_app;
  unfold observations, store_reads; cbn; lia.

(** ** One execution of a task *)

Ltac unfold_run :=
  unfold run, run_claim, run_try, run_except, try_except, bind, session_get,
    session_commit, gauge_dec, gauge_inc, gauge_add, emit, modify, gets, ret,
    raise, call_ext, lift, set_log, set_db, set_gauge, set_ext, set_broker,
    set_redis; cbn.

Lemma finished_id now o t : Task.id (finished now o t) = Task.id t.
Proof. by destruct o. Qed.

Lemma finished_status now o t :
  Task.status (finished now o t) =
  match o with Return _ => COMPLETED | Raise _ => FAILED end.
Proof. by destruct o. Qed.

(** [run] on an existing row: the body's outcome is the outcome of [run],
    the row holds it, and nothing but the row, the gauge, the log and the
    external services changes. *)
Lemma run_spec self u p w t o env' :
  db w !! u = Some t ->
  Task.id t = u ->
  execute self p (ext w) = (o, env') ->
  exists g',
    run self u p w =
    (o, {| db := <[u := finished (utcnow w) o t]> (db w);
           redis := redis w; broker := broker w; tasks_by_status := g';
           log := (log w ++ attempt_log self u (Task.status (finished (utcnow w) o t)))%list;
           ext := env'; utcnow := utcnow w; uuid4 := uuid4 w;
           uuid4_calls := uuid4_calls w |}).
Proof.
  intros Hu Hid He. unfold_run. rewrite Hu. cbn. rewrite He, Hid. cbn.
  destruct o as [r|e]; cbn; rewrite lookup_insert_eq; cbn;
    rewrite Hid, insert_insert_eq; eexists;
    f_equal; f_equal; unfold attempt_log; cbn; by rewrite <- !app_assoc.
Qed.

(** Every call of [run] observes one duration: whether the body returns
    or raises, and whether the row exists or not. *)
Lemma run_observes_once self u p w :
  observations (log (snd (run self u p w))) = S (observations (log w)).
Proof.
  unfold_run.
  destruct (db w !! u) as [t|] eqn:Hu; cbn.
  - destruct (execute self p (ext w)) as [[r|e] env'] eqn:He; cbn;
      match goal with |- context [ (?m !! u) ] => destruct (m !! u) end; cbn; count_log.
  - destruct (execute self p (ext w)) as [[r|e] env'] eqn:He; cbn; rewrite ?Hu; cbn;
      count_log.
Qed.

(** ** One delivery *)

(** A delivery whose row exists: the queue receives the retry, if any;
    the rest is as [run] leaves it. *)
Lemma deliver_spec m w t p o env' :
  let ct := task_map (msg_task m) in
  let u := msg_task_uuid m in
  bind_arguments ct (msg_kwargs m) = Return p ->
  db w !! u = Some t ->
  Task.id t = u ->
  execute (task_class ct) p (ext w) = (o, env') ->
  exists g',
    deliver m w =
    (delivered ct m o,
     {| db := <[u := finished (utcnow w) o t]> (db w);
        redis := redis w;
        broker := (broker w ++ requeued ct m o)%list;
        tasks_by_status := g';
        log := (log w ++ attempt_log (task_class ct) u
                           (Task.status (finished (utcnow w) o t)) ++
                         List.map Publish (requeued ct m o))%list;
        ext := env'; utcnow := utcnow w; uuid4 := uuid4 w;
        uuid4_calls := uuid4_calls w |}).
Proof.
  intros ct u Hbind Hu Hid He.
  destruct (run_spec _ _ _ _ _ _ _ Hu Hid He) as [g' Hrun].
  exists g'. unfold deliver, entry_point. fold ct. fold u.
  unfold bind at 1. unfold lift. rewrite Hbind. unfold try_except. rewrite Hrun.
  unfold delivered, requeued, will_retry, retry. rewrite Nat.leb_antisym.
  destruct o as [r|e];
    [|destruct (is_ValueError e), (msg_retries m <? max_retries ct)%nat];
    cbn; unfold raise, publish, bind, modify, emit, raise, set_broker, set_log;
    cbn; by rewrite ?app_nil_r, <- ?app_assoc.
Qed.

(** The same for the worker: it takes the message off the queue first. *)
Lemma worker_step_spec m rest w t p o env' :
  let ct := task_map (msg_task m) in
  let u := msg_task_uuid m in
  broker w = m :: rest ->
  bind_arguments ct (msg_kwargs m) = Return p ->
  db w !! u = Some t ->
  Task.id t = u ->
  execute (task_class ct) p (ext w) = (o, env') ->
  exists g',
    worker_step w =
    Some {| db := <[u := finished (utcnow w) o t]> (db w);
            redis := redis w;
            broker := (rest ++ requeued ct m o)%list;
            tasks_by_status := g';
            log := (log w ++ attempt_log (task_class ct) u
                               (Task.status (finished (utcnow w) o t)) ++
                             List.map Publish (requeued ct m o))%list;
            ext := env'; utcnow := utcnow w; uuid4 := uuid4 w;
            uuid4_calls := uuid4_calls w |}.
Proof.
  intros ct u Hq Hbind Hu Hid He. unfold worker_step. rewrite Hq.
  destruct (deliver_spec m (set_broker (fun _ => rest) w) t p o env'
              Hbind Hu Hid He) as [g' Hd].
  exists g'. by rewrite Hd.
Qed.

(** ** The retries of a task *)

Lemma worker_empty fuel w : broker w = [] -> worker fuel w = w.
Proof. intros Hq. destruct fuel; [done|]. cbn. unfold worker_step. by rewrite Hq. Qed.

(** A task alone in the queue whose body keeps failing with transient
    errors: with [k] retries left it is executed [k + 1] times, each
    retry scheduled after [default_retry_delay], and its row ends
    [failed] with the message of the last error. *)
Lemma worker_transient k : forall m w t p fuel,
  let ct := task_map (msg_task m) in
  let u := msg_task_uuid m in
  let body := execute (task_class ct) p in
  (msg_retries m + k = max_retries ct)%nat ->
  broker w = [m] ->
  bind_arguments ct (msg_kwargs m) = Return p ->
  db w !! u = Some t ->
  Task.id t = u ->
  Forall transient (attempts body (S k) (ext w)) ->
  (S k <= fuel)%nat ->
  let w' := worker fuel w in
  broker w' = [] /\
  observations (log w') = (observations (log w) + S k)%nat /\
  retries_scheduled (log w') =
    (retries_scheduled (log w) ++
     List.map (fun i => (i, default_retry_delay ct)) (seq (S (msg_retries m)) k))%list /\
  exists t' e,
    last (attempts body (S k) (ext w)) = Some (Raise e) /\
    db w' !! u = Some t' /\
    Task.status t' = FAILED /\
    Task.error_message t' = Some (str e).
Proof.
  induction k as [|k IH]; intros m w t p fuel ct u body Hk Hq Hbind Hu Hid Hall Hfuel.
  - destruct fuel as [|fuel]; [lia|]. cbn in Hall.
    destruct (body (ext w)) as [o env'] eqn:He. apply Forall_cons in Hall as [[e [-> Hve]] _].
    destruct (worker_step_spec m [] w t p (Raise e) env' Hq Hbind Hu Hid He) as [g' Hstep].
    cbn. rewrite Hstep. unfold requeued, will_retry. fold ct.
    replace (msg_retries m <? max_retries ct)%nat with false
      by (symmetry; apply Nat.ltb_ge; lia).
    rewrite andb_false_r. rewrite worker_empty by done. cbn.
    rewrite app_nil_r. split; [done|]. split; [count_log|]. split.
    { rewrite retries_scheduled_app. cbn. by rewrite !app_nil_r. }
    exists (finished (utcnow w) (Raise e) t), e. rewrite He. cbn.
    by rewrite lookup_insert_eq.
  - destruct fuel as [|fuel]; [lia|]. cbn [attempts] in Hall.
    destruct (body (ext w)) as [o env'] eqn:He. apply Forall_cons in Hall as [[e [-> Hve]] Hall].
    destruct (worker_step_spec m [] w t p (Raise e) env' Hq Hbind Hu Hid He) as [g' Hstep].
    cbn [worker]. rewrite Hstep. unfold requeued, will_retry. fold ct. rewrite Hve.
    replace (msg_retries m <? max_retries ct)%nat with true
      by (symmetry; apply Nat.ltb_lt; lia).
    cbn [negb andb app List.map].
    match goal with |- context [worker fuel ?w1] => set (w1' := w1) end.
    specialize (IH (retried ct m) w1' (finished (utcnow w) (Raise e) t) p fuel).
    cbn in IH. fold ct in IH. fold u in IH. fold body in IH.
    destruct IH as (Hq' & Hobs & Hret & t' & e' & Hlast & Hdb & Hst & Herr);
      [lia | done | done | by rewrite lookup_insert_eq | done | done | lia |].
    split; [done|]. split.
    { rewrite Hobs. subst w1'. cbn. count_log. }
    split.
    { rewrite Hret. subst w1'. cbn. rewrite !retries_scheduled_app. cbn.
      by rewrite <- !app_assoc. }
    exists t', e'. cbn [attempts]. rewrite He. split; [|done].
    destruct (attempts body (S k) env') eqn:Hatt; [by cbn in Hatt; destruct (body env')|].
    rewrite <- Hlast. by rewrite last_cons, Hlast.
Qed.

(** A delivery whose body raises a [ValueError]: the row is [failed] with
    the message of the error and nothing is queued. *)
Lemma validation_failure_not_retried m w t p rest e env' :
  let ct := task_map (msg_task m) in
  let u := msg_task_uuid m in
  bind_arguments ct (msg_kwargs m) = Return p ->
  db w !! u = Some t ->
  Task.id t = u ->
  broker w = m :: rest ->
  execute (task_class ct) p (ext w) = (Raise e, env') ->
  is_ValueError e = true ->
  exists w' t',
    worker_step w = Some w' /\
    db w' !! u = Some t' /\
    Task.status t' = FAILED /\
    Task.error_message t' = Some (str e) /\
    broker w' = rest /\
    retries_scheduled (log w') = retries_scheduled (log w).
Proof.
  intros ct u Hbind Hu Hid Hq He Hve.
  destruct (worker_step_spec m rest w t p (Raise e) env' Hq Hbind Hu Hid He)
    as [g' Hstep].
  eexists _, _. split; [exact Hstep|]. cbn.
  unfold requeued, will_retry. rewrite Hve. cbn.
  rewrite lookup_insert_eq, !app_nil_r, retries_scheduled_app. cbn.
  by rewrite app_nil_r.
Qed.

(** The three Celery tasks are declared with [max_retries=3] and a
    positive [default_retry_delay]. *)
Lemma celery_options (task_name : TaskName) :
  max_retries (task_map task_name) = 3%nat /\ 0 < default_retry_delay (task_map task_name).
Proof. by destruct task_name. Qed.

(** C3. Failure classification. For a message [m] of any of the three
    tasks whose row exists:
    - validation class: when the body raises a [ValueError], in whatever
      delivery, the worker marks the row [failed] with that message and
      queues no retry;
    - transient class: when the body raises other exceptions in the first
      delivery and in each of the three retries, the task is executed four
      times, the three retries each scheduled after the positive
      [default_retry_delay], then the queue is empty and the row is
      [failed] with the message of the last error. *)
Theorem failure_classification (m : Message) (w : world) (t : Task.t)
    (p : gmap string pyval) :
  let ct := task_map (msg_task m) in
  let u := msg_task_uuid m in
  let body := execute (task_class ct) p in
  let d := default_retry_delay ct in
  bind_arguments ct (msg_kwargs m) = Return p ->
  db w !! u = Some t ->
  Task.id t = u ->
  (forall rest e env',
     broker w = m :: rest ->
     body (ext w) = (Raise e, env') ->
     is_ValueError e = true ->
     exists w' t',
       worker_step w = Some w' /\
       db w' !! u = Some t' /\
       Task.status t' = FAILED /\
       Task.error_message t' = Some (str e) /\
       broker w' = rest /\
       retries_scheduled (log w') = retries_scheduled (log w)) /\
  (forall e0 e1 e2 e3 fuel,
     broker w = [m] ->
     msg_retries m = 0%nat ->
     attempts body 4 (ext w) = [Raise e0; Raise e1; Raise e2; Raise e3] ->
     is_ValueError e0 = false -> is_ValueError e1 = false ->
     is_ValueError e2 = false -> is_ValueError e3 = false ->
     (4 <= fuel)%nat ->
     let w' := worker fuel w in
     0 < d /\
     broker w' = [] /\
     observations (log w') = (observations (log w) + 4)%nat /\
     retries_scheduled (log w') =
       (retries_scheduled (log w) ++ [(1%nat, d); (2%nat, d); (3%nat, d)])%list /\
     exists t',
       db w' !! u = Some t' /\
       Task.status t' = FAILED /\
       Task.error_message t' = Some (str e3)).
Proof.
  intros ct u body d Hbind Hu Hid. split.
  - intros rest e env' Hq He Hve.
    by apply (validation_failure_not_retried m w t p rest e env').
  - intros e0 e1 e2 e3 fuel Hq Hr Hatt H0 H1 H2 H3 Hfuel w'.
    destruct (celery_options (msg_task m)) as [Hmax Hd].
    destruct (worker_transient 3 m w t p fuel) as (Hq' & Hobs & Hret & t' & e & Hlast & Hdb & Hst & Herr);
      try done.
    { rewrite Hr. by rewrite Hmax. }
    { fold ct. fold body. rewrite Hatt.
      repeat (apply Forall_cons; split; [by eexists|]). apply Forall_nil. done. }
    fold ct in Hret, Hlast. fold body in Hlast. fold u in Hdb.
    rewrite Hatt in Hlast. cbn in Hlast. injection Hlast as <-.
    rewrite Hr in Hret. cbn in Hret.
    split; [done|]. split; [done|]. split; [done|]. split; [done|]. by exists t'.
Qed.

Lemma failure_classification_witness :
  (exists w' t',
     worker_step (submitted (weather_request "Atlantis") city_unknown) = Some w' /\
     db w' !! scenario_uuid 0 = Some t' /\
     Task.status t' = FAILED /\
     Task.error_message t' = Some "City 'Atlantis' not found" /\
     broker w' = [] /\
     retries_scheduled (log w') = []) /\
  (let w' := worker 4 (submitted (weather_request "London") geocoding_down) in
   0 < 30 /\
   broker w' = [] /\
   observations (log w') = 4%nat /\
   retries_scheduled (log w') = [(1%nat, 30); (2%nat, 30); (3%nat, 30)] /\
   exists t',
     db w' !! scenario_uuid 0 = Some t' /\
     Task.status t' = FAILED /\
     Task.error_message t' = Some "Open-Meteo Geocoding API error: 500").
Proof.
  split.
  - pose proof (failure_classification
                  (first_message (weather_request "Atlantis"))
                  (submitted (weather_request "Atlantis") city_unknown)
                  (first_row (weather_request "Atlantis"))
                  {[ "city" := VStr "Atlantis"; "units" := VStr "metric" ]}) as H.
    destruct H as [H _]; [by vm_compute..|].
    apply (H [] (Exn ValueError "City 'Atlantis' not found")
             (snd (execute WeatherTask
                     {[ "city" := VStr "Atlantis"; "units" := VStr "metric" ]}
                     city_unknown))); by vm_compute.
  - pose proof (failure_classification
                  (first_message (weather_request "London"))
                  (submitted (weather_request "London") geocoding_down)
                  (first_row (weather_request "London"))
                  {[ "city" := VStr "London"; "units" := VStr "metric" ]}) as H.
    destruct H as [_ H]; [by vm_compute..|].
    pose (e := Exn RuntimeError "Open-Meteo Geocoding API error: 500").
    apply (H e e e e 4%nat); by vm_compute.
Defined.

(** ** A failure followed by a successful retry *)

Lemma status_history_attempt self u s :
  status_history u (attempt_log self u s) = [RUNNING; s].
Proof. cbn. by rewrite String.eqb_refl. Qed.

(** A task alone in the queue whose first execution fails with a
    transient error and whose retry returns [r]: both executions write
    the row, which goes through [running], [failed], [running] again and
    [completed], keeps the error of the first execution next to the
    result of the second, and two durations are observed. *)
Lemma retry_after_failure m w t p e r fuel :
  let ct := task_map (msg_task m) in
  let u := msg_task_uuid m in
  let body := execute (task_class ct) p in
  bind_arguments ct (msg_kwargs m) = Return p ->
  db w !! u = Some t ->
  Task.id t = u ->
  broker w = [m] ->
  msg_retries m = 0%nat ->
  attempts body 2 (ext w) = [Raise e; Return r] ->
  is_ValueError e = false ->
  (2 <= fuel)%nat ->
  let w' := worker fuel w in
  broker w' = [] /\
  observations (log w') = (observations (log w) + 2)%nat /\
  status_history u (log w') =
    (status_history u (log w) ++ [RUNNING; FAILED; RUNNING; COMPLETED])%list /\
  exists t',
    db w' !! u = Some t' /\
    Task.status t' = COMPLETED /\
    Task.result t' = Some r /\
    Task.error_message t' = Some (str e).
Proof.
  intros ct u body Hbind Hu Hid Hq Hr Hatt Hve Hfuel w'.
  destruct fuel as [|[|fuel]]; [lia..|].
  cbn in Hatt. destruct (body (ext w)) as [o1 env1] eqn:He1.
  destruct (body env1) as [o2 env2] eqn:He2. injection Hatt as -> ->.
  destruct (celery_options (msg_task m)) as [Hmax _]. fold ct in Hmax.
  assert (Hreq : requeued ct m (Raise e) = [retried ct m]).
  { unfold requeued, will_retry. by rewrite Hve, Hr, Hmax. }
  destruct (worker_step_spec m [] w t p (Raise e) env1 Hq Hbind Hu Hid He1) as [g1 Hs1].
  fold ct in Hs1. fold u in Hs1. rewrite Hreq in Hs1. cbn [app List.map] in Hs1.
  match type of Hs1 with _ = Some ?w1 => set (w1' := w1) in * end.
  destruct (worker_step_spec (retried ct m) [] w1'
              (finished (utcnow w) (Raise e) t) p (Return r) env2) as [g2 Hs2];
    [done | done | by cbn; rewrite lookup_insert_eq | done | done |].
  change (requeued _ (retried ct m) (Return r)) with (@nil Message) in Hs2.
  assert (Hw' : w' = worker fuel
    {| db := <[u := finished (utcnow w) (Return r) (finished (utcnow w) (Raise e) t)]> (db w1');
       redis := redis w; broker := []; tasks_by_status := g2;
       log := (log w1' ++ attempt_log (task_class ct) u COMPLETED)%list;
       ext := env2; utcnow := utcnow w; uuid4 := uuid4 w;
       uuid4_calls := uuid4_calls w |}).
  { subst w'. cbn [worker]. rewrite Hs1, Hs2. cbn. by rewrite ?app_nil_r. }
  rewrite worker_empty in Hw' by done. rewrite Hw'. subst w1'. cbn [db broker log].
  split; [done|]. split; [count_log|]. split.
  { rewrite !status_history_app, !status_history_attempt. cbn.
    by rewrite <- !app_assoc. }
  eexists. by rewrite lookup_insert_eq.
Qed.

(** C1. The statuses of a row are not monotonic under retries. The
    weather task for London, the first geocoding request timing out: the
    first delivery leaves the row [failed] and schedules a retry, and the
    retry moves the same row from [failed] back to [running] before it
    completes. The gauge, updated as if each execution started from
    [pending], ends with [-1] pending tasks and one failed task although
    the only task is completed. The reader, which caches a [failed] view
    as final, goes on answering [failed] once the retry has completed
    the task. *)
Theorem retry_reopens_failed_row :
  Task.status <$> row flaky_failed_once = Some FAILED /\
  broker flaky_failed_once =
    [retried fetch_weather (first_message (weather_request "London"))] /\
  status_history (scenario_uuid 0) (log flaky_done) =
    [PENDING; RUNNING; FAILED; RUNNING; COMPLETED] /\
  broker flaky_done = [] /\
  gauge flaky_done "pending" = -1 /\
  gauge flaky_done "failed" = 1 /\
  gauge flaky_done "completed" = 1 /\
  Task.status <$> row flaky_read_between = Some COMPLETED /\
  out_status <$> returned (fst (get_task_output (scenario_uuid 0) flaky_read_between)) =
    Some FAILED.
Proof. repeat split; vm_compute; reflexivity. Qed.

(** C2. A row can hold a result and an error together. In the same
    scenario, once the retry has claimed the row it is [running] with the
    error message of the first execution still set, and after the retry
    it is [completed] with both a result and that error message. *)
Theorem retry_keeps_error_message :
  (let claimed := snd (run_claim (scenario_uuid 0) flaky_failed_once) in
   Task.status <$> row claimed = Some RUNNING /\
   Task.error_message <$> row claimed = Some (Some "Open-Meteo API request timed out")) /\
  Task.status <$> row flaky_done = Some COMPLETED /\
  (is_null ∘ Task.result) <$> row flaky_done = Some false /\
  Task.error_message <$> row flaky_done = Some (Some "Open-Meteo API request timed out").
Proof. repeat split; vm_compute; reflexivity. Qed.

(** C4, as stated, fails: the task that fails on its first attempt and
    completes on the retry produces two duration observations, not one. *)
Lemma two_observations_for_one_task :
  Task.status <$> row flaky_failed_once = Some FAILED /\
  Task.status <$> row flaky_done = Some COMPLETED /\
  broker flaky_done = [] /\
  observations (log flaky_done) = 2%nat /\
  observations (log flaky_done) <> 1%nat.
Proof. by vm_compute. Qed.

(** C4, amended. The duration is observed once per execution: every call
    of [run] observes exactly one duration, whatever the body does and
    whether or not the row exists; so a task alone in the queue that
    fails with a transient error on its first attempt and completes on
    the retry produces exactly two observations. *)
Theorem duration_observed_once_per_execution :
  (forall self u p w,
     observations (log (snd (run self u p w))) = S (observations (log w))) /\
  (forall m w t p e r fuel,
     let ct := task_map (msg_task m) in
     let u := msg_task_uuid m in
     bind_arguments ct (msg_kwargs m) = Return p ->
     db w !! u = Some t ->
     Task.id t = u ->
     broker w = [m] ->
     msg_retries m = 0%nat ->
     attempts (execute (task_class ct) p) 2 (ext w) = [Raise e; Return r] ->
     is_ValueError e = false ->
     (2 <= fuel)%nat ->
     broker (worker fuel w) = [] /\
     Task.status <$> db (worker fuel w) !! u = Some COMPLETED /\
     observations (log (worker fuel w)) = (observations (log w) + 2)%nat).
Proof.
  split; [apply run_observes_once|].
  intros m w t p e r fuel ct u Hbind Hu Hid Hq Hr Hatt Hve Hfuel.
  destruct (retry_after_failure m w t p e r fuel Hbind Hu Hid Hq Hr Hatt Hve Hfuel)
    as (Hq' & Hobs & _ & t' & Hdb & Hst & _).
  fold u in Hdb. by rewrite Hdb, Hq', Hobs, <- Hst.
Qed.

Lemma duration_observed_once_per_execution_witness :
  observations (log (snd (run SumTask (scenario_uuid 0) ∅ (fresh_world city_unknown)))) = 1%nat /\
  broker (worker 2 flaky_submitted) = [] /\
  Task.status <$> db (worker 2 flaky_submitted) !! scenario_uuid 0 = Some COMPLETED /\
  observations (log (worker 2 flaky_submitted)) = 2%nat.
Proof.
  destruct duration_observed_once_per_execution as [Hrun Hretry]. split.
  - apply (Hrun SumTask (scenario_uuid 0) ∅ (fresh_world city_unknown)).
  - apply (Hretry (first_message (weather_request "London")) flaky_submitted
             (first_row (weather_request "London"))
             {[ "city" := VStr "London"; "units" := VStr "metric" ]}
             (Exn RuntimeError "Open-Meteo API request timed out")
             (match fst (execute WeatherTask
                           {[ "city" := VStr "London"; "units" := VStr "metric" ]}
                           (ext flaky_failed_once)) with
              | Return r => r
              | Raise _ => VNone
              end) 2%nat); by vm_compute.
Defined.

(** ** The output reader *)

Ltac unfold_reader :=
  unfold get_task_output, get_task_output_from_db, CacheService.get_task_output,
    CacheService.set_task_output, CacheService.get, CacheService.set,
    redis_GET, redis_SETEX, validate_cached, bind, session_get, emit, modify,
    gets, ret, raise, set_log, set_redis; cbn.

Lemma reads_answered_test w : reads_answeredb w = true -> reads_answered w.
Proof.
  unfold reads_answeredb. intros H srv Hr. rewrite Hr in H. by destruct (health srv).
Qed.

(** The lookup in the cache: without a client it gives [None] and touches
    nothing; with one it sends a [GET] and decodes the answer. *)
Lemma cache_get_spec u w :
  reads_answered w ->
  CacheService.get_task_output u w =
  (Return ((snd <$> cache_entry u w) ≫= read_back),
   looked_up u w).
Proof.
  intros Hup. unfold looked_up, cache_entry, output_key. unfold_reader.
  destruct (redis w) as [srv|] eqn:Hr; cbn.
  - specialize (Hup srv Hr).
    destruct (health srv); [| |done];
      by destruct (data srv !! _) as [[ttl [r|[]|s]]|]; cbn; rewrite Hr.
  - destruct w; cbn in *. by rewrite app_nil_r, Hr.
Qed.

(** A hit: the cached view is returned and the database is not read. *)
Lemma reader_hit u w r :
  reads_answered w ->
  snd <$> cache_entry u w = Some (ViewJson r) ->
  exists w',
    get_task_output u w = (Return r, w') /\
    store_reads (log w') = store_reads (log w) /\
    db w' = db w /\ redis w' = redis w.
Proof.
  intros Hup Hhit. unfold get_task_output, bind.
  rewrite (cache_get_spec u w Hup), Hhit. cbn.
  eexists. split; [done|]. cbn. split; [|done].
  destruct (redis w); count_log.
Qed.

(** A miss: the reader goes on with the database. *)
Lemma reader_miss u w :
  cache_miss u w ->
  get_task_output u w =
  get_task_output_from_db u (looked_up u w).
Proof.
  intros [Hup Hmiss]. unfold get_task_output, bind.
  rewrite (cache_get_spec u w Hup).
  destruct (cache_entry u w) as [[ttl [r|v|s]]|]; cbn in *; [done| |by rewrite Hmiss|done].
  destruct v; cbn in *; by rewrite ?Hmiss.
Qed.

(** From the database, an absent row: [404], and nothing is written. *)
Lemma from_db_absent u w :
  db w !! u = None ->
  exists w' msg,
    get_task_output_from_db u w =
      (Raise (Exn (HTTPException HTTP_404_NOT_FOUND) msg), w') /\
    redis w' = redis w /\ db w' = db w /\
    cache_writes (log w') = cache_writes (log w) /\
    store_reads (log w') = S (store_reads (log w)).
Proof.
  intros Hu. unfold_reader. rewrite Hu. eexists _, _. split; [done|]. cbn.
  rewrite cache_writes_app, app_nil_r. repeat split; try done. count_log.
Qed.

(** From the database, a row that is not terminal: the view is returned
    and the cache is left alone. *)
Lemma from_db_not_terminal u w t :
  db w !! u = Some t ->
  is_terminal (Task.status t) = false ->
  exists w',
    get_task_output_from_db u w = (Return (view_of t), w') /\
    redis w' = redis w /\ db w' = db w /\
    cache_writes (log w') = cache_writes (log w).
Proof.
  intros Hu Ht. unfold_reader. rewrite Hu, Ht. eexists. split; [done|]. cbn.
  by rewrite cache_writes_app, app_nil_r.
Qed.

(** From the database, a terminal row: whatever the state of the cache,
    the view is handed to it before it is returned. *)
Lemma from_db_terminal_populates u w t :
  db w !! u = Some t ->
  is_terminal (Task.status t) = true ->
  get_task_output_from_db u w =
  populate_then_return u (view_of t) (set_log (fun l => (l ++ [SessionGet u])%list) w).
Proof.
  intros Hu Ht. unfold populate_then_return, get_task_output_from_db, bind, session_get,
    emit, modify, gets, ret. cbn. rewrite Hu, Ht.
  unfold set_log; cbn.
  match goal with
  | |- (let (_, _) := (let (_, _) := ?x in _) in _) = _ =>
      by destruct x as [[?|?] ?]
  end.
Qed.

(** From the database, a terminal row, by the state of the cache: no
    client, a server that accepts the write, one that does not. *)
Lemma from_db_terminal u w t :
  db w !! u = Some t ->
  is_terminal (Task.status t) = true ->
  match redis w with
  | None =>
      exists w', get_task_output_from_db u w = (Return (view_of t), w') /\
                 redis w' = None /\
                 cache_writes (log w') = cache_writes (log w)
  | Some srv =>
      match health srv with
      | Healthy =>
          exists w', get_task_output_from_db u w = (Return (view_of t), w') /\
                     cache_entry u w' = Some (3600, ViewJson (view_of t)) /\
                     cache_writes (log w') =
                       (cache_writes (log w) ++ [(output_key u, 3600)])%list
      | _ =>
          exists w' e, get_task_output_from_db u w = (Raise e, w') /\
                       exn_type e = RedisError /\ redis w' = redis w
      end
  end.
Proof.
  intros Hu Ht. unfold_reader. rewrite Hu, Ht.
  destruct (redis w) as [srv|] eqn:Hr; cbn; rewrite ?Hr; cbn.
  - destruct (health srv) eqn:Hh; cbn.
    + eexists. split; [done|]. unfold cache_entry, output_key. cbn.
      rewrite lookup_insert_eq, !cache_writes_app. cbn.
      by rewrite app_nil_r.
    + by eexists _, _.
    + by eexists _, _.
  - eexists. split; [done|]. cbn. by rewrite ?Hr, cache_writes_app, app_nil_r.
Qed.

(** C5. [get_task_output] is cache-aside.
    - On a hit the cached view is returned and the database is not read.
    - On a miss the database is read; an absent row gives a 404 and
      nothing is cached.
    - On a miss with a terminal row the view is handed to the cache,
      with the default time to live, before it is returned; the server
      accepting the write, the view is returned and the cache then holds
      it under the task's key with the time to live [cache_ttl_seconds],
      3600 seconds.
    - On a miss with a [pending] or [running] row the view is returned
      and nothing is written to the cache. *)
Theorem cache_aside (u : UUID) (w : world) :
  (forall r,
     reads_answered w ->
     snd <$> cache_entry u w = Some (ViewJson r) ->
     exists w',
       get_task_output u w = (Return r, w') /\
       store_reads (log w') = store_reads (log w) /\
       db w' = db w /\ redis w' = redis w) /\
  (cache_miss u w ->
   db w !! u = None ->
   exists w' msg,
     get_task_output u w = (Raise (Exn (HTTPException 404) msg), w') /\
     store_reads (log w') = S (store_reads (log w)) /\
     redis w' = redis w /\
     cache_writes (log w') = cache_writes (log w)) /\
  (forall t,
     cache_miss u w ->
     db w !! u = Some t ->
     Task.status t = COMPLETED \/ Task.status t = FAILED ->
     get_task_output u w = populate_then_return u (view_of t) (read_through u w) /\
     forall srv,
       redis w = Some srv ->
       health srv = Healthy ->
       exists w',
         get_task_output u w = (Return (view_of t), w') /\
         cache_entry u w' = Some (3600, ViewJson (view_of t)) /\
         cache_ttl_seconds settings = 3600 /\
         cache_writes (log w') =
           (cache_writes (log w) ++ [(output_key u, 3600)])%list) /\
  (forall t,
     cache_miss u w ->
     db w !! u = Some t ->
     Task.status t = PENDING \/ Task.status t = RUNNING ->
     exists w',
       get_task_output u w = (Return (view_of t), w') /\
       redis w' = redis w /\
       cache_writes (log w') = cache_writes (log w)).
Proof.
  split; [|split; [|split]].
  - intros r Hup Hhit. by apply reader_hit.
  - intros Hmiss Hu. rewrite (reader_miss u w Hmiss).
    destruct (from_db_absent u (looked_up u w) Hu)
      as (w' & msg & Hget & Hr & _ & Hw & Hreads).
    exists w', msg. split; [done|]. split.
    { rewrite Hreads. cbn. destruct (redis w); count_log. }
    split; [done|].
    rewrite Hw. cbn. rewrite cache_writes_app. by destruct (redis w); rewrite app_nil_r.
  - intros t Hmiss Hu Ht. rewrite (reader_miss u w Hmiss).
    assert (Hterm : is_terminal (Task.status t) = true) by (by destruct Ht as [-> | ->]).
    split; [by apply (from_db_terminal_populates u (looked_up u w) t)|].
    intros srv Hr Hh.
    pose proof (from_db_terminal u (looked_up u w) t Hu Hterm) as Hdb. cbn in Hdb.
    rewrite Hr, Hh in Hdb. destruct Hdb as (w' & Hget & Hentry & Hw).
    exists w'. repeat split; try done.
    rewrite Hw, cache_writes_app. cbn. by rewrite app_nil_r.
  - intros t Hmiss Hu Ht. rewrite (reader_miss u w Hmiss).
    assert (Hterm : is_terminal (Task.status t) = false) by (by destruct Ht as [-> | ->]).
    destruct (from_db_not_terminal u (looked_up u w) t Hu Hterm) as (w' & Hget & Hr & _ & Hw).
    exists w'. repeat split; try done.
    rewrite Hw. cbn. rewrite cache_writes_app. by destruct (redis w); rewrite app_nil_r.
Qed.

Ltac concrete_miss :=
  split; [apply reads_answered_test|]; vm_compute; reflexivity.

Lemma cache_aside_witness :
  (exists w',
     get_task_output (scenario_uuid 0) sum_read = (Return (view_of sum_row), w') /\
     store_reads (log w') = store_reads (log sum_read) /\
     db w' = db sum_read /\ redis w' = redis sum_read) /\
  (exists w' msg,
     get_task_output (scenario_uuid 1) sum_done =
       (Raise (Exn (HTTPException 404) msg), w') /\
     store_reads (log w') = S (store_reads (log sum_done)) /\
     redis w' = redis sum_done /\
     cache_writes (log w') = cache_writes (log sum_done)) /\
  (exists w',
     get_task_output (scenario_uuid 0) sum_done = (Return (view_of sum_row), w') /\
     cache_entry (scenario_uuid 0) w' = Some (3600, ViewJson (view_of sum_row)) /\
     cache_ttl_seconds settings = 3600 /\
     cache_writes (log w') =
       (cache_writes (log sum_done) ++ [(output_key (scenario_uuid 0), 3600)])%list) /\
  (exists w',
     get_task_output (scenario_uuid 0) sum_submitted =
       (Return (view_of (first_row (sum_request (VInt 5) (VInt 3)))), w') /\
     redis w' = redis sum_submitted /\
     cache_writes (log w') = cache_writes (log sum_submitted)).
Proof.
  split; [|split; [|split]].
  - destruct (cache_aside (scenario_uuid 0) sum_read) as (H & _).
    apply H; [apply reads_answered_test|]; vm_compute; reflexivity.
  - destruct (cache_aside (scenario_uuid 1) sum_done) as (_ & H & _).
    apply H; [concrete_miss | vm_compute; reflexivity].
  - destruct (cache_aside (scenario_uuid 0) sum_done) as (_ & _ & H & _).
    destruct (H sum_row) as [_ H'];
      [concrete_miss | vm_compute; reflexivity | left; vm_compute; reflexivity |].
    apply (H' {| data := ∅; health := Healthy |}); [vm_compute; reflexivity | reflexivity].
  - destruct (cache_aside (scenario_uuid 0) sum_submitted) as (_ & _ & _ & H).
    apply (H (first_row (sum_request (VInt 5) (VInt 3))));
      [concrete_miss | vm_compute; reflexivity | left; reflexivity].
Defined.




(** ** Submission *)

(** The validator raises nothing but a [ValueError], with a reason. *)
Lemma validator_raises_ValueError task_name parameters e :
  _validate_task_parameters task_name parameters = Raise e ->
  exn_type e = ValueError /\ str e <> "".
Proof.
  destruct task_name; cbn;
    unfold validate_sum, validate_chatgpt, validate_weather, validate_max_tokens,
      validate_temperature, reject_if;
    intros H; repeat case_match; simplify_eq; by vm_compute.
Qed.

(** C7. A submission whose parameters fail validation is answered with a
    400 whose detail is the validator's reason, and the world is left as
    it was: no row is written, no message is queued, no gauge moves. *)
Theorem invalid_submission_rejected (request : RunTaskRequest) (w : world) (e : exn) :
  _validate_task_parameters (req_task_name request) (req_task_parameters request)
    = Raise e ->
  run_task request w = (Raise (Exn (HTTPException 400) (str e)), w) /\
  str e <> "" /\
  db (snd (run_task request w)) = db w /\
  broker (snd (run_task request w)) = broker w /\
  status_history (uuid4 w (uuid4_calls w)) (log (snd (run_task request w))) =
    status_history (uuid4 w (uuid4_calls w)) (log w).
Proof.
  intros Hv. destruct (validator_raises_ValueError _ _ _ Hv) as [Hcls Hmsg].
  assert (Hrun : run_task request w = (Raise (Exn (HTTPException 400) (str e)), w)).
  { unfold run_task, get_celery_task. rewrite Hv. unfold is_ValueError.
    by rewrite Hcls. }
  by rewrite Hrun.
Qed.

Lemma invalid_submission_rejected_witness :
  run_task (weather_request "Paris; DROP TABLE tasks") (fresh_world city_unknown) =
    (Raise (Exn (HTTPException 400) "Parameter 'city' contains invalid characters"),
     fresh_world city_unknown) /\
  "Parameter 'city' contains invalid characters" <> "" /\
  db (snd (run_task (weather_request "Paris; DROP TABLE tasks") (fresh_world city_unknown))) = ∅ /\
  broker (snd (run_task (weather_request "Paris; DROP TABLE tasks") (fresh_world city_unknown))) = [] /\
  status_history (scenario_uuid 0)
    (log (snd (run_task (weather_request "Paris; DROP TABLE tasks") (fresh_world city_unknown)))) = [].
Proof.
  apply (invalid_submission_rejected (weather_request "Paris; DROP TABLE tasks")
           (fresh_world city_unknown)
           (Exn ValueError "Parameter 'city' contains invalid characters")).
  by vm_compute.
Defined.

(** ** The sum task *)

(** The ceiling [1e15] is the integer [10 ^ 15]: [8 * 10 ^ 15 / 2 ^ 3]. *)
Lemma ceiling_repr :
  Prim2SF (max_number_value settings) = S754_finite false 8000000000000000 (-3).
Proof. reflexivity. Qed.

(** An integer exceeds the ceiling [1e15] when it exceeds [10 ^ 15]. *)
Lemma int_gt_ceiling z : int_gt_float z (max_number_value settings) = (10 ^ 15 <? z).
Proof.
  unfold int_gt_float, int_cmp_float. rewrite ceiling_repr. cbn.
  change (2 ^ (- (-3))) with 8. change (10 ^ 15) with 1000000000000000.
  destruct (Z.compare_spec (z * 8) 8000000000000000), (Z.ltb_spec 1000000000000000 z); lia.
Qed.

(** The number of binary digits of a mantissa. *)
Lemma digits2_pos_bounds m :
  2 ^ (Z.pos (digits2_pos m) - 1) <= Z.pos m < 2 ^ Z.pos (digits2_pos m).
Proof.
  induction m as [m IH|m IH|]; cbn [digits2_pos]; [| |cbn; lia].
  all: rewrite Pos2Z.inj_succ;
    replace (Z.succ (Z.pos (digits2_pos m)) - 1) with (Z.succ (Z.pos (digits2_pos m) - 1)) by lia;
    rewrite !Z.pow_succ_r by lia; lia.
Qed.

(** A finite binary64 number: above the exponent of [1e15] its mantissa
    has 53 digits, and it never has more. *)
Lemma valid_mantissa s m e :
  SpecFloat.valid_binary prec emax (S754_finite s m e) = true ->
  Z.pos m < 2 ^ 53 /\ (-1074 < e -> 2 ^ 52 <= Z.pos m).
Proof.
  cbn [SpecFloat.valid_binary]. unfold bounded, canonical_mantissa, fexp, SpecFloat.emin.
  intros H. apply andb_prop in H as [H _]. apply Z.eqb_eq in H.
  change (3 - emax - prec) with (-1074) in H. change prec with 53 in H.
  pose proof (digits2_pos_bounds m) as [Hlo Hhi].
  assert (Z.pos (digits2_pos m) <= 53) as Hd by lia.
  split.
  - eapply Z.lt_le_trans; [exact Hhi|]. apply Z.pow_le_mono_r; lia.
  - intros He. assert (Z.pos (digits2_pos m) = 53) as Hd53 by lia.
    rewrite Hd53 in Hlo. exact Hlo.
Qed.

(** The validator's test [abs(v) > max_number_value] holds exactly of the
    numbers whose magnitude exceeds [10 ^ 15]. *)
Lemma abs_gt_ceiling v :
  abs_gt v (max_number_value settings) = true <-> magnitude_exceeds (10 ^ 15) v.
Proof.
  destruct v as [|b|z|f| | |]; cbn [abs_gt magnitude_exceeds]; try done.
  - rewrite int_gt_ceiling. rewrite Z.ltb_lt. done.
  - rewrite int_gt_ceiling. rewrite Z.ltb_lt. done.
  - rewrite ltb_spec, abs_spec, ceiling_repr.
    pose proof (Prim2SF_valid f) as Hvalid.
    destruct (Prim2SF f) as [s|s| |s m e]; cbn [SFabs SFltb SFcompare]; try done.
    apply valid_mantissa in Hvalid as [Hhi Hlo].
    change (10 ^ 15) with 1000000000000000.
    destruct (Z.compare_spec (-3) e) as [<- | He | He].
    + rewrite Pos.compare_cont_spec. cbn [Pos.switch_Eq Z.leb Z.compare].
      change (2 ^ (- (-3))) with 8.
      change (1000000000000000 * 8) with 8000000000000000.
      clear Hhi Hlo.
      destruct (Pos.compare_spec 8000000000000000 m) as [Hm | Hm | Hm].
      * apply Pos2Z.inj_iff in Hm. split; intros H; [discriminate H | lia].
      * apply Pos2Z.pos_lt_pos in Hm. split; [intros _; exact Hm | reflexivity].
      * apply Pos2Z.pos_lt_pos in Hm. split; intros H; [discriminate H | lia].
    + split; [intros _|done]. specialize (Hlo ltac:(lia)).
      destruct (Z.leb_spec 0 e).
      * assert (0 < 2 ^ e) by (apply Z.pow_pos_nonneg; lia).
        change (2 ^ 52) with 4503599627370496 in Hlo. nia.
      * assert (2 ^ (- e) <= 2 ^ 2) by (apply Z.pow_le_mono_r; lia).
        change (2 ^ 52) with 4503599627370496 in Hlo. change (2 ^ 2) with 4 in *. nia.
    + split; [done|]. destruct (Z.leb_spec 0 e); [lia|]. intros Hex.
      assert (2 ^ 4 <= 2 ^ (- e)) by (apply Z.pow_le_mono_r; lia).
      change (2 ^ 53) with 9007199254740992 in Hhi. change (2 ^ 4) with 16 in *. nia.
Qed.

Lemma magnitude_exceeds_number v : magnitude_exceeds (10 ^ 15) v -> is_number v = true.
Proof. by destruct v. Qed.

(** Whatever else is wrong with it, a sum submission with a parameter
    over the ceiling is rejected; the reason is the ceiling as soon as
    both parameters are numbers. *)
Lemma sum_over_ceiling_rejected parameters :
  exceeds_ceiling parameters ->
  exists msg,
    validate_sum parameters = Raise (Exn ValueError msg) /\
    (both_numbers parameters -> msg = exceeds_msg "a" \/ msg = exceeds_msg "b").
Proof.
  intros (k & v & Hk & Hv & Hex). pose proof (magnitude_exceeds_number _ Hex) as Hnum.
  apply abs_gt_ceiling in Hex as Hgt.
  unfold validate_sum, reject_if, both_numbers.
  destruct (parameters !! "a") as [a|] eqn:Ha;
    [|eexists; split; [done|]; by intros (? & ? & ? & _)].
  destruct (parameters !! "b") as [b|] eqn:Hb;
    [|eexists; split; [done|]; by intros (? & ? & ? & ? & _)].
  destruct (is_number a) eqn:Hna; cbn [negb];
    [|eexists; split; [done|]; intros (? & ? & ? & ? & ? & _); congruence].
  destruct (is_number b) eqn:Hnb; cbn [negb];
    [|eexists; split; [done|]; intros (? & ? & ? & ? & ? & ?); congruence].
  destruct (abs_gt a _) eqn:Hga; [eexists; split; [done|]; by left|].
  destruct (abs_gt b _) eqn:Hgb; [eexists; split; [done|]; by right|].
  destruct Hk as [-> | ->]; simplify_eq; congruence.
Qed.

(** C8. The sum task with [a = 5] and [b = 3] produces a result whose
    ["result"] is [8]. A sum submission with both parameters present and
    numbers, one of which exceeds the ceiling [max_number_value = 1e15]
    in magnitude, as [1e16] does, is rejected by the validator with an
    "exceeds maximum" reason, in a 400, and never reaches [pending]: the
    world is as it was, no row is written and no message queued. (A
    submission over the ceiling that lacks a parameter, or holds one that
    is no number, is rejected as well, with the reason of that check.) *)
Theorem sum_boundary :
  (forall env,
     exists d,
       fst (execute SumTask {[ "a" := VInt 5; "b" := VInt 3 ]} env) = Return (VDict d) /\
       d !! "result" = Some (VInt 8)) /\
  (Task.status <$> row sum_done = Some COMPLETED /\
   result_field (row sum_done) = Some (VInt 8)) /\
  (forall parameters w,
     both_numbers parameters ->
     exceeds_ceiling parameters ->
     let submission := {| req_task_name := SUM; req_task_parameters := parameters |} in
     exists msg,
       run_task submission w = (Raise (Exn (HTTPException 400) msg), w) /\
       contains "exceeds maximum" msg = true /\
       db (snd (run_task submission w)) = db w /\
       broker (snd (run_task submission w)) = broker w /\
       status_history (uuid4 w (uuid4_calls w)) (log (snd (run_task submission w))) =
         status_history (uuid4 w (uuid4_calls w)) (log w)) /\
  (forall parameters w,
     exceeds_ceiling parameters ->
     exists msg,
       run_task {| req_task_name := SUM; req_task_parameters := parameters |} w =
         (Raise (Exn (HTTPException 400) msg), w)) /\
  magnitude_exceeds (10 ^ 15) (VFloat 1e16) /\
  ~ magnitude_exceeds (10 ^ 15) (VFloat 1e15).
Proof.
  assert (Hreject : forall parameters w,
            exceeds_ceiling parameters ->
            exists msg,
              run_task {| req_task_name := SUM; req_task_parameters := parameters |} w =
                (Raise (Exn (HTTPException 400) msg), w) /\
              (both_numbers parameters -> contains "exceeds maximum" msg = true)).
  { intros parameters w Hex.
    destruct (sum_over_ceiling_rejected parameters Hex) as (msg & Hv & Hmsg).
    exists msg. split.
    - unfold run_task, get_celery_task. cbn. by rewrite Hv.
    - intros Hboth. by destruct (Hmsg Hboth) as [-> | ->]. }
  split; [|split; [|split; [|split; [|split]]]].
  - intros env. eexists. split; vm_compute; reflexivity.
  - split; vm_compute; reflexivity.
  - intros parameters w Hboth Hex submission.
    destruct (Hreject parameters w Hex) as (msg & Hrun & Hmsg).
    exists msg. subst submission. rewrite Hrun. cbn [snd]. by rewrite (Hmsg Hboth).
  - intros parameters w Hex. destruct (Hreject parameters w Hex) as (msg & Hrun & _).
    by exists msg.
  - vm_compute. reflexivity.
  - vm_compute. discriminate.
Qed.

Lemma sum_boundary_witness :
  exists msg,
    run_task (sum_request (VFloat 1e16) (VInt 1)) (fresh_world city_unknown) =
      (Raise (Exn (HTTPException 400) msg), fresh_world city_unknown) /\
    contains "exceeds maximum" msg = true.
Proof.
  destruct sum_boundary as (_ & _ & H & _ & Hbig & _).
  destruct (H {[ "a" := VFloat 1e16; "b" := VInt 1 ]} (fresh_world city_unknown))
    as (msg & Hrun & Hmsg & _).
  { exists (VFloat 1e16), (VInt 1). repeat split; vm_compute; reflexivity. }
  { exists "a", (VFloat 1e16). split; [by left|]. split; [vm_compute; reflexivity|].
    exact Hbig. }
  exists msg. split; [exact Hrun | exact Hmsg].
Defined.

(** C9. The validator takes booleans for numbers, and the sum task adds
    them as 0 and 1: the submission [a = true], [b = true] is accepted
    and the task completes with ["result"] equal to [2]. *)
Theorem booleans_pass_as_numbers :
  _validate_task_parameters SUM {[ "a" := VBool true; "b" := VBool true ]} = Return tt /\
  fst (run_task (sum_request (VBool true) (VBool true)) (fresh_world city_unknown)) =
    Return {| resp_task_uuid := scenario_uuid 0;
              resp_message := "Task submitted successfully" |} /\
  (forall a b : bool,
     let w := worker 1 (submitted (sum_request (VBool a) (VBool b)) city_unknown) in
     Task.status <$> row w = Some COMPLETED /\
     result_field (row w) = Some (VInt (Z.b2z a + Z.b2z b))) /\
  result_field (row (worker 1 (submitted (sum_request (VBool true) (VBool true))
                                 city_unknown))) = Some (VInt 2).
Proof.
  split; [vm_compute; reflexivity|]. split; [vm_compute; reflexivity|].
  split; [|vm_compute; reflexivity].
  intros [] []; split; vm_compute; reflexivity.
Qed.

(** ** The chatgpt task *)

Lemma len_positive_nonempty s : 0 < len s -> String.eqb s "" = false.
Proof. by destruct s. Qed.

Lemma chatgpt_bind prompt :
  bind_arguments query_chatgpt {[ "prompt" := VStr prompt ]} =
  Return (chatgpt_arguments prompt).
Proof. vm_compute. reflexivity. Qed.

(** The validator measures the stripped prompt. *)
Lemma chatgpt_validator_strips prompt :
  len (strip prompt) <= 10000 ->
  strip prompt <> "" ->
  validate_chatgpt {[ "prompt" := VStr prompt ]} = Return tt.
Proof.
  intros Hlen Hne. unfold validate_chatgpt, validate_max_tokens, validate_temperature,
    reject_if.
  rewrite lookup_singleton_eq, !lookup_singleton_ne by done.
  replace (String.eqb (strip prompt) "") with false
    by (symmetry; by apply String.eqb_neq).
  replace (max_prompt_length settings <? len (strip prompt)) with false; [done|].
  symmetry. apply Z.ltb_ge. exact Hlen.
Qed.

(** The body measures the prompt as it is. *)
Lemma chatgpt_body_measures_raw prompt env :
  10000 < len prompt ->
  execute ChatGPTTask (chatgpt_arguments prompt) env =
  (Raise (Exn ValueError prompt_too_long), env).
Proof.
  intros Hlen. cbn [execute ChatGPTTask].
  replace (chatgpt_arguments prompt !! "prompt") with (Some (VStr prompt))
    by (vm_compute; reflexivity).
  unfold ChatGPTTask_execute. cbn [truthy is_str negb orb].
  rewrite len_positive_nonempty by lia. cbn [negb orb].
  replace (max_prompt_length settings <? len prompt) with true; [done|].
  symmetry. apply Z.ltb_lt. exact Hlen.
Qed.

(** C10. A prompt whose stripped length is at most 10000 while its raw
    length exceeds 10000 passes validation; [run_task] accepts it,
    writes a [pending] row and queues the message; the execution then
    raises the [ValueError] of the length check, the row ends [failed]
    with that message, and no retry is queued. *)
Theorem stripped_length_validated_raw_length_executed (prompt : string) :
  len (strip prompt) <= 10000 ->
  strip prompt <> "" ->
  10000 < len prompt ->
  let request := chatgpt_request prompt in
  _validate_task_parameters CHATGPT (req_task_parameters request) = Return tt /\
  (forall w,
     let u := uuid4 w (uuid4_calls w) in
     exists w1 t,
       run_task request w =
         (Return {| resp_task_uuid := u;
                    resp_message := "Task submitted successfully" |}, w1) /\
       db w1 !! u = Some t /\ Task.id t = u /\ Task.status t = PENDING /\
       broker w1 =
         (broker w ++ [{| msg_task := CHATGPT; msg_task_uuid := u;
                          msg_kwargs := req_task_parameters request;
                          msg_retries := 0; msg_countdown := 0 |}])%list) /\
  (forall m w rest t,
     msg_task m = CHATGPT ->
     msg_kwargs m = req_task_parameters request ->
     broker w = m :: rest ->
     db w !! msg_task_uuid m = Some t ->
     Task.id t = msg_task_uuid m ->
     exists w' t',
       worker_step w = Some w' /\
       db w' !! msg_task_uuid m = Some t' /\
       Task.status t' = FAILED /\
       Task.error_message t' = Some prompt_too_long /\
       broker w' = rest /\
       retries_scheduled (log w') = retries_scheduled (log w)) /\
  contains "exceeds maximum length" prompt_too_long = true.
Proof.
  intros Hstrip Hne Hraw request.
  pose proof (chatgpt_validator_strips prompt Hstrip Hne) as Hvalid.
  split; [exact Hvalid|]. split; [|split; [|by vm_compute]].
  - intros w u. unfold run_task, get_celery_task. cbn [req_task_name request chatgpt_request
      _validate_task_parameters req_task_parameters]. rewrite Hvalid.
    unfold delay, new_task, bind at 1 2 3 4 5 6 7 8 9, lift.
    cbn [task_map]. rewrite chatgpt_bind.
    unfold_run. unfold publish, bind, modify, emit, set_uuid4_calls, set_broker, set_log,
      ret. cbn.
    eexists _, _. split; [reflexivity|]. cbn. by rewrite lookup_insert_eq.
  - intros m w rest t Hm Hkw Hq Hu Hid.
    apply (validation_failure_not_retried m w t (chatgpt_arguments prompt) rest
             (Exn ValueError prompt_too_long) (ext w)); try done.
    + rewrite Hm, Hkw. apply chatgpt_bind.
    + rewrite Hm. by apply chatgpt_body_measures_raw.
Qed.

Lemma stripped_length_validated_raw_length_executed_witness :
  len (strip padded_prompt) = 10000 /\
  len padded_prompt = 10002 /\
  _validate_task_parameters CHATGPT (req_task_parameters (chatgpt_request padded_prompt))
    = Return tt /\
  exists w' t',
    worker_step (submitted (chatgpt_request padded_prompt) city_unknown) = Some w' /\
    db w' !! scenario_uuid 0 = Some t' /\
    Task.status t' = FAILED /\
    Task.error_message t' = Some prompt_too_long /\
    broker w' = [] /\
    retries_scheduled (log w') =
      retries_scheduled (log (submitted (chatgpt_request padded_prompt) city_unknown)).
Proof.
  split; [vm_compute; reflexivity|]. split; [vm_compute; reflexivity|].
  destruct (stripped_length_validated_raw_length_executed padded_prompt)
    as (Hvalid & _ & Hexec & _); [by vm_compute..|].
  split; [exact Hvalid|].
  apply (Hexec (first_message (chatgpt_request padded_prompt))
           (submitted (chatgpt_request padded_prompt) city_unknown) []
           (first_row (chatgpt_request padded_prompt)));
    vm_compute; reflexivity.
Defined.

(** * Further properties *)

(** ** The gauge *)

(** Moving one of the four labels by [k] moves the total by [k]. *)
Lemma gauge_sum_insert l k (g : gmap string Z) :
  l = "pending" \/ l = "running" \/ l = "completed" \/ l = "failed" ->
  gauge_sum (<[l := default 0 (g !! l) + k]> g) = gauge_sum g + k.
Proof.
  unfold gauge_sum.
  intros [-> | [-> | [-> | ->]]];
    rewrite lookup_insert_eq, !lookup_insert_ne by done; cbn; lia.
Qed.

Ltac gauge_total_same :=
  unfold gauge_total; cbn [tasks_by_status];
  rewrite ?gauge_sum_insert by auto; lia.

(** ** Executions and deliveries, whatever the state of the table *)

(** What [run] leaves alone, with or without a row: it returns or raises
    what the body does, and touches neither the cache, nor the queue,
    nor the clock, nor the total of the gauge. *)
Lemma run_frame self u p w :
  fst (run self u p w) = fst (execute self p (ext w)) /\
  ext (snd (run self u p w)) = snd (execute self p (ext w)) /\
  redis (snd (run self u p w)) = redis w /\
  broker (snd (run self u p w)) = broker w /\
  utcnow (snd (run self u p w)) = utcnow w /\
  uuid4 (snd (run self u p w)) = uuid4 w /\
  uuid4_calls (snd (run self u p w)) = uuid4_calls w /\
  gauge_total (snd (run self u p w)) = gauge_total w.
Proof.
  unfold_run.
  destruct (db w !! u) as [t|] eqn:Hu; cbn;
    destruct (execute self p (ext w)) as [[r|e] env'] eqn:He; cbn; rewrite ?Hu; cbn;
    try match goal with |- context [ (?m !! u) ] => destruct (m !! u) end; cbn;
    (do 7 (split; [reflexivity|])); gauge_total_same.
Qed.

(** [run] when the row is missing: the body is executed all the same, and
    nothing is written. *)
Lemma run_absent self u p w :
  db w !! u = None ->
  run self u p w =
  (fst (execute self p (ext w)),
   {| db := db w; redis := redis w; broker := broker w;
      tasks_by_status := tasks_by_status w;
      log := (log w ++ [SessionGet u; SessionGet u;
                        ObserveDuration (task_name self)])%list;
      ext := snd (execute self p (ext w)); utcnow := utcnow w; uuid4 := uuid4 w;
      uuid4_calls := uuid4_calls w |}).
Proof.
  intros Hu. unfold_run. rewrite Hu. cbn.
  destruct (execute self p (ext w)) as [[r|e] env']; cbn; rewrite Hu; cbn;
    by rewrite <- !app_assoc.
Qed.

Lemma keyed_by_id_insert u t w w' :
  keyed_by_id w -> Task.id t = u -> db w' = <[u := t]> (db w) -> keyed_by_id w'.
Proof.
  intros Hk Hid Hdb u' t'. rewrite Hdb.
  destruct (decide (u = u')) as [<-|Hne].
  - rewrite lookup_insert_eq. congruence.
  - rewrite lookup_insert_ne by done. apply Hk.
Qed.

(** The rows [run] touches: its own, if it is there. *)
Lemma run_db self u p w :
  keyed_by_id w ->
  keyed_by_id (snd (run self u p w)) /\
  (forall u', u' <> u -> db (snd (run self u p w)) !! u' = db w !! u') /\
  (is_Some (db (snd (run self u p w)) !! u) <-> is_Some (db w !! u)).
Proof.
  intros Hk. destruct (db w !! u) as [t|] eqn:Hu.
  - destruct (execute self p (ext w)) as [o env'] eqn:He.
    destruct (run_spec self u p w t o env' Hu (Hk _ _ Hu) He) as [g' ->]. cbn.
    split; [|split].
    + eapply (keyed_by_id_insert u); [exact Hk | | reflexivity].
      rewrite finished_id. by apply Hk.
    + intros u' Hne. by rewrite lookup_insert_ne.
    + rewrite lookup_insert_eq. split; eauto.
  - rewrite (run_absent self u p w Hu). cbn. rewrite Hu. done.
Qed.

(** What the entry point adds to [run]: the retry. *)
Lemma entry_point_run ct m u p w :
  let r := run (task_class ct) u p w in
  let d := entry_point ct m u p w in
  fst d = delivered ct m (fst r) /\
  db (snd d) = db (snd r) /\
  redis (snd d) = redis (snd r) /\
  tasks_by_status (snd d) = tasks_by_status (snd r) /\
  ext (snd d) = ext (snd r) /\
  utcnow (snd d) = utcnow (snd r) /\
  uuid4 (snd d) = uuid4 (snd r) /\
  uuid4_calls (snd d) = uuid4_calls (snd r) /\
  broker (snd d) = (broker (snd r) ++ requeued ct m (fst r))%list /\
  log (snd d) = (log (snd r) ++ List.map Publish (requeued ct m (fst r)))%list.
Proof.
  cbn. unfold entry_point, try_except.
  destruct (run (task_class ct) u p w) as [[r|e] w1]; cbn.
  { by rewrite !app_nil_r. }
  unfold delivered, requeued, will_retry, retry. rewrite Nat.leb_antisym.
  destruct (is_ValueError e), (msg_retries m <? max_retries ct)%nat; cbn;
    by rewrite ?app_nil_r.
Qed.

(** A delivery, by whether the message's arguments fit the signature. *)
Lemma deliver_cases m w :
  match bind_arguments (task_map (msg_task m)) (msg_kwargs m) with
  | Return p => deliver m w = entry_point (task_map (msg_task m)) m (msg_task_uuid m) p w
  | Raise e => deliver m w = (Raise e, w)
  end.
Proof. unfold deliver, bind, lift. by destruct (bind_arguments _ _). Qed.

(** What a delivery leaves alone. *)
Lemma deliver_frame m w :
  redis (snd (deliver m w)) = redis w /\
  utcnow (snd (deliver m w)) = utcnow w /\
  uuid4 (snd (deliver m w)) = uuid4 w /\
  uuid4_calls (snd (deliver m w)) = uuid4_calls w /\
  gauge_total (snd (deliver m w)) = gauge_total w.
Proof.
  pose proof (deliver_cases m w) as Hd.
  destruct (bind_arguments _ _) as [p|e]; rewrite Hd; [|done].
  pose proof (entry_point_run (task_map (msg_task m)) m (msg_task_uuid m) p w) as H.
  cbn in H. destruct H as (_ & _ & Hr & Hg & _ & Hc & Hu & Hn & _).
  pose proof (run_frame (task_class (task_map (msg_task m))) (msg_task_uuid m) p w)
    as (_ & _ & Hr' & _ & Hc' & Hu' & Hn' & Hg').
  unfold gauge_total in *. rewrite Hr, Hg, Hc, Hu, Hn. done.
Qed.

(** The rows a delivery touches. *)
Lemma deliver_db m w :
  keyed_by_id w ->
  keyed_by_id (snd (deliver m w)) /\
  (forall u', u' <> msg_task_uuid m -> db (snd (deliver m w)) !! u' = db w !! u') /\
  (is_Some (db (snd (deliver m w)) !! msg_task_uuid m) <->
   is_Some (db w !! msg_task_uuid m)).
Proof.
  intros Hk. pose proof (deliver_cases m w) as Hd.
  destruct (bind_arguments _ _) as [p|e]; rewrite Hd; [|done].
  pose proof (entry_point_run (task_map (msg_task m)) m (msg_task_uuid m) p w) as H.
  cbn in H. destruct H as (_ & Hdb & _).
  destruct (run_db (task_class (task_map (msg_task m))) (msg_task_uuid m) p w Hk)
    as (Hk' & Hother & Hsame).
  unfold keyed_by_id in *. rewrite Hdb. done.
Qed.

(** X1. A message that names a task by the canonical text of an id under
    which the table, keyed by canonical texts, has no row is executed all
    the same: the body runs against the external services, a duration is
    observed and a transient failure is retried, but no row appears, no
    status is written and the gauge does not move. *)
Theorem delivery_without_row (m : Message) (w : world) (p : gmap string pyval) :
  let ct := task_map (msg_task m) in
  let body := execute (task_class ct) p (ext w) in
  canonical_uuid (msg_task_uuid m) = true ->
  canonical_ids w ->
  bind_arguments ct (msg_kwargs m) = Return p ->
  db w !! msg_task_uuid m = None ->
  fst (deliver m w) = delivered ct m (fst body) /\
  ext (snd (deliver m w)) = snd body /\
  db (snd (deliver m w)) = db w /\
  tasks_by_status (snd (deliver m w)) = tasks_by_status w /\
  broker (snd (deliver m w)) = (broker w ++ requeued ct m (fst body))%list /\
  observations (log (snd (deliver m w))) = S (observations (log w)) /\
  status_history (msg_task_uuid m) (log (snd (deliver m w))) =
    status_history (msg_task_uuid m) (log w).
Proof.
  intros ct body _ _ Hbind Hu.
  pose proof (deliver_cases m w) as Hd. fold ct in Hd. rewrite Hbind in Hd. rewrite Hd.
  pose proof (entry_point_run ct m (msg_task_uuid m) p w) as H. cbn zeta in H.
  rewrite (run_absent (task_class ct) (msg_task_uuid m) p w Hu) in H.
  cbn [fst snd db tasks_by_status broker log ext] in H.
  destruct H as (Ho & Hdb & _ & Hg & He & _ & _ & _ & Hq & Hl).
  rewrite Ho, Hdb, Hg, He, Hq, Hl.
  repeat (split; [reflexivity|]).
  unfold requeued. destruct (will_retry _ _ _); cbn [List.map]; split.
  - count_log.
  - rewrite !status_history_app. cbn. by rewrite !app_nil_r.
  - count_log.
  - rewrite !status_history_app. cbn. by rewrite !app_nil_r.
Qed.

(** [canonical_ids], as a test. *)
Lemma canonical_ids_test w :
  bool_decide (map_Forall (fun u (_ : Task.t) => canonical_uuid u = true) (db w)) = true ->
  canonical_ids w.
Proof. intros H. apply bool_decide_eq_true in H. exact H. Qed.

Lemma delivery_without_row_witness :
  let m := {| msg_task := SUM; msg_task_uuid := scenario_uuid 7;
              msg_kwargs := {[ "a" := VInt 5; "b" := VInt 3 ]};
              msg_retries := 0; msg_countdown := 0 |} in
  let w := sum_done in
  canonical_uuid (scenario_uuid 7) = true /\
  db (snd (deliver m w)) = db w /\
  observations (log (snd (deliver m w))) = S (observations (log w)).
Proof.
  intros m w.
  destruct (delivery_without_row m w {[ "a" := VInt 5; "b" := VInt 3 ]})
    as (_ & _ & Hdb & _ & _ & Hobs & _);
    [vm_compute; reflexivity | apply canonical_ids_test; vm_compute; reflexivity
    | vm_compute; reflexivity.. |].
  split; [vm_compute; reflexivity|]. split; [exact Hdb | exact Hobs].
Defined.

Lemma keyed_by_id_set_broker f w : keyed_by_id w -> keyed_by_id (set_broker f w).
Proof. done. Qed.

(** X2. A worker step touches one row at most, the one its message
    names by the canonical text of its id, in a table keyed by canonical
    texts, and creates none; it leaves the cache and the clock alone,
    keeps the total of the gauge, keeps every row under its own id, a
    canonical text still, and never makes the queue longer. *)
Theorem worker_touches_one_row (w : world) :
  keyed_by_id w ->
  canonical_ids w ->
  (forall m, head (broker w) = Some m -> canonical_uuid (msg_task_uuid m) = true) ->
  let w' := handle Work w in
  keyed_by_id w' /\
  canonical_ids w' /\
  redis w' = redis w /\
  utcnow w' = utcnow w /\
  gauge_total w' = gauge_total w /\
  (length (broker w') <= length (broker w))%nat /\
  (forall u, head (msg_task_uuid <$> broker w) <> Some u -> db w' !! u = db w !! u) /\
  (forall u, is_Some (db w' !! u) <-> is_Some (db w !! u)).
Proof.
  intros Hk Hids _ w'.
  enough (H : keyed_by_id w' /\
              redis w' = redis w /\
              utcnow w' = utcnow w /\
              gauge_total w' = gauge_total w /\
              (length (broker w') <= length (broker w))%nat /\
              (forall u, head (msg_task_uuid <$> broker w) <> Some u ->
                         db w' !! u = db w !! u) /\
              (forall u, is_Some (db w' !! u) <-> is_Some (db w !! u))).
  { destruct H as (H1 & H2 & H3 & H4 & H5 & H6 & H7).
    split; [done|]. split; [|done].
    intros u t Hu. destruct (H7 u) as [[t0 Ht0] _]; [by eexists|]. by apply (Hids u t0). }
  subst w'. unfold handle, worker_step.
  destruct (broker w) as [|m rest] eqn:Hq;
    cbn [default from_option id head fmap list_fmap length];
    [rewrite ?Hq; by repeat split; auto|].
  set (w0 := set_broker (fun _ => rest) w).
  destruct (deliver_frame m w0) as (Hr & Hc & _ & _ & Hg).
  destruct (deliver_db m w0 (keyed_by_id_set_broker _ w Hk)) as (Hk' & Hother & Hsame).
  repeat (split; [done|]). split; [|split].
  - pose proof (deliver_cases m w0) as Hd.
    destruct (bind_arguments _ _) as [p|e]; rewrite Hd; [|cbn; lia].
    pose proof (entry_point_run (task_map (msg_task m)) m (msg_task_uuid m) p w0) as H.
    cbn zeta in H. destruct H as (_ & _ & _ & _ & _ & _ & _ & _ & -> & _).
    destruct (run_frame (task_class (task_map (msg_task m))) (msg_task_uuid m) p w0)
      as (_ & _ & _ & -> & _).
    rewrite length_app. unfold requeued. destruct (will_retry _ _ _); cbn; lia.
  - intros u Hu. apply Hother. congruence.
  - intros u. destruct (decide (u = msg_task_uuid m)) as [->|Hne]; [done|].
    by rewrite Hother.
Qed.

(** [keyed_by_id], as a test. *)
Lemma keyed_by_id_test w :
  bool_decide (map_Forall (fun u t => Task.id t = u) (db w)) = true -> keyed_by_id w.
Proof. intros H. apply bool_decide_eq_true in H. exact H. Qed.

Lemma worker_touches_one_row_witness :
  head (msg_task_uuid <$> broker two_submitted) = Some (scenario_uuid 0) /\
  Task.status <$> db (handle Work two_submitted) !! scenario_uuid 0 = Some FAILED /\
  db (handle Work two_submitted) !! scenario_uuid 1 = db two_submitted !! scenario_uuid 1 /\
  gauge_total (handle Work two_submitted) = gauge_total two_submitted /\
  (length (broker (handle Work two_submitted)) <= length (broker two_submitted))%nat.
Proof.
  split; [vm_compute; reflexivity|]. split; [vm_compute; reflexivity|].
  destruct (worker_touches_one_row two_submitted)
    as (_ & _ & _ & _ & Hg & Hlen & Hother & _).
  - apply keyed_by_id_test. vm_compute. reflexivity.
  - apply canonical_ids_test. vm_compute. reflexivity.
  - intros m Hm. vm_compute in Hm. injection Hm as <-. vm_compute. reflexivity.
  - split; [|split; [exact Hg | exact Hlen]].
    apply Hother. vm_compute. discriminate.
Defined.

(** X3. Every execution that finds its row moves the gauge the same way,
    whatever the status the row had: [pending] loses one, [running] ends
    where it was, and [completed] or [failed] gains one. A retry, whose
    row is [failed] and not [pending], takes one more from [pending]. *)
Theorem execution_moves_gauge (self : BaseTask) (u : UUID) (p : gmap string pyval)
    (w : world) (t : Task.t) :
  db w !! u = Some t ->
  let o := fst (execute self p (ext w)) in
  let w' := snd (run self u p w) in
  gauge w' "pending" = gauge w "pending" - 1 /\
  gauge w' "running" = gauge w "running" /\
  gauge w' "completed" = gauge w "completed" + (if is_null (returned o) then 0 else 1) /\
  gauge w' "failed" = gauge w "failed" + (if is_null (returned o) then 1 else 0).
Proof.
  intros Hu o w'. subst o w'. unfold_run. rewrite Hu. cbn.
  assert (is_Some (<[Task.id (mark_running (utcnow w) t) := mark_running (utcnow w) t]>
                     (db w) !! u)) as [t1 Ht1].
  { destruct (decide (Task.id (mark_running (utcnow w) t) = u)) as [->|Hne].
    - rewrite lookup_insert_eq. eauto.
    - rewrite lookup_insert_ne by done. eauto. }
  cbn in Ht1.
  destruct (execute self p (ext w)) as [[r|e] env']; cbn; rewrite Ht1; cbn;
    unfold gauge; cbn;
    repeat (rewrite lookup_insert_eq || (rewrite lookup_insert_ne by done));
    cbn; repeat split; lia.
Qed.

Lemma execution_moves_gauge_witness :
  Task.status <$> row flaky_failed_once = Some FAILED /\
  gauge (snd (run WeatherTask (scenario_uuid 0) {[ "city" := VStr "London" ]}
                flaky_failed_once)) "pending" =
  gauge flaky_failed_once "pending" - 1.
Proof.
  split; [vm_compute; reflexivity|].
  destruct (execution_moves_gauge WeatherTask (scenario_uuid 0)
              {[ "city" := VStr "London" ]} flaky_failed_once
              (default (first_row (weather_request "London")) (row flaky_failed_once)))
    as (H & _); [vm_compute; reflexivity | exact H].
Defined.

(** X4. A delivery whose row exists leaves the row terminal: [completed]
    exactly when the body returned, [failed] otherwise, also when a retry
    was queued. Both [completed_at] and [updated_at] are the time of the
    delivery; the id, the name, the parameters and the creation time of
    the row are kept. *)
Theorem delivery_finishes_row (m : Message) (rest : list Message) (w : world)
    (t : Task.t) (p : gmap string pyval) :
  let ct := task_map (msg_task m) in
  let u := msg_task_uuid m in
  broker w = m :: rest ->
  bind_arguments ct (msg_kwargs m) = Return p ->
  db w !! u = Some t ->
  Task.id t = u ->
  exists w' t',
    worker_step w = Some w' /\
    db w' !! u = Some t' /\
    is_terminal (Task.status t') = true /\
    (Task.status t' = COMPLETED <->
     exists r, fst (execute (task_class ct) p (ext w)) = Return r) /\
    Task.completed_at t' = Some (utcnow w) /\
    Task.updated_at t' = Some (utcnow w) /\
    Task.id t' = u /\
    Task.task_name t' = Task.task_name t /\
    Task.task_parameters t' = Task.task_parameters t /\
    Task.created_at t' = Task.created_at t.
Proof.
  intros ct u Hq Hbind Hu Hid.
  destruct (execute (task_class ct) p (ext w)) as [o env'] eqn:He.
  destruct (worker_step_spec m rest w t p o env' Hq Hbind Hu Hid He) as [g' Hstep].
  eexists _, _. split; [exact Hstep|]. cbn [db]. rewrite lookup_insert_eq.
  split; [reflexivity|].
  destruct o as [r|e]; cbn; repeat split; try done; eauto.
  by intros [r ?].
Qed.

Lemma delivery_finishes_row_witness :
  exists w' t',
    worker_step sum_submitted = Some w' /\
    db w' !! scenario_uuid 0 = Some t' /\
    is_terminal (Task.status t') = true.
Proof.
  destruct (delivery_finishes_row (first_message (sum_request (VInt 5) (VInt 3))) []
              sum_submitted (first_row (sum_request (VInt 5) (VInt 3)))
              {[ "a" := VInt 5; "b" := VInt 3 ]})
    as (w' & t' & H1 & H2 & H3 & _); [vm_compute; reflexivity..|].
  exists w', t'. split; [exact H1|]. split; [exact H2 | exact H3].
Defined.

(** A message alone in the queue, [k] retries away from the limit: the
    task is executed at least once and [k + 1] times at most, after
    which the queue is empty and the row terminal. *)
Lemma worker_drains k : forall m w t p fuel,
  let ct := task_map (msg_task m) in
  let u := msg_task_uuid m in
  (max_retries ct - msg_retries m = k)%nat ->
  broker w = [m] ->
  bind_arguments ct (msg_kwargs m) = Return p ->
  db w !! u = Some t ->
  Task.id t = u ->
  (S k <= fuel)%nat ->
  let w' := worker fuel w in
  broker w' = [] /\
  (S (observations (log w)) <= observations (log w') <= observations (log w) + S k)%nat /\
  exists t', db w' !! u = Some t' /\ is_terminal (Task.status t') = true.
Proof.
  induction k as [|k IH]; intros m w t p fuel ct u Hk Hq Hbind Hu Hid Hfuel;
    (destruct fuel as [|fuel]; [lia|]);
    destruct (execute (task_class ct) p (ext w)) as [o env'] eqn:He;
    destruct (worker_step_spec m [] w t p o env' Hq Hbind Hu Hid He) as [g' Hstep];
    cbn [worker]; rewrite Hstep; unfold requeued; fold ct;
    destruct (will_retry ct m o) eqn:Hretry.
  - unfold will_retry in Hretry. destruct o as [r|e]; [done|].
    apply andb_prop in Hretry as [_ Hlt]. apply Nat.ltb_lt in Hlt. lia.
  - rewrite worker_empty by done. cbn. rewrite ?app_nil_r, lookup_insert_eq.
    split; [done|]. split; [count_log|].
    eexists. split; [done|]. by destruct o.
  - unfold will_retry in Hretry. destruct o as [r|e]; [done|].
    apply andb_prop in Hretry as [_ Hlt]. apply Nat.ltb_lt in Hlt.
    cbn [app List.map].
    match goal with |- context [worker fuel ?w1] => set (w1' := w1) end.
    specialize (IH (retried ct m) w1' (finished (utcnow w) (Raise e) t) p fuel).
    cbn [retried msg_task msg_task_uuid msg_kwargs msg_retries] in IH.
    fold ct in IH. fold u in IH.
    destruct IH as (Hq' & Hobs & t' & Hdb & Hst);
      [lia | done | done | by subst w1'; cbn [db]; rewrite lookup_insert_eq
      | done | lia |].
    split; [done|]. split; [|by exists t'].
    assert (observations (log w1') = S (observations (log w))) as Hw1
      by (subst w1'; cbn; count_log).
    lia.
  - rewrite worker_empty by done. cbn. rewrite ?app_nil_r, lookup_insert_eq.
    split; [done|]. split; [count_log|].
    eexists. split; [done|]. by destruct o.
Qed.

(** X5. A task is executed at most four times. Once its message, alone
    in the queue, was handled and its retries after it, four worker
    steps at most, the queue is empty, the row is [completed] or
    [failed], and between one and four durations were observed. *)
Theorem task_is_executed_at_most_four_times (m : Message) (w : world) (t : Task.t)
    (p : gmap string pyval) :
  msg_retries m = 0%nat ->
  broker w = [m] ->
  bind_arguments (task_map (msg_task m)) (msg_kwargs m) = Return p ->
  db w !! msg_task_uuid m = Some t ->
  Task.id t = msg_task_uuid m ->
  let w' := worker 4 w in
  broker w' = [] /\
  (observations (log w) + 1 <= observations (log w') <= observations (log w) + 4)%nat /\
  exists t', db w' !! msg_task_uuid m = Some t' /\ is_terminal (Task.status t') = true.
Proof.
  intros Hretries Hq Hbind Hu Hid.
  destruct (worker_drains 3 m w t p 4) as (Hq' & Hobs & Ht'); try done.
  { rewrite Hretries. by destruct (msg_task m). }
  cbn zeta. split; [done|]. split; [lia|done].
Qed.

Lemma task_is_executed_at_most_four_times_witness :
  broker (worker 4 flaky_submitted) = [] /\
  (observations (log flaky_submitted) + 1 <= observations (log (worker 4 flaky_submitted))
   <= observations (log flaky_submitted) + 4)%nat.
Proof.
  destruct (task_is_executed_at_most_four_times (first_message (weather_request "London"))
              flaky_submitted (first_row (weather_request "London"))
              {[ "city" := VStr "London"; "units" := VStr "metric" ]})
    as (H1 & H2 & _); [vm_compute; reflexivity..|].
  split; [exact H1 | exact H2].
Defined.

(** ** Submissions that pass validation *)

(** [run_task] once the parameters passed validation: the row is written
    and the gauge moved before the message is handed to Celery, which
    checks the arguments against the signature of the task. *)
Lemma run_task_validated request w :
  _validate_task_parameters (req_task_name request) (req_task_parameters request)
    = Return tt ->
  let u := uuid4 w (uuid4_calls w) in
  let t := pending_row request w in
  let m := first_delivery request w in
  let g := <["pending" := default 0 (tasks_by_status w !! "pending") + 1]>
             (tasks_by_status w) in
  run_task request w =
  match bind_arguments (task_map (req_task_name request)) (req_task_parameters request) with
  | Return _ =>
      (Return {| resp_task_uuid := u; resp_message := "Task submitted successfully" |},
       {| db := <[u := t]> (db w); redis := redis w;
          broker := (broker w ++ [m])%list; tasks_by_status := g;
          log := (log w ++ [SessionCommit u PENDING; Publish m])%list;
          ext := ext w; utcnow := utcnow w; uuid4 := uuid4 w;
          uuid4_calls := S (uuid4_calls w) |})
  | Raise e =>
      (Raise e,
       {| db := <[u := t]> (db w); redis := redis w;
          broker := broker w; tasks_by_status := g;
          log := (log w ++ [SessionCommit u PENDING])%list;
          ext := ext w; utcnow := utcnow w; uuid4 := uuid4 w;
          uuid4_calls := S (uuid4_calls w) |})
  end.
Proof.
  intros Hv. cbn zeta. unfold run_task, get_celery_task. rewrite Hv.
  unfold new_task, session_commit, gauge_inc, gauge_add, delay, publish, bind, lift,
    emit, modify, gets, ret, set_log, set_db, set_gauge, set_broker, set_uuid4_calls,
    pending_row, first_delivery.
  cbn. destruct (bind_arguments _ _); cbn; by rewrite <- ?app_assoc.
Qed.

(** X6. An accepted submission. When the parameters pass validation and
    fit the signature of the task, [run_task] answers with a fresh id,
    has written a [pending] row under it that holds the parameters as
    they were sent, has queued one message for it that was never
    retried, and has moved the [pending] gauge by one; no other row, nor
    the cache, nor an external service is touched. *)
Theorem accepted_submission (request : RunTaskRequest) (w : world)
    (p : gmap string pyval) :
  _validate_task_parameters (req_task_name request) (req_task_parameters request)
    = Return tt ->
  bind_arguments (task_map (req_task_name request)) (req_task_parameters request)
    = Return p ->
  let u := uuid4 w (uuid4_calls w) in
  let w' := snd (run_task request w) in
  fst (run_task request w) =
    Return {| resp_task_uuid := u; resp_message := "Task submitted successfully" |} /\
  db w' !! u = Some (pending_row request w) /\
  (forall u', u' <> u -> db w' !! u' = db w !! u') /\
  broker w' = (broker w ++ [first_delivery request w])%list /\
  gauge w' "pending" = gauge w "pending" + 1 /\
  gauge_total w' = gauge_total w + 1 /\
  status_history u (log w') = (status_history u (log w) ++ [PENDING])%list /\
  redis w' = redis w /\ ext w' = ext w.
Proof.
  intros Hv Hbind u w'. subst w'.
  rewrite (run_task_validated request w Hv). cbn zeta. rewrite Hbind.
  cbn [fst snd db broker log redis ext tasks_by_status]. fold u.
  split; [done|]. split; [by rewrite lookup_insert_eq|].
  split; [by intros u' Hne; rewrite lookup_insert_ne|]. split; [done|].
  split; [unfold gauge; cbn [tasks_by_status]; by rewrite lookup_insert_eq|].
  split; [gauge_total_same|].
  split; [|done]. rewrite status_history_app. cbn. by rewrite String.eqb_refl.
Qed.

Lemma accepted_submission_witness :
  fst (run_task (weather_request "London") (fresh_world timeout_then_fine)) =
    Return {| resp_task_uuid := scenario_uuid 0;
              resp_message := "Task submitted successfully" |} /\
  broker (snd (run_task (weather_request "London") (fresh_world timeout_then_fine))) =
    [first_message (weather_request "London")].
Proof.
  destruct (accepted_submission (weather_request "London") (fresh_world timeout_then_fine)
              {[ "city" := VStr "London"; "units" := VStr "metric" ]})
    as (H1 & _ & _ & H2 & _); [vm_compute; reflexivity..|].
  split; [exact H1 | exact H2].
Defined.

Lemma bind_arguments_TypeError ct kwargs e :
  bind_arguments ct kwargs = Raise e -> exn_type e = TypeError.
Proof.
  unfold bind_arguments. intros H. repeat case_match; by simplify_eq.
Qed.

(** X7. A submission that passes validation but does not fit the
    signature of the task, for a parameter the task does not take: the
    call of [delay] raises a [TypeError], after the row was committed.
    [run_task] fails with that error, not with a 400, and leaves a
    [pending] row for which no message was queued, counted by the
    [pending] gauge. *)
Theorem unbindable_submission_leaves_pending_row (request : RunTaskRequest) (w : world)
    (e : exn) :
  _validate_task_parameters (req_task_name request) (req_task_parameters request)
    = Return tt ->
  bind_arguments (task_map (req_task_name request)) (req_task_parameters request)
    = Raise e ->
  let u := uuid4 w (uuid4_calls w) in
  let w' := snd (run_task request w) in
  fst (run_task request w) = Raise e /\
  exn_type e = TypeError /\
  db w' !! u = Some (pending_row request w) /\
  broker w' = broker w /\
  gauge w' "pending" = gauge w "pending" + 1.
Proof.
  intros Hv Hbind u w'. subst w'.
  rewrite (run_task_validated request w Hv). cbn zeta. rewrite Hbind.
  cbn [fst snd db broker log redis ext tasks_by_status]. fold u.
  split; [done|]. split; [by apply bind_arguments_TypeError in Hbind|].
  split; [by rewrite lookup_insert_eq|]. split; [done|].
  unfold gauge; cbn [tasks_by_status]; by rewrite lookup_insert_eq.
Qed.

Lemma unbindable_submission_leaves_pending_row_witness :
  let request := {| req_task_name := WEATHER;
                    req_task_parameters := {[ "city" := VStr "London";
                                              "country" := VStr "GB" ]} |} in
  let w' := snd (run_task request (fresh_world city_unknown)) in
  fst (run_task request (fresh_world city_unknown)) =
    Raise (Exn TypeError "got an unexpected keyword argument 'country'") /\
  Task.status <$> db w' !! scenario_uuid 0 = Some PENDING /\
  broker w' = [].
Proof.
  intros request w'.
  destruct (unbindable_submission_leaves_pending_row request (fresh_world city_unknown)
              (Exn TypeError "got an unexpected keyword argument 'country'"))
    as (H1 & _ & H2 & H3 & _); [vm_compute; reflexivity..|].
  split; [exact H1|]. split; [|exact H3].
  exact (f_equal (fmap Task.status) H2).
Defined.

(** ** The cache service *)

Ltac unfold_cache :=
  unfold CacheService.get_task_output, CacheService.set_task_output,
    CacheService.invalidate_task_output, CacheService.get, CacheService.set,
    CacheService.delete, CacheService.exists_, CacheService.disconnect,
    redis_GET, redis_SETEX, redis_DEL, redis_EXISTS, bind, emit, modify, gets, ret,
    raise, set_log, set_redis; cbn.

(** Two tasks never share a key of the cache. *)
Lemma output_key_inj u u' : output_key u = output_key u' -> u = u'.
Proof.
  unfold output_key, CacheService._make_key, CacheService._prefix. cbn.
  intros H. by simplify_eq.
Qed.

Lemma cache_entry_insert u u' x srv w :
  redis w = Some {| data := <[output_key u := x]> (data srv); health := health srv |} ->
  cache_entry u' w = if decide (u' = u) then Some x else data srv !! output_key u'.
Proof.
  intros Hr. unfold cache_entry. rewrite Hr. cbn. destruct (decide (u' = u)) as [->|Hne].
  - by rewrite lookup_insert_eq.
  - rewrite lookup_insert_ne; [done|]. intros H. by apply output_key_inj in H.
Qed.

(** [SETEX] on a server that accepts writes: the time to live decides. *)
Lemma redis_SETEX_healthy srv k t v w :
  health srv = Healthy ->
  redis_SETEX srv k t v w =
  if (0 <? t) && (t <=? max_expire_seconds)
  then (Return tt,
        set_redis (fun _ => Some {| data := <[k := (t, v)]> (data srv);
                                    health := health srv |})
          (set_log (fun l => (l ++ [RedisSetex k t])%list) w))
  else (Raise (Exn RedisError
                 (if (t <? - 2 ^ 63) || (2 ^ 63 - 1 <? t)
                  then "value is not an integer or out of range"
                  else "invalid expire time in 'setex' command")),
        set_log (fun l => (l ++ [RedisSetex k t])%list) w).
Proof.
  intros Hh. unfold redis_SETEX, bind, emit, modify, raise. cbv beta iota. rewrite Hh.
  unfold max_expire_seconds.
  destruct (t <? - 2 ^ 63) eqn:E1, (2 ^ 63 - 1 <? t) eqn:E2, (t <=? 0) eqn:E3,
    ((2 ^ 63 - 1) / 1000 <? t) eqn:E4, (0 <? t) eqn:E5,
    (t <=? (2 ^ 63 - 1) / 1000) eqn:E6;
    cbn [orb andb]; try reflexivity; exfalso;
    rewrite ?Z.ltb_lt, ?Z.ltb_ge, ?Z.leb_le, ?Z.leb_gt in *;
    change ((2 ^ 63 - 1) / 1000) with 9223372036854775 in *;
    change (2 ^ 63) with 9223372036854775808 in *; lia.
Qed.

Lemma default_ttl_accepted : 0 < stored_ttl None <= max_expire_seconds.
Proof. vm_compute. split; [reflexivity | discriminate]. Qed.

(** [set_task_output] on a server that accepts writes, with a time to
    live it takes. *)
Lemma cache_set_healthy u r ttl w srv :
  redis w = Some srv ->
  health srv = Healthy ->
  0 < stored_ttl ttl <= max_expire_seconds ->
  CacheService.set_task_output u r ttl w =
  (Return true,
   set_redis (fun _ => Some {| data := <[output_key u := (stored_ttl ttl, ViewJson r)]>
                                         (data srv);
                               health := health srv |})
     (set_log (fun l => (l ++ [RedisSetex (output_key u) (stored_ttl ttl)])%list) w)).
Proof.
  intros Hr Hh [Hpos Hmax].
  unfold CacheService.set_task_output, CacheService.set, bind at 1, gets. rewrite Hr.
  cbv beta iota zeta. fold (stored_ttl ttl).
  fold (CacheService._make_key ("task_output:" ++ u)). fold (output_key u).
  unfold bind. rewrite (redis_SETEX_healthy srv _ _ _ w Hh).
  apply Z.ltb_lt in Hpos. apply Z.leb_le in Hmax. by rewrite Hpos, Hmax.
Qed.

(** [set_task_output] with a time to live the server refuses: the error
    of the client comes through, and nothing is stored. *)
Lemma cache_set_refused u r ttl w srv :
  redis w = Some srv ->
  health srv = Healthy ->
  stored_ttl ttl <= 0 ->
  exists e,
    CacheService.set_task_output u r ttl w =
      (Raise e, set_log (fun l => (l ++ [RedisSetex (output_key u) (stored_ttl ttl)])%list) w) /\
    exn_type e = RedisError.
Proof.
  intros Hr Hh Hneg.
  unfold CacheService.set_task_output, CacheService.set, bind at 1, gets. rewrite Hr.
  cbv beta iota zeta. fold (stored_ttl ttl).
  fold (CacheService._make_key ("task_output:" ++ u)). fold (output_key u).
  unfold bind. rewrite (redis_SETEX_healthy srv _ _ _ w Hh).
  apply Z.ltb_ge in Hneg. rewrite Hneg. cbn [andb]. by eexists.
Qed.

(** X8. What [set_task_output] stores on a server that accepts writes,
    with no time to live or one from 0 to [10 ^ 15] seconds,
    [get_task_output] of the cache reads back, and the output route
    returns without reading the database; the entry is kept for the time
    to live given, and for 3600 seconds when none, or 0, is given. The
    entries of other tasks stay as they were. With a negative time to
    live the server refuses the write: [set_task_output] raises the error
    of the client and nothing is stored. *)
Theorem cache_round_trip (u : UUID) (r : TaskOutputResponse) (ttl : option Z)
    (w : world) (srv : Redis) :
  redis w = Some srv ->
  health srv = Healthy ->
  ((forall t, ttl = Some t -> 0 <= t <= 10 ^ 15) ->
   let w1 := snd (CacheService.set_task_output u r ttl w) in
   fst (CacheService.set_task_output u r ttl w) = Return true /\
   fst (CacheService.get_task_output u w1) = Return (Some (CachedView r)) /\
   fst (CacheService.exists_ ("task_output:" ++ u) w1) = Return true /\
   fst (get_task_output u w1) = Return r /\
   store_reads (log (snd (get_task_output u w1))) = store_reads (log w) /\
   (forall t, ttl = Some t -> t <> 0 -> cache_entry u w1 = Some (t, ViewJson r)) /\
   (ttl = None \/ ttl = Some 0 -> cache_entry u w1 = Some (3600, ViewJson r)) /\
   (forall u', u' <> u -> cache_entry u' w1 = cache_entry u' w)) /\
  (forall t,
     ttl = Some t -> t < 0 ->
     exists e w',
       CacheService.set_task_output u r ttl w = (Raise e, w') /\
       exn_type e = RedisError /\
       redis w' = redis w /\ db w' = db w).
Proof.
  intros Hr Hh. split.
  2: { intros t -> Ht.
       destruct (cache_set_refused u r (Some t) w srv Hr Hh) as (e & -> & He).
       { cbn. destruct (Z.eqb_spec t 0); lia. }
       by eexists _, _. }
  intros Hrange w1. subst w1.
  assert (Httl : 0 < stored_ttl ttl <= max_expire_seconds).
  { destruct ttl as [t|]; [|apply default_ttl_accepted]. specialize (Hrange t eq_refl).
    cbn [stored_ttl]. destruct (Z.eqb_spec t 0); [apply default_ttl_accepted|].
    unfold max_expire_seconds.
    change ((2 ^ 63 - 1) / 1000) with 9223372036854775.
    change (10 ^ 15) with 1000000000000000 in Hrange. lia. }
  rewrite (cache_set_healthy u r ttl w srv Hr Hh Httl).
  cbn [fst snd].
  match goal with |- context [CacheService.get_task_output u ?w0] => set (w1 := w0) end.
  assert (Hr1 : redis w1 = Some {| data := <[output_key u := (stored_ttl ttl, ViewJson r)]>
                                            (data srv);
                                   health := health srv |}) by done.
  assert (Hup : reads_answered w1).
  { intros srv1 Hsrv1. rewrite Hr1 in Hsrv1. simplify_eq. cbn. by rewrite Hh. }
  assert (Hentry : forall u', cache_entry u' w1 =
            if decide (u' = u) then Some (stored_ttl ttl, ViewJson r)
            else data srv !! output_key u')
    by (intros u'; by apply cache_entry_insert).
  assert (Hu : cache_entry u w1 = Some (stored_ttl ttl, ViewJson r))
    by (rewrite Hentry; by destruct (decide (u = u))).
  destruct (reader_hit u w1 r Hup) as (w2 & Hget & Hreads & _); [by rewrite Hu|].
  split; [done|]. split; [by rewrite (cache_get_spec u w1 Hup), Hu|].
  split.
  { unfold_cache. rewrite Hh. cbn.
    fold (CacheService._make_key ("task_output:" ++ u)). fold (output_key u).
    by rewrite lookup_insert_eq. }
  split; [by rewrite Hget|]. split; [rewrite Hget; cbn [snd]; rewrite Hreads; subst w1; cbn; count_log|].
  split; [|split].
  - intros t -> Ht. rewrite Hu. cbn. by apply Z.eqb_neq in Ht as ->.
  - intros [-> | ->]; by rewrite Hu.
  - intros u' Hne. rewrite Hentry. destruct (decide (u' = u)); [done|].
    unfold cache_entry. by rewrite Hr.
Qed.

Lemma cache_round_trip_witness :
  let stored := snd (CacheService.set_task_output (scenario_uuid 3) (view_of sum_row)
                       (Some 60) (fresh_world city_unknown)) in
  fst (get_task_output (scenario_uuid 3) stored) = Return (view_of sum_row) /\
  cache_entry (scenario_uuid 3) stored = Some (60, ViewJson (view_of sum_row)) /\
  exists e w',
    CacheService.set_task_output (scenario_uuid 3) (view_of sum_row) (Some (-5))
      (fresh_world city_unknown) = (Raise e, w') /\
    exn_type e = RedisError /\ redis w' = redis (fresh_world city_unknown).
Proof.
  intros stored. split; [|split].
  - destruct (cache_round_trip (scenario_uuid 3) (view_of sum_row) (Some 60)
                (fresh_world city_unknown) {| data := ∅; health := Healthy |})
      as (H & _); [reflexivity..|].
    destruct H as (_ & _ & _ & H & _); [intros t [= <-]; by vm_compute | exact H].
  - destruct (cache_round_trip (scenario_uuid 3) (view_of sum_row) (Some 60)
                (fresh_world city_unknown) {| data := ∅; health := Healthy |})
      as (H & _); [reflexivity..|].
    destruct H as (_ & _ & _ & _ & _ & H & _); [intros t [= <-]; by vm_compute|].
    by apply (H 60).
  - destruct (cache_round_trip (scenario_uuid 3) (view_of sum_row) (Some (-5))
                (fresh_world city_unknown) {| data := ∅; health := Healthy |})
      as (_ & H); [reflexivity..|].
    destruct (H (-5)) as (e & w' & H1 & H2 & H3 & _); [done..|].
    by exists e, w'.
Defined.

(** X9. [invalidate_task_output] on a server that accepts writes: it
    answers whether there was an entry for the task, and afterwards there
    is none, so that the next read of the output goes to the database.
    The entries of other tasks stay as they were. *)
Theorem invalidate_forgets (u : UUID) (w : world) (srv : Redis) :
  redis w = Some srv ->
  health srv = Healthy ->
  let w1 := snd (CacheService.invalidate_task_output u w) in
  fst (CacheService.invalidate_task_output u w) =
    Return (negb (is_null (cache_entry u w))) /\
  cache_entry u w1 = None /\
  fst (CacheService.exists_ ("task_output:" ++ u) w1) = Return false /\
  get_task_output u w1 = get_task_output_from_db u (looked_up u w1) /\
  (forall u', u' <> u -> cache_entry u' w1 = cache_entry u' w) /\
  db w1 = db w.
Proof.
  intros Hr Hh w1.
  assert (Hdel : CacheService.invalidate_task_output u w =
            (Return (negb (is_null (cache_entry u w))),
             set_redis (fun _ => Some {| data := delete (output_key u) (data srv);
                                         health := health srv |}) w)).
  { unfold cache_entry. unfold_cache. rewrite Hr. cbn. rewrite Hh. cbn.
    fold (CacheService._make_key ("task_output:" ++ u)). fold (output_key u).
    by destruct (data srv !! output_key u). }
  subst w1. rewrite Hdel. cbn [fst snd].
  match goal with |- context [CacheService.exists_ _ ?w0] => set (w1 := w0) end.
  assert (Hentry : forall u', cache_entry u' w1 =
            if decide (u' = u) then None else cache_entry u' w).
  { intros u'. unfold cache_entry. subst w1. cbn. rewrite Hr. cbn.
    destruct (decide (u' = u)) as [->|Hne]; [by rewrite lookup_delete_eq|].
    rewrite lookup_delete_ne; [done|]. intros H. by apply output_key_inj in H. }
  assert (Hu : cache_entry u w1 = None)
    by (rewrite Hentry; by destruct (decide (u = u))).
  split; [done|]. split; [done|]. split.
  { unfold_cache. rewrite Hh. cbn.
    fold (CacheService._make_key ("task_output:" ++ u)). fold (output_key u).
    by rewrite lookup_delete_eq. }
  split.
  { apply reader_miss. split; [|by rewrite Hu].
    intros srv1 Hsrv1. subst w1. cbn in Hsrv1. simplify_eq. cbn. by rewrite Hh. }
  split; [|done]. intros u' Hne. rewrite Hentry. by destruct (decide (u' = u)).
Qed.

Lemma invalidate_forgets_witness :
  fst (CacheService.invalidate_task_output (scenario_uuid 0) sum_read) = Return true /\
  cache_entry (scenario_uuid 0)
    (snd (CacheService.invalidate_task_output (scenario_uuid 0) sum_read)) = None.
Proof.
  destruct (invalidate_forgets (scenario_uuid 0) sum_read
              {| data := {[ output_key (scenario_uuid 0) := (3600, ViewJson (view_of sum_row)) ]};
                 health := Healthy |})
    as (H1 & H2 & _); [vm_compute; reflexivity | reflexivity |].
  split; [|exact H2]. rewrite H1. vm_compute. reflexivity.
Defined.

(** X10. Once [disconnect] forgot the client, the cache service answers
    without doing anything: [get] gives [None], [set], [delete] and
    [exists] give [False], and every read of an output goes to the
    database. *)
Theorem cache_without_client (key : string) (r : TaskOutputResponse) (ttl : option Z)
    (u : UUID) (w : world) :
  let w0 := snd (CacheService.disconnect w) in
  CacheService.get key w0 = (Return None, w0) /\
  CacheService.set key r ttl w0 = (Return false, w0) /\
  CacheService.delete key w0 = (Return false, w0) /\
  CacheService.exists_ key w0 = (Return false, w0) /\
  get_task_output u w0 = get_task_output_from_db u w0 /\
  store_reads (log (snd (get_task_output u w0))) = S (store_reads (log w)) /\
  redis (snd (get_task_output u w0)) = None.
Proof.
  cbn zeta. unfold get_task_output.
  unfold_cache. repeat (split; [done|]).
  unfold get_task_output_from_db, session_get. unfold_cache.
  destruct (db w !! u) as [t|]; cbn; [destruct (is_terminal _); cbn|];
    split; try done; count_log.
Qed.



(** ** The routes that read *)

(** X12. Once the output of a terminal task was read, with a server that
    accepts the write, every later read is answered from the cache with
    the same view and without reading the database, whatever became of
    the row in between: the worker does not touch the cache, and a retry
    that completes the task does not show. *)
Theorem cached_view_outlives_row (u : UUID) (w : world) (t : Task.t) (srv : Redis) :
  cache_miss u w ->
  db w !! u = Some t ->
  is_terminal (Task.status t) = true ->
  redis w = Some srv ->
  health srv = Healthy ->
  let w1 := snd (get_task_output u w) in
  fst (get_task_output u w) = Return (view_of t) /\
  forall w2,
    redis w2 = redis w1 ->
    fst (get_task_output u w2) = Return (view_of t) /\
    store_reads (log (snd (get_task_output u w2))) = store_reads (log w2) /\
    redis (snd (get_task_output u w2)) = redis w1.
Proof.
  intros Hmiss Hu Ht Hr Hh w1. subst w1.
  set (w0 := set_log (fun l => (l ++ [SessionGet u])%list) (looked_up u w)).
  assert (Hget : get_task_output u w =
            (Return (view_of t),
             set_redis (fun _ => Some {| data := <[output_key u :=
                                                     (stored_ttl None, ViewJson (view_of t))]>
                                                   (data srv);
                                         health := health srv |})
               (set_log (fun l => (l ++ [RedisSetex (output_key u) (stored_ttl None)])%list)
                  w0))).
  { rewrite (reader_miss u w Hmiss).
    rewrite (from_db_terminal_populates u (looked_up u w) t Hu Ht).
    unfold populate_then_return, bind. fold w0.
    by rewrite (cache_set_healthy u (view_of t) None w0 srv Hr Hh default_ttl_accepted). }
  rewrite Hget.
  cbn [fst snd]. split; [done|]. intros w2 Hr2.
  assert (Hr2' : redis w2 =
            Some {| data := <[output_key u := (stored_ttl None, ViewJson (view_of t))]>
                              (data srv);
                    health := health srv |}) by (by rewrite Hr2).
  assert (Hup : reads_answered w2).
  { intros srv2 Hsrv2. rewrite Hr2' in Hsrv2. simplify_eq. cbn. by rewrite Hh. }
  destruct (reader_hit u w2 (view_of t) Hup) as (w3 & Hget2 & Hreads & _ & Hr3).
  { rewrite (cache_entry_insert u u _ srv w2 Hr2'). by destruct (decide (u = u)). }
  rewrite Hget2. cbn [fst snd]. by rewrite Hr3, Hr2.
Qed.

Lemma cached_view_outlives_row_witness :
  fst (get_task_output (scenario_uuid 0) flaky_failed_once) =
    Return (view_of (default (first_row (weather_request "London"))
                       (row flaky_failed_once))) /\
  Task.status <$> row flaky_read_between = Some COMPLETED /\
  out_status <$> returned (fst (get_task_output (scenario_uuid 0) flaky_read_between)) =
    Some FAILED.
Proof.
  destruct (cached_view_outlives_row (scenario_uuid 0) flaky_failed_once
              (default (first_row (weather_request "London")) (row flaky_failed_once))
              {| data := ∅; health := Healthy |})
    as (H1 & H2);
    [concrete_miss | vm_compute; reflexivity | vm_compute; reflexivity
    | vm_compute; reflexivity | reflexivity |].
  split; [exact H1|]. split; [vm_compute; reflexivity|].
  destruct (H2 flaky_read_between) as (H3 & _); [vm_compute; reflexivity|].
  rewrite H3. vm_compute. reflexivity.
Defined.



(** X14. The status route reads the table and nothing else: it gives the
    id and the status of the row, or a 404 when there is none, whatever
    the cache holds; it writes nothing. When the output route misses the
    cache and returns a view, the status of the view is the one the
    status route gives. *)
Theorem status_reads_the_table (u : UUID) (w : world) :
  fst (get_task_status u w) =
    match db w !! u with
    | Some t => Return {| st_task_uuid := Task.id t; st_status := Task.status t |}
    | None => Raise (Exn (HTTPException 404) ("Task with UUID " ++ u ++ " not found"))
    end /\
  (forall f, fst (get_task_status u (set_redis f w)) = fst (get_task_status u w)) /\
  db (snd (get_task_status u w)) = db w /\
  redis (snd (get_task_status u w)) = redis w /\
  broker (snd (get_task_status u w)) = broker w /\
  tasks_by_status (snd (get_task_status u w)) = tasks_by_status w /\
  (forall r,
     cache_miss u w ->
     fst (get_task_output u w) = Return r ->
     fst (get_task_status u w) =
       Return {| st_task_uuid := out_task_uuid r; st_status := out_status r |}).
Proof.
  assert (Hst : forall w, get_task_status u w =
            (match db w !! u with
             | Some t => Return {| st_task_uuid := Task.id t; st_status := Task.status t |}
             | None => Raise (Exn (HTTPException 404)
                                ("Task with UUID " ++ u ++ " not found"))
             end, set_log (fun l => (l ++ [SessionGet u])%list) w)).
  { intros w0. unfold get_task_status, session_get, bind, emit, modify, gets, ret, raise.
    cbn. by destruct (db w0 !! u). }
  rewrite !Hst. cbn [fst snd]. split; [done|]. split; [intros f; by rewrite Hst|].
  repeat (split; [done|]).
  intros r Hmiss. rewrite (reader_miss u w Hmiss).
  destruct (db w !! u) as [t|] eqn:Hu.
  - destruct (is_terminal (Task.status t)) eqn:Ht.
    + rewrite (from_db_terminal_populates u (looked_up u w) t Hu Ht).
      unfold populate_then_return, bind.
      destruct (CacheService.set_task_output u (view_of t) None _) as [[ok|e] w'];
        cbn; [|done].
      by intros [= <-].
    + destruct (from_db_not_terminal u (looked_up u w) t Hu Ht) as (w' & -> & _).
      by intros [= <-].
  - by destruct (from_db_absent u (looked_up u w) Hu) as (w' & msg & -> & _).
Qed.

(** ** The task bodies and the external services *)

Lemma sends_ret {A} (a : A) : sends 0 (ret a).
Proof. intros e. cbn. split; [done|]. split; lia. Qed.

Lemma sends_raise {A} n (x : exn) : sends (A:=A) n (raise x).
Proof. intros e. cbn. split; [done|]. split; [lia|done]. Qed.

Lemma sends_bind {A B} n1 n2 (m : M ext_env A) (k : A -> M ext_env B) :
  sends n1 m -> (forall a, sends n2 (k a)) -> sends (n1 + n2) (bind m k).
Proof.
  intros Hm Hk e. specialize (Hm e). unfold bind.
  destruct (m e) as [[a|x] e1]; cbn in *.
  - specialize (Hk a e1). destruct (k a e1) as [o e2]; cbn in *.
    destruct Hm as (Ho1 & Hle1 & Heq1), Hk as (Ho2 & Hle2 & Heq2).
    specialize (Heq1 eq_refl).
    split; [congruence|]. split; [lia|]. intros Hret. specialize (Heq2 Hret). lia.
  - destruct Hm as (Ho1 & Hle1 & _). split; [done|]. split; [lia|done].
Qed.

Lemma sends_client_get : sends 1 client_get.
Proof.
  intros e. unfold client_get. destruct (http e (http_calls e)); cbn;
    (split; [done|]); (split; [lia|]); intros; lia.
Qed.

Lemma sends_response_json j : sends 0 (response_json j).
Proof. destruct j; [apply sends_raise | apply sends_ret]. Qed.

Lemma sends_py_get v k d : sends 0 (py_get v k d).
Proof. destruct v; first [apply sends_raise | apply sends_ret]. Qed.

Lemma sends_py_first v : sends 0 (py_first v).
Proof.
  destruct v as [| | | |[|]|[|]|]; first [apply sends_raise | apply sends_ret].
Qed.

Lemma sends_py_item v k : sends 0 (py_item v k).
Proof.
  destruct v; try apply sends_raise. unfold py_item.
  destruct (_ !! _); [apply sends_ret | apply sends_raise].
Qed.

Lemma sends_get_weather_description code : sends 0 (_get_weather_description code).
Proof.
  unfold _get_weather_description.
  destruct code; try apply sends_raise;
    match goal with |- context [default ?d ?x] => destruct (default d x) as [[? ?] ?] end;
    apply sends_ret.
Qed.

Lemma sends_to_kelvin units t : sends 0 (to_kelvin units t).
Proof.
  unfold to_kelvin.
  destruct units; try apply sends_ret;
    destruct t; try apply sends_ret;
    repeat case_match; first [apply sends_ret | apply sends_raise].
Qed.

Ltac sends_step :=
  lazymatch goal with
  | |- sends _ (if ?c then _ else _) => destruct c
  | |- sends _ (raise _) => apply sends_raise
  | |- sends 0 (ret _) => apply sends_ret
  | |- sends (S ?n) (bind client_get _) =>
      apply (sends_bind 1 n); [apply sends_client_get | intros ?]
  | |- sends ?n (bind (response_json _) _) =>
      apply (sends_bind 0 n); [apply sends_response_json | intros ?]
  | |- sends ?n (bind (py_get _ _ _) _) =>
      apply (sends_bind 0 n); [apply sends_py_get | intros ?]
  | |- sends ?n (bind (py_first _) _) =>
      apply (sends_bind 0 n); [apply sends_py_first | intros ?]
  | |- sends ?n (bind (py_item _ _) _) =>
      apply (sends_bind 0 n); [apply sends_py_item | intros ?]
  | |- sends ?n (bind (_get_weather_description _) _) =>
      apply (sends_bind 0 n); [apply sends_get_weather_description | intros ?]
  | |- sends ?n (bind (to_kelvin _ _) _) =>
      apply (sends_bind 0 n); [apply sends_to_kelvin | intros ?]
  end.

(** X15. In one execution the weather task sends two HTTP requests at
    most, one to the geocoder and one to the forecast service; it sends
    exactly two whenever it returns a result, and never calls OpenAI.
    This holds for all parameters and all answers of the services. *)
Theorem weather_sends_two_requests (parameters : gmap string pyval) :
  sends 2 (execute WeatherTask parameters).
Proof.
  cbn [execute WeatherTask].
  destruct (parameters !! "city") as [city|]; [|apply sends_raise].
  unfold WeatherTask_execute. repeat sends_step.
Qed.

(** The weather task called with a non-empty city and known units: its
    own checks pass and the geocoder is asked. *)
Lemma weather_asks_geocoder s units e :
  s <> "" ->
  units_ok units = true ->
  exists k,
    (forall a, sends 1 (k a)) /\
    WeatherTask_execute (VStr s) units e = bind client_get k e /\
    (forall json e', k (200, inl json) e' = (Raise (Exn ValueError json), e')) /\
    (forall d e',
       truthy (default VNone (d !! "results")) = false ->
       k (200, inr (VDict d)) e' =
         (Raise (Exn ValueError ("City '" ++ s ++ "' not found")), e')) /\
    (forall code json e',
       code <> 200 ->
       k (code, json) e' =
         (Raise (Exn RuntimeError
                   ("Open-Meteo Geocoding API error: " ++ str_of_Z code)), e')).
Proof.
  intros Hs Hunits. unfold WeatherTask_execute. cbn [truthy is_str negb orb].
  apply String.eqb_neq in Hs. rewrite Hs, Hunits. cbn [negb orb].
  eexists. split; [|split; [reflexivity|]].
  - intros a. cbv beta. repeat sends_step.
  - split; [|split].
    + intros json e'. reflexivity.
    + intros d e' Hd. cbn [fst snd]. unfold bind, response_json, py_get, ret. cbn.
      by rewrite Hd.
    + intros code json e' Hcode. cbn [fst snd]. apply Z.eqb_neq in Hcode.
      by rewrite Hcode.
Qed.

Lemma will_retry_transient ct m x :
  is_ValueError x = false ->
  (msg_retries m < max_retries ct)%nat ->
  will_retry ct m (Raise x) = true.
Proof. intros Hx Hm. unfold will_retry. rewrite Hx. by apply Nat.ltb_lt. Qed.

(** X16. How the weather task fails on the answer of the geocoder, for a
    non-empty city and known units, after one request and no more:
    - an answer that is not a 200, a timeout or a connection error is a
      transient failure, which Celery retries;
    - a 200 whose body is not JSON, or holds no result for the city, is a
      [ValueError], which is never retried. *)
Theorem geocoder_failures (s : string) (units : pyval) (e : ext_env) :
  s <> "" ->
  units_ok units = true ->
  let o := fst (WeatherTask_execute (VStr s) units e) in
  let e' := snd (WeatherTask_execute (VStr s) units e) in
  (match next_reply e with
   | HttpResponse 200 _ => False
   | _ => True
   end ->
   transient o /\ http_calls e' = S (http_calls e) /\
   forall m, (msg_retries m < 3)%nat -> will_retry fetch_weather m o = true) /\
  (forall json,
     next_reply e = HttpResponse 200 (inl json) ->
     o = Raise (Exn ValueError json) /\ http_calls e' = S (http_calls e) /\
     forall m, will_retry fetch_weather m o = false) /\
  (forall d,
     next_reply e = HttpResponse 200 (inr (VDict d)) ->
     truthy (default VNone (d !! "results")) = false ->
     o = Raise (Exn ValueError ("City '" ++ s ++ "' not found")) /\
     http_calls e' = S (http_calls e) /\
     forall m, will_retry fetch_weather m o = false).
Proof.
  intros Hs Hunits o e'. subst o e'.
  destruct (weather_asks_geocoder s units e Hs Hunits) as (k & _ & -> & Hjson & Hnone & Hcode).
  unfold bind, client_get, next_reply.
  destruct (http e (http_calls e)) as [code json| |msg] eqn:Hreply; cbn [fst snd].
  - split; [|split].
    + intros Hne. assert (code <> 200) as Hc by (by intros ->).
      rewrite (Hcode code json _ Hc). cbn [fst snd http_calls].
      split; [by eexists|]. split; [done|]. intros m Hm. by apply will_retry_transient.
    + intros json' [= -> ->]. by rewrite Hjson.
    + intros d [= -> ->] Hd. by rewrite (Hnone d _ Hd).
  - split; [|by split]. intros _. cbn [fst snd http_calls].
    split; [by eexists|]. split; [done|]. intros m Hm. by apply will_retry_transient.
  - split; [|by split]. intros _. cbn [fst snd http_calls].
    split; [by eexists|]. split; [done|]. intros m Hm. by apply will_retry_transient.
Qed.

Lemma geocoder_failures_witness :
  transient (fst (WeatherTask_execute (VStr "London") (VStr "metric") geocoding_down)) /\
  fst (WeatherTask_execute (VStr "Atlantis") (VStr "metric") city_unknown) =
    Raise (Exn ValueError "City 'Atlantis' not found").
Proof.
  split.
  - destruct (geocoder_failures "London" (VStr "metric") geocoding_down)
      as ((H & _) & _); [done | reflexivity | exact I | exact H].
  - destruct (geocoder_failures "Atlantis" (VStr "metric") city_unknown)
      as (_ & _ & H); [done | reflexivity |].
    by destruct (H {[ "generationtime_ms" := VFloat 0.4 ]}) as (Ho & _).
Defined.

Lemma strip_nonempty s : strip s <> "" -> s <> "".
Proof. by intros H ->. Qed.

(** The arguments a weather submission that passed validation is run
    with. *)
Lemma validated_weather_arguments p p' :
  validate_weather p = Return tt ->
  bind_arguments fetch_weather p = Return p' ->
  exists raw units,
    p' !! "city" = Some (VStr raw) /\ raw <> "" /\
    default (VStr "metric") (p' !! "units") = units /\ units_ok units = true.
Proof.
  unfold validate_weather, reject_if, bind_arguments. intros Hv Hb.
  destruct (p !! "city") as [[| | | |raw| |]|] eqn:Hcity; try done.
  destruct (String.eqb (strip raw) "") eqn:Hraw; [done|].
  apply String.eqb_neq, strip_nonempty in Hraw.
  repeat case_match; simplify_eq.
  all: exists raw; eexists; (split; [by apply lookup_union_Some_l|]);
    (split; [done|]); (split; [reflexivity|]).
  - erewrite lookup_union_Some_l by done. cbn. by destruct (units_ok _).
  - rewrite lookup_union_r by done. reflexivity.
Qed.

(** X17. The validator covers the checks the weather task makes on its
    own inputs: a weather submission that was accepted is never refused
    by the body for its city or its units, every execution of it asks
    the geocoder. *)
Theorem accepted_weather_reaches_geocoder (p p' : gmap string pyval) (e : ext_env) :
  _validate_task_parameters WEATHER p = Return tt ->
  bind_arguments (task_map WEATHER) p = Return p' ->
  (http_calls e < http_calls (snd (execute WeatherTask p' e)))%nat.
Proof.
  intros Hv Hb.
  destruct (validated_weather_arguments p p' Hv Hb) as (raw & units & Hcity & Hraw & Hu & Hok).
  cbn [execute WeatherTask]. rewrite Hcity, Hu.
  destruct (weather_asks_geocoder raw units e Hraw Hok) as (k & Hk & -> & _).
  unfold bind, client_get.
  destruct (http e (http_calls e)) as [code json| |msg]; cbn [snd http_calls]; try lia.
  match goal with |- context [k ?a ?e1] => destruct (Hk a e1) as (_ & Hle & _) end.
  cbn [http_calls] in Hle. lia.
Qed.

Lemma accepted_weather_reaches_geocoder_witness :
  (0 < http_calls (snd (execute WeatherTask
                          {[ "city" := VStr "  Atlantis "; "units" := VStr "kelvin" ]}
                          city_unknown)))%nat.
Proof.
  apply (accepted_weather_reaches_geocoder
           {[ "city" := VStr "  Atlantis "; "units" := VStr "kelvin" ]}
           {[ "city" := VStr "  Atlantis "; "units" := VStr "kelvin" ]} city_unknown);
    vm_compute; reflexivity.
Defined.

(** [ChatGPTTask.execute] with the settings as they are by default: the
    API key is empty, and whatever the arguments the call ends in a
    [ValueError] before the client is made. *)
Lemma chatgpt_execute_without_key p e :
  exists x, execute ChatGPTTask p e = (Raise x, e) /\
            (p !! "prompt" <> None -> is_ValueError x = true).
Proof.
  cbn [execute ChatGPTTask]. destruct (p !! "prompt") as [prompt|]; [|by eexists].
  unfold ChatGPTTask_execute.
  destruct (negb (truthy prompt) || negb (is_str prompt)); [by eexists|].
  destruct (max_prompt_length settings <? _); [by eexists|].
  by eexists.
Qed.

(** X18. With the settings as they are by default, where no API key is
    configured, every chatgpt task fails: the delivery of its message
    marks the row [failed] with the message of a [ValueError], no request
    is sent to OpenAI or to any other service, and nothing is retried. *)
Theorem chatgpt_fails_without_api_key (m : Message) (rest : list Message) (w : world)
    (t : Task.t) (p : gmap string pyval) :
  msg_task m = CHATGPT ->
  broker w = m :: rest ->
  bind_arguments query_chatgpt (msg_kwargs m) = Return p ->
  db w !! msg_task_uuid m = Some t ->
  Task.id t = msg_task_uuid m ->
  exists w' t' x,
    worker_step w = Some w' /\
    db w' !! msg_task_uuid m = Some t' /\
    Task.status t' = FAILED /\
    Task.error_message t' = Some (str x) /\ exn_type x = ValueError /\
    broker w' = rest /\
    ext w' = ext w.
Proof.
  intros Hm Hq Hbind Hu Hid.
  destruct (chatgpt_execute_without_key p (ext w)) as (x & He & Hx).
  assert (Hp : p !! "prompt" <> None).
  { unfold bind_arguments in Hbind. cbn in Hbind. repeat case_match; simplify_eq.
    match goal with H : bool_decide _ = false |- _ => apply bool_decide_eq_false in H end.
    intros Hnone. apply lookup_union_None in Hnone as [? _]. done. }
  specialize (Hx Hp).
  destruct (worker_step_spec m rest w t p (Raise x) (ext w)) as [g' Hstep]; try done.
  { by rewrite Hm. }
  { by rewrite Hm. }
  eexists _, _, x. split; [exact Hstep|]. cbn [db broker ext].
  rewrite lookup_insert_eq. unfold requeued, will_retry. rewrite Hx. cbn.
  rewrite app_nil_r. repeat split; try done.
  unfold is_ValueError in Hx. by destruct (exn_type x).
Qed.

Lemma chatgpt_fails_without_api_key_witness :
  exists w' t' x,
    worker_step (submitted (chatgpt_request "Hello") city_unknown) = Some w' /\
    db w' !! scenario_uuid 0 = Some t' /\
    Task.status t' = FAILED /\
    Task.error_message t' = Some (str x) /\ exn_type x = ValueError.
Proof.
  destruct (chatgpt_fails_without_api_key (first_message (chatgpt_request "Hello")) []
              (submitted (chatgpt_request "Hello") city_unknown)
              (first_row (chatgpt_request "Hello")) (chatgpt_arguments "Hello"))
    as (w' & t' & x & H1 & H2 & H3 & H4 & H5 & _); [vm_compute; reflexivity..|].
  exists w', t', x. repeat (split; [assumption|]). assumption.
Defined.

(** ** The sum task on integers *)

Lemma sum_parameters a b :
  ({[ "a" := a; "b" := b ]} : gmap string pyval) !! "a" = Some a /\
  ({[ "a" := a; "b" := b ]} : gmap string pyval) !! "b" = Some b.
Proof.
  split; [by rewrite lookup_insert_eq|].
  rewrite lookup_insert_ne by done. by rewrite lookup_singleton_eq.
Qed.

Lemma sum_result (a b r : pyval) :
  ({[ "operation" := VStr "sum"; "a" := a; "b" := b; "result" := r ]}
     : gmap string pyval) !! "result" = Some r.
Proof. rewrite !lookup_insert_ne by done. by rewrite lookup_singleton_eq. Qed.

Lemma validate_sum_integers a b :
  validate_sum {[ "a" := VInt a; "b" := VInt b ]} = Return tt <->
  Z.abs a <= 10 ^ 15 /\ Z.abs b <= 10 ^ 15.
Proof.
  destruct (sum_parameters (VInt a) (VInt b)) as [Ha Hb].
  unfold validate_sum, reject_if. rewrite Ha, Hb.
  cbn [is_number negb abs_gt isnan_or_isinf]. rewrite !int_gt_ceiling.
  destruct (Z.ltb_spec (10 ^ 15) (Z.abs a)), (Z.ltb_spec (10 ^ 15) (Z.abs b));
    split; try done; try lia.
Qed.

Lemma bind_sum_integers a b :
  bind_arguments sum_numbers {[ "a" := VInt a; "b" := VInt b ]} =
  Return {[ "a" := VInt a; "b" := VInt b ]}.
Proof. vm_compute. reflexivity. Qed.

Lemma execute_sum_integers a b e :
  execute SumTask {[ "a" := VInt a; "b" := VInt b ]} e =
  (Return (VDict {[ "operation" := VStr "sum"; "a" := VInt a; "b" := VInt b;
                    "result" := VInt (a + b) ]}), e).
Proof.
  destruct (sum_parameters (VInt a) (VInt b)) as [Ha Hb].
  cbn [execute SumTask]. by rewrite Ha, Hb.
Qed.

(** X19. The sum of two integers. The submission is accepted exactly
    when both are at most [10 ^ 15] in magnitude, the bound included;
    the task then returns their exact sum, with the operands as they
    were given, and calls no external service. *)
Theorem integer_sums_are_exact (a b : Z) :
  (_validate_task_parameters SUM {[ "a" := VInt a; "b" := VInt b ]} = Return tt <->
   Z.abs a <= 10 ^ 15 /\ Z.abs b <= 10 ^ 15) /\
  bind_arguments (task_map SUM) {[ "a" := VInt a; "b" := VInt b ]} =
    Return {[ "a" := VInt a; "b" := VInt b ]} /\
  forall e,
    execute SumTask {[ "a" := VInt a; "b" := VInt b ]} e =
    (Return (VDict {[ "operation" := VStr "sum"; "a" := VInt a; "b" := VInt b;
                      "result" := VInt (a + b) ]}), e).
Proof.
  split; [apply validate_sum_integers|]. split; [apply bind_sum_integers|].
  apply execute_sum_integers.
Qed.

(** X20. An accepted sum of two integers, from the submission to the
    read. With nothing else in the queue, one worker step completes the
    task: the queue is empty again, the row is [completed] with the exact
    sum as its result, no error message, and the time of the execution as
    its completion time; and a read that misses the cache, with no cache
    or one that accepts writes, returns the view of that row. *)
Theorem accepted_sum_completes (a b : Z) (w : world) :
  Z.abs a <= 10 ^ 15 ->
  Z.abs b <= 10 ^ 15 ->
  broker w = [] ->
  let u := uuid4 w (uuid4_calls w) in
  let w1 := handle (Submit (sum_request (VInt a) (VInt b))) w in
  let w2 := handle Work w1 in
  fst (run_task (sum_request (VInt a) (VInt b)) w) =
    Return {| resp_task_uuid := u; resp_message := "Task submitted successfully" |} /\
  broker w2 = [] /\
  ext w2 = ext w /\
  exists t,
    db w2 !! u = Some t /\
    Task.status t = COMPLETED /\
    result_field (Some t) = Some (VInt (a + b)) /\
    Task.error_message t = None /\
    Task.completed_at t = Some (utcnow w) /\
    (cache_miss u w2 ->
     (forall srv, redis w2 = Some srv -> health srv = Healthy) ->
     fst (get_task_output u w2) = Return (view_of t)).
Proof.
  intros Ha Hb Hq u w1 w2.
  set (request := sum_request (VInt a) (VInt b)).
  assert (Hv : _validate_task_parameters (req_task_name request)
                 (req_task_parameters request) = Return tt)
    by (by apply validate_sum_integers).
  pose proof (run_task_validated request w Hv) as Hrun. cbn zeta in Hrun.
  change (bind_arguments _ _) with
    (bind_arguments sum_numbers {[ "a" := VInt a; "b" := VInt b ]}) in Hrun.
  rewrite bind_sum_integers in Hrun. fold u in Hrun. subst request.
  split; [by rewrite Hrun|].
  set (m := first_delivery (sum_request (VInt a) (VInt b)) w) in *.
  set (t := pending_row (sum_request (VInt a) (VInt b)) w) in *.
  assert (Hstep : exists g',
    worker_step w1 =
    Some {| db := <[u := finished (utcnow w)
                          (Return (VDict {[ "operation" := VStr "sum"; "a" := VInt a;
                                            "b" := VInt b; "result" := VInt (a + b) ]})) t]>
                    (db w1);
            redis := redis w1; broker := []; tasks_by_status := g';
            log := (log w1 ++ attempt_log SumTask u COMPLETED)%list;
            ext := ext w; utcnow := utcnow w; uuid4 := uuid4 w1;
            uuid4_calls := uuid4_calls w1 |}).
  { destruct (worker_step_spec m [] w1 t {[ "a" := VInt a; "b" := VInt b ]}
                (Return (VDict {[ "operation" := VStr "sum"; "a" := VInt a;
                                  "b" := VInt b; "result" := VInt (a + b) ]})) (ext w))
      as [g' Hstep].
    - subst w1. cbn [handle]. rewrite Hrun. cbn [snd broker]. by rewrite Hq.
    - apply bind_sum_integers.
    - subst w1. cbn [handle]. rewrite Hrun. cbn [snd db]. apply lookup_insert_eq.
    - done.
    - subst w1. cbn [handle]. rewrite Hrun. cbn [snd ext]. apply execute_sum_integers.
    - exists g'. rewrite Hstep. subst w1. cbn [handle]. rewrite Hrun. cbn [snd utcnow ext].
      cbn. by rewrite ?app_nil_r. }
  destruct Hstep as [g' Hstep]. subst w2. cbn [handle]. rewrite Hstep.
  cbn [default from_option id broker ext db].
  split; [done|]. split; [done|]. eexists. split; [apply lookup_insert_eq|].
  split; [done|]. split; [exact (sum_result _ _ _)|]. split; [done|]. split; [done|].
  intros Hmiss Hhealthy. rewrite (reader_miss _ _ Hmiss).
  match goal with |- context [get_task_output_from_db u ?w0] => set (w3 := w0) end.
  match goal with |- _ = Return (view_of ?t1) =>
    pose proof (from_db_terminal u w3 t1) as Hdb end.
  specialize (Hdb (lookup_insert_eq _ _ _) eq_refl).
  destruct (redis w3) as [srv|] eqn:Hr.
  - rewrite (Hhealthy srv Hr) in Hdb. by destruct Hdb as (w' & -> & _).
  - by destruct Hdb as (w' & -> & _).
Qed.

Lemma accepted_sum_completes_witness :
  result_field
    (db (handle Work (handle (Submit (sum_request (VInt (10 ^ 15)) (VInt (- 10 ^ 15))))
                        (fresh_world city_unknown))) !! scenario_uuid 0) =
  Some (VInt 0).
Proof.
  destruct (accepted_sum_completes (10 ^ 15) (- 10 ^ 15) (fresh_world city_unknown))
    as (_ & _ & _ & t & Ht & _ & Hres & _); [vm_compute; discriminate.. | reflexivity |].
  exact (eq_trans (f_equal result_field Ht) Hres).
Defined.

(** ** Stripping *)

Lemma lstrip_head s :
  lstrip s = "" \/ exists c r, lstrip s = String c r /\ isspace c = false.
Proof.
  induction s as [|c r IH]; [by left|]. cbn [lstrip].
  destruct (isspace c) eqn:Hc; [exact IH|]. right. by exists c, r.
Qed.

Lemma rstrip_head c r : isspace c = false -> rstrip (String c r) = String c (rstrip r).
Proof. intros Hc. cbn [rstrip]. rewrite Hc. by destruct (rstrip r). Qed.

Lemma rstrip_idempotent s : rstrip (rstrip s) = rstrip s.
Proof.
  induction s as [|c r IH]; [done|]. cbn [rstrip].
  destruct (rstrip r) as [|c' r'] eqn:Hr.
  - destruct (isspace c) eqn:Hc; [done|]. cbn. by rewrite Hc.
  - cbn [rstrip]. cbn [rstrip] in IH. by rewrite IH.
Qed.

(** [s.strip().strip() == s.strip()]. *)
Lemma strip_idempotent s : strip (strip s) = strip s.
Proof.
  unfold strip. destruct (lstrip_head s) as [-> | (c & r & -> & Hc)]; [done|].
  rewrite (rstrip_head c r Hc). cbn [lstrip]. rewrite Hc.
  rewrite (rstrip_head c _ Hc). by rewrite rstrip_idempotent.
Qed.

Lemma rstrip_empty s :
  rstrip s = "" -> forallb isspace (list_ascii_of_string s) = true.
Proof.
  induction s as [|c r IH]; [done|]. cbn [rstrip list_ascii_of_string forallb].
  destruct (rstrip r); [|done]. destruct (isspace c); [|done]. intros _. by rewrite IH.
Qed.

(** What [strip] removes is whitespace: a property of the characters of
    the stripped string that whitespace has holds of the whole string. *)
Lemma forallb_strip (P : ascii -> bool) s :
  (forall c, isspace c = true -> P c = true) ->
  forallb P (list_ascii_of_string (strip s)) = true ->
  forallb P (list_ascii_of_string s) = true.
Proof.
  intros Hspace. unfold strip.
  assert (Hr : forall t, forallb P (list_ascii_of_string (rstrip t)) = true ->
                         forallb P (list_ascii_of_string t) = true).
  { induction t as [|c r IH]; [done|]. cbn [rstrip].
    destruct (rstrip r) as [|c' r'] eqn:Hrr.
    - apply rstrip_empty in Hrr.
      assert (forallb P (list_ascii_of_string r) = true) as Hall.
      { apply forallb_forall. intros x Hx. apply Hspace.
        by eapply forallb_forall in Hrr. }
      cbn [list_ascii_of_string forallb]. rewrite Hall.
      destruct (isspace c) eqn:Hc; [by rewrite (Hspace c Hc)|].
      cbn. by rewrite andb_true_r.
    - cbn [list_ascii_of_string forallb] in *.
      intros H. apply andb_prop in H as [-> H]. by rewrite IH. }
  intros H. apply Hr in H. clear Hr.
  induction s as [|c r IH]; [done|]. cbn [lstrip] in H.
  cbn [list_ascii_of_string forallb].
  destruct (isspace c) eqn:Hc; [|done].
  by rewrite (Hspace c Hc), IH.
Qed.

(** ** The origins of CORS *)

(** The pieces [split] cuts a string into at the commas hold no comma,
    and joined with commas they give the string back; there is always a
    piece. *)
Lemma split_on_nonempty sep s : split_on sep s <> [].
Proof. destruct s as [|c r]; cbn; [done|]. destruct (Ascii.eqb c sep); [done|]. by destruct (split_on sep r). Qed.

Lemma concat_cons sep x xs :
  xs <> [] -> String.concat sep (x :: xs) = x ++ sep ++ String.concat sep xs.
Proof. by destruct xs. Qed.

Lemma split_on_concat s : String.concat "," (split_on "," s) = s.
Proof.
  induction s as [|c r IH]; [done|]. cbn [split_on].
  destruct (Ascii.eqb c ",") eqn:Hc.
  - apply Ascii.eqb_eq in Hc as ->.
    rewrite concat_cons by apply split_on_nonempty. cbn. by rewrite IH.
  - pose proof (split_on_nonempty "," r) as Hne.
    destruct (split_on "," r) as [|x xs]; [done|].
    destruct xs as [|y ys]; [cbn in *; by rewrite IH|].
    rewrite concat_cons in IH by done. rewrite concat_cons by done.
    rewrite <- IH. reflexivity.
Qed.

Lemma split_on_comma_free s : Forall (fun x => comma_free x = true) (split_on "," s).
Proof.
  induction s as [|c r IH]; [by repeat constructor|]. cbn [split_on].
  destruct (Ascii.eqb c ",") eqn:Hc; [by constructor|].
  destruct (split_on "," r) as [|x xs]; [repeat constructor; cbn; by rewrite Hc|].
  inversion IH as [|? ? Hx Hxs]; subst. constructor; [|done].
  unfold comma_free in *. cbn. by rewrite Hc.
Qed.

Lemma split_on_comma_free_piece x : comma_free x = true -> split_on "," x = [x].
Proof.
  induction x as [|c r IH]; [done|]. unfold comma_free in *.
  cbn [list_ascii_of_string forallb split_on].
  intros H. apply andb_prop in H as [Hc Hr]. apply negb_true_iff in Hc. rewrite Hc.
  by rewrite (IH Hr).
Qed.

Lemma split_on_app x y :
  comma_free x = true -> split_on "," (x ++ "," ++ y) = x :: split_on "," y.
Proof.
  induction x as [|c r IH]; [done|]. unfold comma_free in *.
  cbn [list_ascii_of_string forallb].
  intros H. apply andb_prop in H as [Hc Hr]. apply negb_true_iff in Hc.
  change (String c r ++ "," ++ y) with (String c (r ++ "," ++ y)).
  cbn [split_on]. rewrite Hc. by rewrite (IH Hr).
Qed.

Lemma split_on_of_concat l :
  l <> [] -> Forall (fun x => comma_free x = true) l ->
  split_on "," (String.concat "," l) = l.
Proof.
  induction l as [|x xs IH]; [done|]. intros _ Hall.
  inversion Hall as [|? ? Hx Hxs]; subst.
  destruct xs as [|y ys]; [by apply split_on_comma_free_piece|].
  rewrite concat_cons by done. rewrite split_on_app by done. by rewrite IH.
Qed.

Lemma forallb_lstrip (P : ascii -> bool) s :
  forallb P (list_ascii_of_string s) = true ->
  forallb P (list_ascii_of_string (lstrip s)) = true.
Proof.
  induction s as [|c r IH]; [done|]. cbn [lstrip].
  destruct (isspace c); [|done]. cbn. intros H. apply andb_prop in H as [_ H]. by apply IH.
Qed.

Lemma forallb_rstrip (P : ascii -> bool) s :
  forallb P (list_ascii_of_string s) = true ->
  forallb P (list_ascii_of_string (rstrip s)) = true.
Proof.
  induction s as [|c r IH]; [done|]. cbn [rstrip list_ascii_of_string forallb].
  intros H. apply andb_prop in H as [Hc Hr]. specialize (IH Hr).
  destruct (rstrip r) as [|c' r'].
  - destruct (isspace c); [done|]. cbn. by rewrite Hc.
  - cbn [list_ascii_of_string forallb] in *. by rewrite Hc, IH.
Qed.

Lemma comma_free_strip x : comma_free x = true -> comma_free (strip x) = true.
Proof. intros H. by apply forallb_rstrip, forallb_lstrip. Qed.

(** A test for clean origins. *)
Lemma clean_origin_test origin :
  negb (String.eqb origin "") && String.eqb (strip origin) origin && comma_free origin = true ->
  clean_origin origin.
Proof.
  intros H. apply andb_prop in H as [H H3]. apply andb_prop in H as [H1 H2].
  split; [|split; [by apply String.eqb_eq | done]].
  intros ->. done.
Qed.

(** X21. [parse_cors_origins] on a string gives the pieces between the
    commas, without the whitespace around them and without the pieces
    that are blank: the string is its pieces joined with commas, none of
    which holds a comma, and the origins are those pieces, stripped, in
    their order, the blank ones left out. So every origin is clean (not
    empty, no whitespace around it, no comma), and clean origins joined
    with commas are given back as they were. The empty string gives no
    origin, and a list is returned as it is. *)
Theorem parse_cors_origins_clean (s : string) (l : list string) :
  (exists pieces,
     String.concat "," pieces = s /\
     Forall (fun x => comma_free x = true) pieces /\
     parse_cors_origins (inl s) =
       List.map strip (List.filter (fun x => negb (String.eqb (strip x) "")) pieces)) /\
  Forall clean_origin (parse_cors_origins (inl s)) /\
  (Forall clean_origin l -> parse_cors_origins (inl (String.concat "," l)) = l) /\
  parse_cors_origins (inl "") = [] /\
  parse_cors_origins (inl "http://localhost:3000, http://localhost:8000 ,,") =
    ["http://localhost:3000"; "http://localhost:8000"] /\
  parse_cors_origins (inr l) = l.
Proof.
  split; [|split; [|split; [|split; [done|split; [vm_compute; reflexivity|done]]]]].
  - exists (split_on "," s). split; [apply split_on_concat|]. split; [|done].
    apply split_on_comma_free.
  - apply Forall_forall. intros origin Hin. cbn in Hin. apply list_elem_of_In in Hin.
    apply in_map_iff in Hin as (x & <- & Hx). apply filter_In in Hx as [Hin Hx].
    apply negb_true_iff, String.eqb_neq in Hx. split; [done|].
    split; [apply strip_idempotent|]. apply comma_free_strip.
    pose proof (split_on_comma_free s) as Hall.
    eapply Forall_forall in Hall; [exact Hall|]. by apply list_elem_of_In.
  - intros Hall. destruct l as [|x xs]; [done|].
    cbn [parse_cors_origins]. rewrite split_on_of_concat; [|done|].
    2: { eapply Forall_impl; [exact Hall|]. by intros o (_ & _ & ?). }
    induction Hall as [|o os (Hne & Hstrip & _) Hos IH]; [done|].
    cbn [List.filter List.map]. apply String.eqb_neq in Hne as Hne'.
    rewrite Hstrip, Hne'. cbn [negb List.map]. by rewrite Hstrip, IH.
Qed.

Lemma parse_cors_origins_clean_witness :
  parse_cors_origins (inl "https://tasker.example,http://localhost:3000") =
    ["https://tasker.example"; "http://localhost:3000"].
Proof.
  destruct (parse_cors_origins_clean ""
              ["https://tasker.example"; "http://localhost:3000"]) as (_ & _ & H & _).
  apply H. constructor; [|constructor; [|constructor]];
    apply clean_origin_test; vm_compute; reflexivity.
Defined.

Lemma city_char_space c : isspace c = true -> city_char c = true.
Proof. unfold city_char. intros ->. by rewrite !orb_true_r. Qed.

(** X22. The city of an accepted weather submission, as it is stored
    and handed to the worker, is not empty and holds nothing but
    letters, digits, the underscore, whitespace, and the four characters
    [-], [.], [,] and [']: none of the characters that separate the parts
    of a URL or of a query. Without the whitespace around it, it is at
    most 100 characters long. *)
Theorem accepted_city_is_plain (p : gmap string pyval) (raw : string) :
  validate_weather p = Return tt ->
  p !! "city" = Some (VStr raw) ->
  raw <> "" /\
  forallb city_char (list_ascii_of_string raw) = true /\
  len (strip raw) <= 100 /\
  forall c, In c (list_ascii_of_string "&?#=/:;<>%+@!$*|^~()[]{}") ->
            ~ In c (list_ascii_of_string raw).
Proof.
  unfold validate_weather, reject_if. intros Hv Hcity. rewrite Hcity in Hv.
  destruct (String.eqb (strip raw) "") eqn:Hne; [done|].
  destruct (max_city_length settings <? len (strip raw)) eqn:Hlen; [done|].
  destruct (city_re_match (strip raw)) eqn:Hre; [|done].
  apply String.eqb_neq, strip_nonempty in Hne. apply Z.ltb_ge in Hlen.
  apply andb_prop in Hre as [_ Hre].
  apply (forallb_strip city_char raw city_char_space) in Hre.
  split; [done|]. split; [done|]. split; [done|].
  intros c Hc Hin. eapply forallb_forall in Hre; [|exact Hin].
  cbn in Hc. repeat (destruct Hc as [<- | Hc]; [by vm_compute in Hre|]). done.
Qed.

Lemma accepted_city_is_plain_witness :
  forallb city_char (list_ascii_of_string "  Saint-Louis, MO ") = true.
Proof.
  destruct (accepted_city_is_plain {[ "city" := VStr "  Saint-Louis, MO " ]}
              "  Saint-Louis, MO ") as (_ & H & _); [vm_compute; reflexivity..|exact H].
Defined.

(** ** The service as a whole *)

Lemma same_but_cache_refl w : same_but_cache w w.
Proof. by repeat split. Qed.

Lemma same_but_cache_trans w1 w2 w3 :
  same_but_cache w1 w2 -> same_but_cache w2 w3 -> same_but_cache w1 w3.
Proof.
  unfold same_but_cache. intros (? & ? & ? & ? & ? & ? & ?) (? & ? & ? & ? & ? & ? & ?).
  repeat split; congruence.
Qed.

Lemma toc_ret {A} (a : A) : touches_only_cache (ret a).
Proof. intros w. apply same_but_cache_refl. Qed.

Lemma toc_raise {A} x : touches_only_cache (A:=A) (raise x).
Proof. intros w. apply same_but_cache_refl. Qed.

Lemma toc_gets {A} (f : world -> A) : touches_only_cache (gets f).
Proof. intros w. apply same_but_cache_refl. Qed.

Lemma toc_emit ev : touches_only_cache (emit ev).
Proof. by intros w. Qed.

Lemma toc_set_redis f : touches_only_cache (modify (set_redis f)).
Proof. by intros w. Qed.

Lemma toc_bind {A B} (m : M world A) (k : A -> M world B) :
  touches_only_cache m -> (forall a, touches_only_cache (k a)) ->
  touches_only_cache (bind m k).
Proof.
  intros Hm Hk w. specialize (Hm w). unfold bind.
  destruct (m w) as [[a|x] w1]; cbn in *; [|done].
  eapply same_but_cache_trans; [exact Hm | apply Hk].
Qed.

Ltac toc :=
  repeat first
    [ apply toc_ret | apply toc_raise | apply toc_gets | apply toc_emit
    | apply toc_set_redis
    | apply toc_bind; [|intros ?]
    | match goal with
      | |- touches_only_cache (if ?c then _ else _) => destruct c
      | |- touches_only_cache (match ?x with _ => _ end) => destruct x
      end ].

(** X23. The output route and the cache service write to the cache and
    nowhere else: whatever they find, and whether they return or raise,
    the table, the queue, the gauge and the external services are as
    they were. *)
Theorem output_route_touches_only_the_cache (u : UUID) (key : string)
    (r : TaskOutputResponse) (ttl : option Z) :
  touches_only_cache (get_task_output u) /\
  touches_only_cache (CacheService.get key) /\
  touches_only_cache (CacheService.set key r ttl) /\
  touches_only_cache (CacheService.delete key) /\
  touches_only_cache (CacheService.exists_ key) /\
  touches_only_cache CacheService.disconnect.
Proof.
  unfold get_task_output, get_task_output_from_db, validate_cached, session_get,
    CacheService.get_task_output, CacheService.set_task_output, CacheService.get,
    CacheService.set, CacheService.delete, CacheService.exists_, CacheService.disconnect,
    redis_GET, redis_SETEX, redis_DEL, redis_EXISTS.
  cbv zeta. repeat apply conj; toc.
Qed.

Lemma output_route_frame u w : same_but_cache w (snd (get_task_output u w)).
Proof.
  revert w. change (touches_only_cache (get_task_output u)).
  unfold get_task_output, get_task_output_from_db, validate_cached, session_get,
    CacheService.get_task_output, CacheService.set_task_output, CacheService.get,
    CacheService.set, redis_GET, redis_SETEX.
  cbv zeta. toc.
Qed.

Lemma get_task_status_spec u w :
  get_task_status u w =
  (match db w !! u with
   | Some t => Return {| st_task_uuid := Task.id t; st_status := Task.status t |}
   | None => Raise (Exn (HTTPException 404) ("Task with UUID " ++ u ++ " not found"))
   end, set_log (fun l => (l ++ [SessionGet u])%list) w).
Proof.
  unfold get_task_status, session_get, bind, emit, modify, gets, ret, raise.
  cbn. by destruct (db w !! u).
Qed.

(** [run_task], whatever the request. *)
Lemma run_task_cases request w :
  run_task request w = (fst (run_task request w), w) \/
  exists g',
    snd (run_task request w) =
    {| db := <[uuid4 w (uuid4_calls w) := pending_row request w]> (db w);
       redis := redis w; broker := broker (snd (run_task request w));
       tasks_by_status := g'; log := log (snd (run_task request w));
       ext := ext w; utcnow := utcnow w; uuid4 := uuid4 w;
       uuid4_calls := S (uuid4_calls w) |} /\
    gauge_sum g' = gauge_total w + 1.
Proof.
  destruct (_validate_task_parameters (req_task_name request)
              (req_task_parameters request)) as [[]|x] eqn:Hv.
  - right. rewrite (run_task_validated request w Hv). cbn zeta.
    eexists. destruct (bind_arguments _ _); cbn [fst snd broker log];
      (split; [reflexivity|]); unfold gauge_total; by rewrite gauge_sum_insert by auto.
  - left. unfold run_task, get_celery_task. rewrite Hv. by destruct (is_ValueError x).
Qed.

(** A step of the service draws identifiers from the same sequence and
    moves the total of the gauge as it creates tasks. *)
Lemma handle_counts q w :
  uuid4 (handle q w) = uuid4 w /\
  (uuid4_calls w <= uuid4_calls (handle q w))%nat /\
  gauge_total (handle q w) - tasks_created (handle q w) = gauge_total w - tasks_created w.
Proof.
  unfold tasks_created. destruct q as [request|u|u|]; cbn [handle].
  - destruct (run_task_cases request w) as [-> | (g' & -> & Hg)]; cbn [snd].
    + auto with lia.
    + split; [done|]. split; [cbn; lia|].
      unfold gauge_total in *. cbn [tasks_by_status uuid4_calls]. lia.
  - destruct (output_route_frame u w) as (_ & _ & Hg & _ & _ & Hu & Hn).
    unfold gauge_total. rewrite Hg, Hu, Hn. auto with lia.
  - rewrite get_task_status_spec. cbn [snd]. auto with lia.
  - unfold worker_step. destruct (broker w) as [|m rest]; cbn [default from_option id];
      [auto with lia|].
    destruct (deliver_frame m (set_broker (fun _ => rest) w)) as (_ & _ & Hu & Hn & Hg).
    rewrite Hu, Hn, Hg. split; [done|]. split; [cbn; lia|done].
Qed.

(** A step of the service keeps every row under its own id. *)
Lemma handle_keyed q w : keyed_by_id w -> keyed_by_id (handle q w).
Proof.
  intros Hk. destruct q as [request|u|u|]; cbn [handle].
  - destruct (run_task_cases request w) as [-> | (g' & -> & Hg)]; cbn [snd]; [done|].
    eapply keyed_by_id_insert; [exact Hk | | reflexivity]. done.
  - destruct (output_route_frame u w) as (Hdb & _). unfold keyed_by_id. by rewrite Hdb.
  - by rewrite get_task_status_spec.
  - unfold worker_step. destruct (broker w) as [|m rest]; cbn [default from_option id];
      [done|].
    by destruct (deliver_db m (set_broker (fun _ => rest) w)) as (Hk' & _);
      [apply keyed_by_id_set_broker|].
Qed.

Lemma serve_cons q qs w : serve (q :: qs) w = serve qs (handle q w).
Proof. done. Qed.

Lemma serve_counts qs : forall w,
  uuid4 (serve qs w) = uuid4 w /\
  (uuid4_calls w <= uuid4_calls (serve qs w))%nat /\
  gauge_total (serve qs w) - tasks_created (serve qs w) = gauge_total w - tasks_created w.
Proof.
  induction qs as [|q qs IH]; intros w; [auto with lia|].
  destruct (handle_counts q w) as (Hu1 & Hn1 & Hg1).
  destruct (IH (handle q w)) as (Hu2 & Hn2 & Hg2).
  rewrite serve_cons. split; [congruence|]. split; lia.
Qed.

Lemma serve_keyed qs : forall w, keyed_by_id w -> keyed_by_id (serve qs w).
Proof.
  induction qs as [|q qs IH]; intros w Hk; [done|].
  rewrite serve_cons. by apply IH, handle_keyed.
Qed.

(** X24. The total of the status gauge counts the tasks created. Through
    any history of submissions, reads and worker steps it moves by one
    for each row [run_task] writes and by nothing else, executions and
    retries included; from [init_metrics] on, it is the number of tasks
    created since. *)
Theorem gauge_total_counts_created_tasks (qs : list request) (w : world) :
  gauge_total (serve qs w) - gauge_total w =
    tasks_created (serve qs w) - tasks_created w /\
  gauge_total (snd (init_metrics w)) = 0 /\
  gauge_total (serve qs (snd (init_metrics w))) =
    tasks_created (serve qs (snd (init_metrics w))) - tasks_created w.
Proof.
  assert (Hinit : gauge_total (snd (init_metrics w)) = 0).
  { unfold init_metrics, modify, set_gauge, gauge_total, gauge_sum. cbn.
    rewrite lookup_insert_eq.
    repeat (rewrite lookup_insert_ne by done; rewrite ?lookup_insert_eq). done. }
  split; [|split; [done|]].
  - destruct (serve_counts qs w) as (_ & _ & H). lia.
  - destruct (serve_counts qs (snd (init_metrics w))) as (_ & _ & H).
    rewrite Hinit in H. unfold tasks_created in *. cbn [init_metrics] in H.
    change (uuid4_calls (snd (init_metrics w))) with (uuid4_calls w) in H. lia.
Qed.

(** One step of the service on a row whose id is not drawn again. *)
Lemma handle_row q w u t :
  keyed_by_id w ->
  db w !! u = Some t ->
  never_drawn_again u w ->
  exists t', db (handle q w) !! u = Some t' /\ same_request t t'.
Proof.
  intros Hk Hu Hfresh. destruct q as [request|u'|u'|]; cbn [handle].
  - destruct (run_task_cases request w) as [-> | (g' & -> & Hg)]; cbn [snd db].
    + by exists t.
    + exists t. split; [|done]. rewrite lookup_insert_ne; [done|]. by apply Hfresh.
  - destruct (output_route_frame u' w) as (-> & _). by exists t.
  - rewrite get_task_status_spec. by exists t.
  - unfold worker_step. destruct (broker w) as [|m rest]; cbn [default from_option id];
      [by exists t|].
    set (w0 := set_broker (fun _ => rest) w).
    destruct (decide (msg_task_uuid m = u)) as [Hm|Hm].
    + pose proof (deliver_cases m w0) as Hd.
      destruct (bind_arguments _ _) as [p|x]; rewrite Hd; [|by exists t].
      pose proof (entry_point_run (task_map (msg_task m)) m (msg_task_uuid m) p w0) as H.
      cbn zeta in H. destruct H as (_ & -> & _).
      destruct (execute (task_class (task_map (msg_task m))) p (ext w0)) as [o env'] eqn:He.
      rewrite Hm in *.
      destruct (run_spec _ u p w0 t o env' Hu (Hk _ _ Hu) He) as [g' ->]. cbn [snd db].
      rewrite lookup_insert_eq. eexists. split; [done|]. by destruct o.
    + destruct (deliver_db m w0) as (_ & Hother & _); [by apply keyed_by_id_set_broker|].
      exists t. split; [|done]. rewrite Hother; [done|]. congruence.
Qed.

(** X25. No route and no worker removes a row or changes the request it
    holds. Whatever the history of submissions, reads and worker steps,
    a row of the table is still there afterwards, with its id, its task
    name, its parameters and its creation time as they were, and every
    row is stored under its own id (for a table in which that holds, and
    an id that [uuid4()] does not draw a second time). *)
Theorem row_keeps_its_request (qs : list request) (w : world) (u : UUID) (t : Task.t) :
  keyed_by_id w ->
  db w !! u = Some t ->
  never_drawn_again u w ->
  keyed_by_id (serve qs w) /\
  exists t', db (serve qs w) !! u = Some t' /\ same_request t t'.
Proof.
  intros Hk Hu Hfresh. split; [by apply serve_keyed|].
  revert w t Hk Hu Hfresh. induction qs as [|q qs IH]; intros w t Hk Hu Hfresh.
  { by exists t. }
  rewrite serve_cons.
  destruct (handle_row q w u t Hk Hu Hfresh) as (t1 & Hu1 & Hsame1).
  destruct (handle_counts q w) as (Hgen & Hcalls & _).
  destruct (IH (handle q w) t1) as (t2 & Hu2 & Hsame2); [by apply handle_keyed | done | |].
  { intros n Hn. rewrite Hgen. apply Hfresh. lia. }
  exists t2. split; [done|].
  destruct Hsame1 as (? & ? & ? & ?), Hsame2 as (? & ? & ? & ?).
  repeat split; congruence.
Qed.

Lemma row_keeps_its_request_witness :
  let t := Task.mk "123e4567-e89b-12d3-a456-426614174000" "sum"
             {[ "a" := VInt 1; "b" := VInt 2 ]} PENDING None None 1767000000 None None in
  let w := set_db (fun _ => {[ Task.id t := t ]}) (fresh_world city_unknown) in
  exists t',
    db (serve [Submit (sum_request (VInt 5) (VInt 3)); Work; Output (Task.id t)] w)
      !! Task.id t = Some t' /\
    same_request t t'.
Proof.
  intros t w.
  destruct (row_keeps_its_request
              [Submit (sum_request (VInt 5) (VInt 3)); Work; Output (Task.id t)]
              w (Task.id t) t) as (_ & H).
  - intros u t' Hu.
    change (db w) with ({[ Task.id t := t ]} : gmap UUID Task.t) in Hu.
    by apply lookup_singleton_Some in Hu as [<- <-].
  - vm_compute. reflexivity.
  - intros n _. cbn. discriminate.
  - exact H.
Defined.

(** ** Resubmission, and a cache that cannot be reached *)

(** X26. Submissions are not deduplicated. The same accepted request
    submitted twice creates two tasks: the second answer carries the next
    id [uuid4()] draws, both rows are [pending] with the same parameters,
    one message is queued for each, in the order of the submissions, and
    the [pending] gauge has moved by two. *)
Theorem resubmission_creates_second_task (request : RunTaskRequest) (w : world)
    (p : gmap string pyval) :
  _validate_task_parameters (req_task_name request) (req_task_parameters request)
    = Return tt ->
  bind_arguments (task_map (req_task_name request)) (req_task_parameters request)
    = Return p ->
  let u1 := uuid4 w (uuid4_calls w) in
  let u2 := uuid4 w (S (uuid4_calls w)) in
  u1 <> u2 ->
  let w1 := handle (Submit request) w in
  let w2 := handle (Submit request) w1 in
  fst (run_task request w1) =
    Return {| resp_task_uuid := u2; resp_message := "Task submitted successfully" |} /\
  db w2 !! u1 = Some (pending_row request w) /\
  db w2 !! u2 = Some (pending_row request w1) /\
  Task.task_parameters (pending_row request w1) = Task.task_parameters (pending_row request w) /\
  broker w2 = (broker w ++ [first_delivery request w; first_delivery request w1])%list /\
  msg_task_uuid (first_delivery request w) = u1 /\
  msg_task_uuid (first_delivery request w1) = u2 /\
  gauge w2 "pending" = gauge w "pending" + 2.
Proof.
  intros Hv Hbind u1 u2 Hne w1 w2.
  pose proof (run_task_validated request w Hv) as H1. cbn zeta in H1. rewrite Hbind in H1.
  assert (Hw1 : w1 = snd (run_task request w)) by done.
  rewrite H1 in Hw1. cbn [snd] in Hw1.
  pose proof (run_task_validated request w1 Hv) as H2. cbn zeta in H2. rewrite Hbind in H2.
  assert (Hw2 : w2 = snd (run_task request w1)) by done.
  rewrite H2 in Hw2. cbn [snd] in Hw2.
  assert (Hu2 : uuid4 w1 (uuid4_calls w1) = u2) by (by rewrite Hw1).
  rewrite H2, Hw2, Hu2. cbn [fst db broker].
  split; [done|]. split.
  { rewrite lookup_insert_ne by done. rewrite Hw1. cbn [db]. apply lookup_insert_eq. }
  split; [apply lookup_insert_eq|]. split; [done|]. split.
  { rewrite Hw1 at 1. cbn [broker]. by rewrite <- app_assoc. }
  split; [done|]. split; [by unfold first_delivery; cbn [msg_task_uuid]|].
  unfold gauge. cbn [tasks_by_status]. rewrite lookup_insert_eq.
  rewrite Hw1. cbn [tasks_by_status]. rewrite lookup_insert_eq. cbn. lia.
Qed.

Lemma resubmission_creates_second_task_witness :
  let request := weather_request "London" in
  let w2 := handle (Submit request) (handle (Submit request) (fresh_world city_unknown)) in
  Task.status <$> db w2 !! scenario_uuid 0 = Some PENDING /\
  Task.status <$> db w2 !! scenario_uuid 1 = Some PENDING /\
  length (broker w2) = 2%nat.
Proof.
  intros request w2.
  destruct (resubmission_creates_second_task request (fresh_world city_unknown)
              {[ "city" := VStr "London"; "units" := VStr "metric" ]})
    as (_ & H1 & H2 & _ & H3 & _);
    [vm_compute; reflexivity | vm_compute; reflexivity | by vm_compute |].
  split; [exact (f_equal (fmap Task.status) H1)|].
  split; [exact (f_equal (fmap Task.status) H2)|].
  exact (f_equal length H3).
Defined.

(** X27. When the cache server cannot be reached, the output route
    fails with the error of the client before it reads the database,
    though the row is there; the status route still answers from the
    table, and submissions are answered as they are without a cache. *)
Theorem cache_outage_fails_reads (u : UUID) (request : RunTaskRequest) (w : world)
    (srv : Redis) :
  redis w = Some srv ->
  health srv = Unreachable ->
  (exists e w',
     get_task_output u w = (Raise e, w') /\
     exn_type e = RedisError /\
     store_reads (log w') = store_reads (log w) /\
     db w' = db w /\ redis w' = redis w) /\
  (forall t,
     db w !! u = Some t ->
     fst (get_task_status u w) =
       Return {| st_task_uuid := Task.id t; st_status := Task.status t |}) /\
  fst (run_task request w) = fst (run_task request (without_cache w)).
Proof.
  intros Hr Hh. split; [|split].
  - unfold get_task_output. unfold_cache. rewrite Hr. cbn. rewrite Hh. cbn.
    eexists _, _. split; [reflexivity|]. cbn. repeat split; try done. count_log.
  - intros t Hu. by rewrite get_task_status_spec, Hu.
  - destruct (_validate_task_parameters (req_task_name request)
                (req_task_parameters request)) as [[]|x] eqn:Hv.
    + rewrite (run_task_validated request w Hv),
        (run_task_validated request (without_cache w) Hv).
      cbn zeta. by destruct (bind_arguments _ _).
    + unfold run_task, get_celery_task. rewrite Hv. by destruct (is_ValueError x).
Qed.

Lemma cache_outage_fails_reads_witness :
  Task.status <$> row (with_health Unreachable sum_done) = Some COMPLETED /\
  exists e w',
    get_task_output (scenario_uuid 0) (with_health Unreachable sum_done) = (Raise e, w') /\
    exn_type e = RedisError.
Proof.
  split; [vm_compute; reflexivity|].
  destruct (cache_outage_fails_reads (scenario_uuid 0) (sum_request (VInt 1) (VInt 2))
              (with_health Unreachable sum_done) {| data := ∅; health := Unreachable |})
    as ((e & w' & H1 & H2 & _) & _); [vm_compute; reflexivity | reflexivity |].
  by exists e, w'.
Defined.
